(** * api-load-tester: a shallow embedding of [tester.py]

    The development follows the class [APILoadTester]:

    - Python values: integers are [Z]; floating-point seconds and
      milliseconds are exact rationals [Q] (the places where binary64 rounding
      could change a printed number are cross-checked against IEEE-754
      double arithmetic at the end of the file); [str] is [string]; the
      header dictionary and the two histograms are [gmap]s.
    - Effects: every method runs in the monad [Py], which threads the object
      ([self]) and one trace of observable events (console lines, network
      calls, semaphores, sleeps) and can raise a Python exception.
    - The outside world (network replies, wall clock, the event loop's
      completion order, [random.choice]) is a record of oracles, [World];
      theorems quantify over every world. *)

From Stdlib Require Import ZArith QArith Lia Lqa Ascii String.
From Stdlib Require Import Floats.SpecFloat.
From stdpp Require Import base option list list_numbers sorting gmap strings.

Local Open Scope Z_scope.

(** ** Python exceptions *)

(** The exception classes that occur in [tester.py] or can be raised by the
    builtins it calls. *)
Inductive py_class : Set :=
  | BaseException | Exception | KeyboardInterrupt | SystemExit | CancelledError
  | TimeoutError            (* asyncio.TimeoutError *)
  | ClientError             (* aiohttp.ClientError *)
  | ClientConnectionError   (* aiohttp.ClientConnectionError *)
  | ZeroDivisionError | ValueError | IndexError | StatisticsError.

#[global] Instance py_class_eq_dec : EqDecision py_class.
Proof. solve_decision. Defined.

(** An exception object: the classes it is an instance of (its MRO) and the
    text [str(e)] gives. *)
Record py_exception : Type := mk_exception {
  exc_classes : list py_class;
  exc_str : string
}.

Definition isinstance (e : py_exception) (c : py_class) : bool :=
  bool_decide (c ∈ exc_classes e).

Definition builtin_error (c : py_class) (msg : string) : py_exception :=
  mk_exception [c; Exception; BaseException] msg.

(** ** Data of the program *)

(** JSON values, as [json.loads] builds them for [request_body]. *)
#[local] Set Warnings "-register-all".
Inductive json : Type :=
  | JNull
  | JBool (b : bool)
  | JNumber (q : Q)
  | JString (s : string)
  | JArray (items : list json)
  | JObject (fields : list (string * json)).

(** One entry of [self.results], the dictionary [print_result] appends. *)
Record result_entry : Type := mk_result {
  r_id : Z;
  r_status_code : Z;
  r_response_time : Q;
  r_error : string;
  r_timestamp : Q
}.

(** The attributes of [APILoadTester] set by [__init__].  [lock] and
    [session] carry no data of their own: the lock is the mutual exclusion
    around the append in [print_result], the session is the handle the
    network oracle stands for. *)
Record APILoadTester : Type := mk_tester {
  url : string;
  method : string;
  request_body : option json;
  requests_per_second : Z;
  total_requests : Z;
  use_random_user_agent : bool;
  results : list result_entry
}.

Definition APILoadTester_init : APILoadTester :=
  mk_tester "" "" None 0 0 false [].

Definition set_results (rs : list result_entry) (t : APILoadTester) : APILoadTester :=
  mk_tester (url t) (method t) (request_body t) (requests_per_second t)
            (total_requests t) (use_random_user_agent t) rs.

(** The keyword arguments of [self.session.request(...)]. *)
Record http_request : Type := mk_request {
  req_method : string;
  req_url : string;
  req_headers : gmap string string;
  req_json : option json;
  req_timeout : Z
}.

(** ** Console lines

    A printed line is kept as its label and the values interpolated into it;
    the number formats ([:.2f], [:,]) and the pictographs are rendering. *)
Inductive line : Type :=
  | Rule (width : Z) | Title | NoResults
  | BasicHeader
  | TotalRequests (n : Z) | Successful (n : Z) | Failed (n : Z)
  | SuccessRate (pct : Q) | TestDuration (secs : Q)
  | TargetRPS (n : Z) | ActualRPS (rate : Q)
  | ResponseTimeHeader
  | Count (n : Z) | Average (ms : Q) | Median (ms : Q)
  | Min (ms : Q) | Max (ms : Q) | StdDev (ms : Q)
  | PercentilesHeader | Percentile (p : Z) (ms : Q)
  | ThroughputHeader
  | RequestsPerSecond (rate : Q) | RequestsPerMinute (rate : Q)
  | DataPointsPerSecond (rate : Q) | ThroughputEfficiency (pct : Q)
  | StatusHeader | StatusLine (code count : Z) (pct : Q)
  | ErrorHeader | ErrorLine (kind : string) (count : Z) (pct : Q)
  | PerformanceHeader
  | Fast (n : Z) (pct : Q) | Medium (n : Z) (pct : Q) | Slow (n : Z) (pct : Q)
  | Starting | BannerURL (u : string) | BannerMethod (m : string)
  | BannerTargetRPS (n : Z) | BannerTotalRequests (n : Z)
  | BannerRandomUserAgent (yes : bool)
  | Dashes (width : Z)
  | LoadTestCompleted (secs : Q)
  | Interrupted | PartialResults | UnexpectedErrorLine (msg : string).

(** Everything a run does that can be observed from outside the object. *)
Inductive event : Type :=
  | EvPrint (l : line)
  | EvSessionOpen (limit limit_per_host : Z)
  | EvSessionClose
  | EvSemaphore (capacity : Z)
  | EvGather (request_ids : list Z)
  | EvRequest (request_id : Z) (req : http_request)
  | EvProgress (n : Z)
  | EvSleep (delay : Q).

(** ** The monad of methods *)

Record machine : Type := mk_machine {
  self : APILoadTester;
  trace : list event
}.

Definition Py (A : Type) : Type := machine -> (py_exception + A) * machine.

Definition ret {A} (a : A) : Py A := fun m => (inr a, m).

Definition bind {A B} (c : Py A) (k : A -> Py B) : Py B :=
  fun m => match c m with
           | (inl e, m') => (inl e, m')
           | (inr a, m') => k a m'
           end.

Definition raise {A} (e : py_exception) : Py A := fun m => (inl e, m).

(** [try: body except BaseException as e: handler(e)]; a handler re-raises
    what no [except] clause matches. *)
Definition try_except {A} (body : Py A) (handler : py_exception -> Py A) : Py A :=
  fun m => match body m with
           | (inl e, m') => handler e m'
           | (inr a, m') => (inr a, m')
           end.

(** [try: body finally: cleanup]. *)
Definition try_finally {A} (body : Py A) (cleanup : Py unit) : Py A :=
  fun m => match body m with
           | (inl e, m') =>
               match cleanup m' with
               | (inl e', m'') => (inl e', m'')
               | (inr _, m'') => (inl e, m'')
               end
           | (inr a, m') =>
               match cleanup m' with
               | (inl e', m'') => (inl e', m'')
               | (inr _, m'') => (inr a, m'')
               end
           end.

(** Reading an attribute of [self]. *)
Definition attr {A} (field : APILoadTester -> A) : Py A :=
  fun m => (inr (field (self m)), m).

(** [self.results.append(entry)]: the only write to the object. *)
Definition results_append (entry : result_entry) : Py unit :=
  fun m => (inr tt, mk_machine (set_results (results (self m) ++ [entry]) (self m)) (trace m)).

Definition emit (ev : event) : Py unit :=
  fun m => (inr tt, mk_machine (self m) (trace m ++ [ev])).

Definition print (l : line) : Py unit := emit (EvPrint l).

Declare Scope py_scope.
Delimit Scope py_scope with py.
Notation "x <- c ;; k" := (bind c (fun x => k))
  (at level 100, c at next level, right associativity) : py_scope.
Notation "c ;; k" := (bind c (fun _ => k))
  (at level 100, right associativity) : py_scope.
Local Open Scope py_scope.

(** [for x in xs: body(x)]. *)
Fixpoint for_each {A} (xs : list A) (body : A -> Py unit) : Py unit :=
  match xs with
  | [] => ret tt
  | x :: xs' => body x ;; for_each xs' body
  end.

(** The console output of a trace. *)
Definition stdout (tr : list event) : list line :=
  omap (fun ev => match ev with EvPrint l => Some l | _ => None end) tr.

(** ** Python builtins used by the program *)

Definition Qltb (a b : Q) : bool := negb (Qle_bool b a).

Definition py_len {A} (l : list A) : Z := Z.of_nat (length l).

(** Truthiness of a container: [if xs:]. *)
Definition truthy {A} (l : list A) : bool :=
  match l with [] => false | _ => true end.

(** [a / b] on numbers. *)
Definition truediv (a b : Q) : Py Q :=
  if Qeq_bool b 0 then raise (builtin_error ZeroDivisionError "division by zero")
  else ret (a / b)%Q.

(** [int(x)] on a float: truncation toward zero. *)
Definition py_int (x : Q) : Z := Z.quot (Qnum x) (Zpos (Qden x)).

(** [max(xs)] and [min(xs)]: the first of the largest (smallest) items;
    [ValueError] on an empty sequence. *)
Definition max_from (x : Q) (xs : list Q) : Q :=
  fold_left (fun best y => if Qltb best y then y else best) xs x.

Definition min_from (x : Q) (xs : list Q) : Q :=
  fold_left (fun best y => if Qltb y best then y else best) xs x.

Definition py_max (xs : list Q) : Py Q :=
  match xs with
  | [] => raise (builtin_error ValueError "max() arg is an empty sequence")
  | x :: xs' => ret (max_from x xs')
  end.

Definition py_min (xs : list Q) : Py Q :=
  match xs with
  | [] => raise (builtin_error ValueError "min() arg is an empty sequence")
  | x :: xs' => ret (min_from x xs')
  end.

(** [xs[i]]: negative indices count from the end, anything outside raises. *)
Definition getitem {A} (xs : list A) (i : Z) : Py A :=
  let j := if i <? 0 then i + py_len xs else i in
  if j <? 0 then raise (builtin_error IndexError "list index out of range")
  else match xs !! Z.to_nat j with
       | Some x => ret x
       | None => raise (builtin_error IndexError "list index out of range")
       end.

(** [sorted(xs)]: a stable sort, here by insertion. *)
Fixpoint insert_by {A} (leb : A -> A -> bool) (x : A) (l : list A) : list A :=
  match l with
  | [] => [x]
  | y :: l' => if leb x y then x :: l else y :: insert_by leb x l'
  end.

Definition sorted_by {A} (leb : A -> A -> bool) (l : list A) : list A :=
  foldr (insert_by leb) [] l.

Definition sorted (xs : list Q) : list Q := sorted_by Qle_bool xs.

(** Order of the tuples [dict.items()] yields: first component, then the
    second. *)
Definition item_leb {K} (cmp : K -> K -> comparison) (a b : K * Z) : bool :=
  match cmp a.1 b.1 with
  | Lt => true
  | Eq => a.2 <=? b.2
  | Gt => false
  end.

(** [range(start, stop, step)]. *)
Definition range_list (start stop step : Z) : list Z :=
  let n := if 0 <? step then (stop - start + step - 1) / step
           else (start - stop - step - 1) / (- step) in
  (fun i => start + i * step) <$> seqZ 0 n.

Definition py_range (start stop step : Z) : Py (list Z) :=
  if step =? 0 then raise (builtin_error ValueError "range() arg 3 must not be zero")
  else ret (range_list start stop step).

(** [s.split(':')[0]]: the text before the first colon. *)
Fixpoint before_colon (s : string) : string :=
  match s with
  | EmptyString => EmptyString
  | String c s' => if Ascii.eqb c ":"%char then EmptyString else String c (before_colon s')
  end.

(** *** The [statistics] module

    [mean] and [median] are exact on rationals.  [stdev] needs a square
    root, which the rationals do not have: it is a parameter of the section
    that holds the aggregator. *)

Definition Qsum (xs : list Q) : Q := fold_left Qplus xs 0%Q.

Definition statistics_mean (data : list Q) : Py Q :=
  if truthy data then ret (Qsum data / inject_Z (py_len data))%Q
  else raise (builtin_error StatisticsError "mean requires at least one data point").

Definition statistics_median (data : list Q) : Py Q :=
  let data := sorted data in
  let n := py_len data in
  if n =? 0 then raise (builtin_error StatisticsError "no median for empty data")
  else if n mod 2 =? 1 then getitem data (n / 2)
  else
    let i := n / 2 in
    a <- getitem data (i - 1) ;;
    b <- getitem data i ;;
    ret ((a + b) / 2)%Q.

Definition sum_squares (data : list Q) : Q :=
  let c := (Qsum data / inject_Z (py_len data))%Q in
  Qsum ((fun x => (x - c) * (x - c))%Q <$> data).

(** ** The outside world *)

(** What [self.session.request] does: a response with a status line, or an
    exception raised while the call is awaited. *)
Inductive reply : Type :=
  | Responded (status : Z)
  | Raised (e : py_exception).

Record World : Type := mk_world {
  (** the network's answer to the call made for a request id *)
  session_request : Z -> http_request -> reply;
  (** the index [random.choice] draws for a request id *)
  random_index : Z -> nat;
  (** [time.time()] just before the call, when the call is resolved, and
      inside [print_result] *)
  time_started : Z -> Q;
  time_resolved : Z -> Q;
  time_recorded : Z -> Q;
  (** [time.time()] around the batch loop *)
  time_run_started : Q;
  time_run_finished : Q;
  (** the event loop: which of the pending tasks of the batch starting at
      [batch_start] finishes next, as a position among those still pending *)
  next_finished : Z -> nat -> nat
}.

Definition USER_AGENTS : list string := [
  "Mozilla/5.0 (Windows NT 10.0; Win64; x64) AppleWebKit/537.36 (KHTML, like Gecko) Chrome/91.0.4472.124 Safari/537.36";
  "Mozilla/5.0 (Macintosh; Intel Mac OS X 10_15_7) AppleWebKit/537.36 (KHTML, like Gecko) Chrome/91.0.4472.124 Safari/537.36";
  "Mozilla/5.0 (X11; Linux x86_64) AppleWebKit/537.36 (KHTML, like Gecko) Chrome/91.0.4472.124 Safari/537.36";
  "Mozilla/5.0 (Windows NT 10.0; Win64; x64; rv:89.0) Gecko/20100101 Firefox/89.0";
  "Mozilla/5.0 (Macintosh; Intel Mac OS X 10.15; rv:89.0) Gecko/20100101 Firefox/89.0";
  "Mozilla/5.0 (X11; Linux x86_64; rv:89.0) Gecko/20100101 Firefox/89.0";
  "Mozilla/5.0 (Windows NT 10.0; Win64; x64) AppleWebKit/537.36 (KHTML, like Gecko) Edge/91.0.864.59";
  "Mozilla/5.0 (Macintosh; Intel Mac OS X 10_15_7) AppleWebKit/605.1.15 (KHTML, like Gecko) Version/14.1.1 Safari/605.1.15"
]%string.

(** [random.choice(seq)] with the drawn index reduced to the length. *)
Definition random_choice (k : nat) (seq : list string) : string :=
  default EmptyString (seq !! (k mod length seq)%nat).

Section Tester.

Variable w : World.
(** [math.sqrt], as [statistics.stdev] calls it. *)
Variable py_sqrt : Q -> Q.

(** ** [make_request] *)

Definition request_headers (ua : bool) (request_id : Z) : gmap string string :=
  let headers : gmap string string := {[ "Content-Type"%string := "application/json"%string ]} in
  if ua then <[ "User-Agent"%string := random_choice (random_index w request_id) USER_AGENTS ]> headers
  else headers.

(** [async with self.session.request(...) as response]: the call is seen on
    the trace, then either yields the response status or raises. *)
Definition session_call (request_id : Z) (req : http_request) : Py Z :=
  emit (EvRequest request_id req) ;;
  match session_request w request_id req with
  | Responded status => ret status
  | Raised e => raise e
  end.

(** The statements of the [try] body that precede the call (the header
    dictionary and [start_time]) cannot raise; they are bound before the
    [try] so that the handlers can read [start_time] as the source does. *)
Definition make_request (request_id : Z) : Py (Z * Z * Q * string) :=
  ua <- attr use_random_user_agent ;;
  let headers := request_headers ua request_id in
  let start_time := time_started w request_id in
  try_except
    (m <- attr method ;;
     u <- attr url ;;
     body <- attr request_body ;;
     status <- session_call request_id
       (mk_request m u headers
          (if bool_decide (m ∈ ["POST"; "PUT"]%string) then body else None) 30) ;;
     let response_time := ((time_resolved w request_id - start_time) * 1000)%Q in
     ret (request_id, status, response_time, EmptyString))
    (fun e =>
       let response_time := ((time_resolved w request_id - start_time) * 1000)%Q in
       if isinstance e TimeoutError then
         ret (request_id, 0, response_time, "Timeout"%string)
       else if isinstance e ClientConnectionError then
         ret (request_id, 0, response_time, "Connection Error"%string)
       else if isinstance e ClientError then
         ret (request_id, 0, response_time, ("Client Error: " ++ exc_str e)%string)
       else if isinstance e Exception then
         ret (request_id, 0, response_time, ("Unexpected Error: " ++ exc_str e)%string)
       else raise e).

(** ** [print_result] *)

Definition print_result (result : Z * Z * Q * string) : Py unit :=
  let '(request_id, status_code, response_time, error) := result in
  results_append
    (mk_result request_id status_code response_time error (time_recorded w request_id)).

(** ** [print_summary] *)

Definition statistics_stdev (data : list Q) : Py Q :=
  if py_len data <? 2
  then raise (builtin_error StatisticsError "stdev requires at least two data points")
  else ret (py_sqrt (sum_squares data / inject_Z (py_len data - 1))%Q).

Definition is_success (r : result_entry) : bool := 0 <? r_status_code r.

(** The index the percentile loop reads for percentile [p] of [n] sorted
    times:
    [idx = int((p / 100) * len(sorted_times)) - 1; if idx < 0: idx = 0]. *)
Definition percentile_index (p n : Z) : Z :=
  let idx := py_int ((inject_Z p / 100) * inject_Z n)%Q - 1 in
  if idx <? 0 then 0 else idx.

Definition percentiles : list Z := [50; 75; 90; 95; 99].

(** # Calculate test duration *)
Definition test_duration_and_rps (rs : list result_entry) (total_requests : Z) : Py (Q * Q) :=
  if truthy rs then
    let timestamps := r_timestamp <$> rs in
    hi <- py_max timestamps ;;
    lo <- py_min timestamps ;;
    let test_duration := (hi - lo)%Q in
    actual_rps <- (if Qltb 0 test_duration
                   then truediv (inject_Z total_requests) test_duration
                   else ret 0%Q) ;;
    ret (test_duration, actual_rps)
  else ret (0%Q, 0%Q).

(** # Basic Statistics *)
Definition basic_statistics (total_requests successful_requests failed_requests : Z)
    (test_duration actual_rps : Q) : Py unit :=
  print BasicHeader ;;
  print (TotalRequests total_requests) ;;
  print (Successful successful_requests) ;;
  print (Failed failed_requests) ;;
  rate <- truediv (inject_Z successful_requests) (inject_Z total_requests) ;;
  print (SuccessRate (rate * 100)%Q) ;;
  print (TestDuration test_duration) ;;
  target <- attr requests_per_second ;;
  print (TargetRPS target) ;;
  print (ActualRPS actual_rps).

(** # Response Time Statistics, # Percentiles *)
Definition response_time_statistics (response_times : list Q) : Py unit :=
  if truthy response_times then
    print ResponseTimeHeader ;;
    print (Count (py_len response_times)) ;;
    avg <- statistics_mean response_times ;;
    print (Average avg) ;;
    med <- statistics_median response_times ;;
    print (Median med) ;;
    lo <- py_min response_times ;;
    print (Min lo) ;;
    hi <- py_max response_times ;;
    print (Max hi) ;;
    sd <- (if 1 <? py_len response_times then statistics_stdev response_times else ret 0%Q) ;;
    print (StdDev sd) ;;
    let sorted_times := sorted response_times in
    print PercentilesHeader ;;
    for_each percentiles (fun p =>
      let idx := percentile_index p (py_len sorted_times) in
      v <- getitem sorted_times idx ;;
      print (Percentile p v))
  else ret tt.

(** # Throughput Analysis *)
Definition throughput_analysis (test_duration actual_rps : Q) : Py unit :=
  if Qltb 0 test_duration then
    print ThroughputHeader ;;
    print (RequestsPerSecond actual_rps) ;;
    print (RequestsPerMinute (actual_rps * 60)%Q) ;;
    rs <- attr results ;;
    dps <- truediv (inject_Z (py_len rs)) test_duration ;;
    print (DataPointsPerSecond dps) ;;
    target <- attr requests_per_second ;;
    efficiency <- (if 0 <? target
                   then r <- truediv actual_rps (inject_Z target) ;; ret (r * 100)%Q
                   else ret 0%Q) ;;
    print (ThroughputEfficiency efficiency)
  else ret tt.

(** [d[k] = d.get(k, 0) + 1] *)
Definition count_up `{Countable K} (k : K) (d : gmap K Z) : gmap K Z :=
  <[ k := default 0 (d !! k) + 1 ]> d.

(** # Status code distribution *)
Definition status_code_distribution (total_requests : Z) : Py unit :=
  rs <- attr results ;;
  let status_codes : gmap Z Z :=
    fold_left (fun d result =>
                 let code := r_status_code result in
                 if 0 <? code then count_up code d else d) rs ∅ in
  if truthy (map_to_list status_codes) then
    print StatusHeader ;;
    for_each (sorted_by (item_leb Z.compare) (map_to_list status_codes))
      (fun '(code, count) =>
         ratio <- truediv (inject_Z count) (inject_Z total_requests) ;;
         print (StatusLine code count (ratio * 100)%Q))
  else ret tt.

(** # Error distribution *)
Definition error_distribution (total_requests : Z) : Py unit :=
  rs <- attr results ;;
  let errors : gmap string Z :=
    fold_left (fun d result =>
                 if bool_decide (r_error result ≠ EmptyString)
                 then count_up (before_colon (r_error result)) d else d) rs ∅ in
  if truthy (map_to_list errors) then
    print ErrorHeader ;;
    for_each (sorted_by (item_leb String.compare) (map_to_list errors))
      (fun '(error, count) =>
         ratio <- truediv (inject_Z count) (inject_Z total_requests) ;;
         print (ErrorLine error count (ratio * 100)%Q))
  else ret tt.

(** # Performance Analysis *)
Definition performance_analysis (all_response_times : list Q) (total_requests : Z) : Py unit :=
  if truthy all_response_times then
    print PerformanceHeader ;;
    let fast_requests := py_len (filter (fun t => Qltb t 100 = true) all_response_times) in
    let medium_requests :=
      py_len (filter (fun t => Qle_bool 100 t && Qltb t 500 = true) all_response_times) in
    let slow_requests := py_len (filter (fun t => Qle_bool 500 t = true) all_response_times) in
    f <- truediv (inject_Z fast_requests) (inject_Z total_requests) ;;
    print (Fast fast_requests (f * 100)%Q) ;;
    m <- truediv (inject_Z medium_requests) (inject_Z total_requests) ;;
    print (Medium medium_requests (m * 100)%Q) ;;
    s <- truediv (inject_Z slow_requests) (inject_Z total_requests) ;;
    print (Slow slow_requests (s * 100)%Q)
  else ret tt.

Definition print_summary : Py unit :=
  print (Rule 70) ;;
  print Title ;;
  print (Rule 70) ;;
  rs <- attr results ;;
  if negb (truthy rs) then
    print NoResults
  else
    (* # Calculate basic statistics *)
    let total_requests := py_len rs in
    let successful_requests := py_len (filter (fun r => is_success r = true) rs) in
    let failed_requests := total_requests - successful_requests in
    let response_times := r_response_time <$> filter (fun r => is_success r = true) rs in
    let all_response_times := r_response_time <$> rs in
    timing <- test_duration_and_rps rs total_requests ;;
    let '(test_duration, actual_rps) := timing in
    basic_statistics total_requests successful_requests failed_requests
                     test_duration actual_rps ;;
    response_time_statistics response_times ;;
    throughput_analysis test_duration actual_rps ;;
    status_code_distribution total_requests ;;
    error_distribution total_requests ;;
    performance_analysis all_response_times total_requests ;;
    print (Rule 70).

(** ** [run_load_test] *)

(** # Calculate timing and concurrency: [(batch_size, delay_between_batches)] *)
Definition timing_and_concurrency (requests_per_second : Z) : Z * Q :=
  if 100 <=? requests_per_second
  then (Z.min requests_per_second 1000, 1%Q)
  else (requests_per_second, 1%Q).

(** The inner coroutine [limited_request]; [async with semaphore] admits it
    at once, see [semaphore_admits_batch]. *)
Definition limited_request (request_id : Z) : Py (Z * Z * Q * string) :=
  result <- make_request request_id ;;
  print_result result ;;
  emit (EvProgress 1) ;;
  ret result.

(** The order in which the tasks of one batch run to their end: at each step
    the event loop resumes one of the tasks still pending. *)
Fixpoint completion_order (choose : nat -> nat) (step fuel : nat) (pending : list Z) : list Z :=
  match fuel with
  | O => []
  | S fuel' =>
      let i := (choose step mod length pending)%nat in
      match pending !! i with
      | Some request_id =>
          request_id :: completion_order choose (S step) fuel' (delete i pending)
      | None => []
      end
  end.

(** [await asyncio.gather] with [return_exceptions=True]: every task runs
    to its end; an exception that leaves a task is kept as that task's
    result, except [KeyboardInterrupt] and [SystemExit], which the event
    loop lets through. *)
Definition gather (batch_start : Z) (batch_requests : list Z) : Py unit :=
  emit (EvGather batch_requests) ;;
  for_each
    (completion_order (next_finished w batch_start) 0 (length batch_requests) batch_requests)
    (fun request_id =>
       try_except (limited_request request_id ;; ret tt)
         (fun e => if isinstance e KeyboardInterrupt || isinstance e SystemExit
                   then raise e else ret tt)).

Definition run_load_test : Py unit :=
  print Starting ;;
  u <- attr url ;;
  print (BannerURL u) ;;
  m <- attr method ;;
  print (BannerMethod m) ;;
  rps <- attr requests_per_second ;;
  print (BannerTargetRPS rps) ;;
  total <- attr total_requests ;;
  print (BannerTotalRequests total) ;;
  ua <- attr use_random_user_agent ;;
  print (BannerRandomUserAgent ua) ;;
  print (Dashes 70) ;;
  rps <- attr requests_per_second ;;
  let '(batch_size, delay_between_batches) := timing_and_concurrency rps in
  rps <- attr requests_per_second ;;
  emit (EvSessionOpen (Z.min (rps * 2) 2000) (Z.min rps 1000)) ;;
  try_finally
    (let start_time := time_run_started w in
     total <- attr total_requests ;;
     batch_starts <- py_range 0 total batch_size ;;
     for_each batch_starts (fun batch_start =>
       total <- attr total_requests ;;
       let batch_end := Z.min (batch_start + batch_size) total in
       batch_requests <- py_range (batch_start + 1) (batch_end + 1) 1 ;;
       emit (EvSemaphore (Z.min (py_len batch_requests) 1000)) ;;
       gather batch_start batch_requests ;;
       if batch_end <? total then emit (EvSleep delay_between_batches) else ret tt) ;;
     let total_time := (time_run_finished w - start_time)%Q in
     print (LoadTestCompleted total_time))
    (emit EvSessionClose) ;;
  print_summary.

(** ** [run], after the parameters have been collected *)

Definition run : Py unit :=
  try_except run_load_test
    (fun e =>
       if isinstance e KeyboardInterrupt then
         print Interrupted ;;
         rs <- attr results ;;
         if truthy rs then print PartialResults ;; print_summary else ret tt
       else if isinstance e Exception then
         print (UnexpectedErrorLine (exc_str e)) ;;
         raise (mk_exception [SystemExit; BaseException] "1")
       else raise e).

End Tester.

(** ** Reading the outcome of a method *)

(** The lines a method prints when started on object [t] with an empty
    trace, and the object it leaves. *)
Definition console {A} (c : Py A) (t : APILoadTester) : list line :=
  stdout (trace (c (mk_machine t [])).2).

Definition object_after {A} (c : Py A) (t : APILoadTester) : APILoadTester :=
  self (c (mk_machine t [])).2.

(** [runs t c a evs]: on object [t], whatever happened before, [c] returns
    [a] without raising, leaves the object as it was and adds exactly the
    events [evs]. *)
Definition runs {A} (t : APILoadTester) (c : Py A) (a : A) (evs : list event) : Prop :=
  forall tr, c (mk_machine t tr) = (inr a, mk_machine t (tr ++ evs)).

(** ** The words of the specification *)

(** Nearest rank: index [max(0, ceil(p/100 * n) - 1)]. *)
Definition ceil_div (a b : Z) : Z := - ((- a) / b).

Definition spec_nearest_rank_index (p n : Z) : Z :=
  Z.max 0 (ceil_div (p * n) 100 - 1).

(** The index the program uses, in integer arithmetic. *)
Definition floor_rank_index (p n : Z) : Z := Z.max 0 (p * n / 100 - 1).

(** [hi] is a largest (smallest) element of [xs]. *)
Definition is_maximum (hi : Q) (xs : list Q) : Prop :=
  hi ∈ xs /\ forall x, x ∈ xs -> (x <= hi)%Q.

Definition is_minimum (lo : Q) (xs : list Q) : Prop :=
  lo ∈ xs /\ forall x, x ∈ xs -> (lo <= x)%Q.

(** Consecutive batches of size [size] covering [[1, total]], the last one
    possibly shorter. *)
Definition consecutive_batches (total size : Z) (batches : list (list Z)) : Prop :=
  concat batches = seqZ 1 total /\
  forall i b, batches !! i = Some b ->
    (0 < py_len b <= size) /\
    (S i < length batches -> py_len b = size)%nat.

(** The error kinds of the specification, and the kind an error text of the
    program stands for. *)
Inductive error_kind : Type :=
  | Timeout
  | ConnectionError
  | ClientErrorKind (detail : string)
  | UnexpectedError (detail : string).

Definition error_text (k : error_kind) : string :=
  match k with
  | Timeout => "Timeout"
  | ConnectionError => "Connection Error"
  | ClientErrorKind detail => "Client Error: " ++ detail
  | UnexpectedError detail => "Unexpected Error: " ++ detail
  end.

(** Classification by precedence: timeout, connection, client, anything
    else. *)
Definition classify (e : py_exception) : error_kind :=
  if isinstance e TimeoutError then Timeout
  else if isinstance e ClientConnectionError then ConnectionError
  else if isinstance e ClientError then ClientErrorKind (exc_str e)
  else UnexpectedError (exc_str e).

(** The gathered batches and the semaphores of a trace. *)
Definition batches_of (tr : list event) : list (list Z) :=
  omap (fun ev => match ev with EvGather ids => Some ids | _ => None end) tr.

Definition requests_of (tr : list event) : list (Z * http_request) :=
  omap (fun ev => match ev with EvRequest i r => Some (i, r) | _ => None end) tr.

Definition semaphores_of (tr : list event) : list Z :=
  omap (fun ev => match ev with EvSemaphore capacity => Some capacity | _ => None end) tr.

(** ** The report, block by block

    What each block of [print_summary] prints, as plain data; the lemmas
    further down show that the method prints exactly this. *)

(** What the block [# Response Time Statistics] prints for the successful
    response times [rt]. *)
Definition response_time_report (rt : list Q) (R : list line) : Prop :=
  exists avg med lo hi sd pl,
    R = [ResponseTimeHeader; Count (py_len rt); Average avg; Median med;
         Min lo; Max hi; StdDev sd; PercentilesHeader] ++ pl
    /\ is_minimum lo rt /\ is_maximum hi rt
    /\ (py_len rt = 1 -> sd = 0%Q)
    /\ Forall2 (fun p l => exists v, l = Percentile p v /\
                  sorted rt !! Z.to_nat (percentile_index p (py_len rt)) = Some v)
               percentiles pl.

(** [# Calculate test duration] *)
Definition duration_of (rs : list result_entry) : Q :=
  match r_timestamp <$> rs with
  | [] => 0%Q
  | x :: xs => (max_from x xs - min_from x xs)%Q
  end.

(** [# Basic Statistics] *)
Definition basic_report (t : APILoadTester) (total successful failed : Z)
    (duration rate : Q) : list line :=
  [BasicHeader; TotalRequests total; Successful successful; Failed failed;
   SuccessRate (inject_Z successful / inject_Z total * 100)%Q;
   TestDuration duration; TargetRPS (requests_per_second t); ActualRPS rate].

(** [# Throughput Analysis] *)
Definition throughput_report (t : APILoadTester) (duration rate : Q) : list line :=
  if Qltb 0 duration then
    [ThroughputHeader; RequestsPerSecond rate; RequestsPerMinute (rate * 60)%Q;
     DataPointsPerSecond (inject_Z (py_len (results t)) / duration)%Q;
     ThroughputEfficiency
       (if 0 <? requests_per_second t
        then (rate / inject_Z (requests_per_second t) * 100)%Q else 0%Q)]
  else [].

(** The two histograms *)
Definition distribution_report {K} (header : line) (mk : K -> Z -> Q -> line)
    (n : Z) (items : list (K * Z)) : list line :=
  if truthy items
  then header :: ((fun kc => mk kc.1 kc.2 (inject_Z kc.2 / inject_Z n * 100)%Q) <$> items)
  else [].

Definition status_histogram (rs : list result_entry) : gmap Z Z :=
  fold_left (fun d result =>
               let code := r_status_code result in
               if 0 <? code then count_up code d else d) rs ∅.

Definition error_histogram (rs : list result_entry) : gmap string Z :=
  fold_left (fun d result =>
               if bool_decide (r_error result ≠ EmptyString)
               then count_up (before_colon (r_error result)) d else d) rs ∅.

(** [# Performance Analysis] *)
Definition performance_report (times : list Q) (n : Z) : list line :=
  if truthy times then
    let fast := py_len (filter (fun x => Qltb x 100 = true) times) in
    let medium := py_len (filter (fun x => Qle_bool 100 x && Qltb x 500 = true) times) in
    let slow := py_len (filter (fun x => Qle_bool 500 x = true) times) in
    [PerformanceHeader;
     Fast fast (inject_Z fast / inject_Z n * 100)%Q;
     Medium medium (inject_Z medium / inject_Z n * 100)%Q;
     Slow slow (inject_Z slow / inject_Z n * 100)%Q]
  else [].

Definition successful_times (t : APILoadTester) : list Q :=
  r_response_time <$> filter (fun r => is_success r = true) (results t).

Definition all_timestamps (t : APILoadTester) : list Q := r_timestamp <$> results t.

(** The rate printed for a given duration. *)
Definition rate_for (t : APILoadTester) (duration : Q) : Q :=
  if Qltb 0 duration then (inject_Z (py_len (results t)) / duration)%Q else 0%Q.

(** The layout of the report for a non-empty collection, given the observed
    duration and the lines [R] of the response-time block. *)
Definition summary_layout (t : APILoadTester) (duration : Q) (R : list line) : list line :=
  let n := py_len (results t) in
  let s := py_len (filter (fun r => is_success r = true) (results t)) in
  [Rule 70; Title; Rule 70]
  ++ basic_report t n s (n - s) duration (rate_for t duration)
  ++ R
  ++ throughput_report t duration (rate_for t duration)
  ++ distribution_report StatusHeader StatusLine n
       (sorted_by (item_leb Z.compare) (map_to_list (status_histogram (results t))))
  ++ distribution_report ErrorHeader ErrorLine n
       (sorted_by (item_leb String.compare) (map_to_list (error_histogram (results t))))
  ++ performance_report (r_response_time <$> results t) n
  ++ [Rule 70].

Definition test_duration_of (l : line) : option Q :=
  match l with TestDuration d => Some d | _ => None end.

Definition actual_rps_of (l : line) : option Q :=
  match l with ActualRPS r => Some r | _ => None end.

Definition percentile_of (l : line) : option (Z * Q) :=
  match l with Percentile p v => Some (p, v) | _ => None end.

Definition std_dev_of (l : line) : option Q :=
  match l with StdDev sd => Some sd | _ => None end.

Definition efficiency_of (l : line) : option Q :=
  match l with ThroughputEfficiency e => Some e | _ => None end.

Definition error_line_of (l : line) : option (string * Z * Q) :=
  match l with ErrorLine k c pct => Some (k, c, pct) | _ => None end.

Definition error_header_of (l : line) : option unit :=
  match l with ErrorHeader => Some tt | _ => None end.

(** The lines of the blocks [# Response Time Statistics] and [# Percentiles]. *)
Definition latency_line (l : line) : option line :=
  match l with
  | ResponseTimeHeader | Count _ | Average _ | Median _ | Min _ | Max _
  | StdDev _ | PercentilesHeader | Percentile _ _ => Some l
  | _ => None
  end.

(** How many recorded outcomes carry an error text whose kind (the text
    before the first colon) is [k]. *)
Definition error_key (r : result_entry) : option string :=
  if bool_decide (r_error r ≠ EmptyString) then Some (before_colon (r_error r)) else None.

Definition error_count (rs : list result_entry) (k : string) : Z :=
  py_len (filter (fun r => error_key r = Some k) rs).

(** The observed rate of the specification: [totalOutcomes / duration], and
    [0] when the duration is [0]. *)
Definition spec_observed_rate (total : Z) (duration : Q) : Q :=
  if Qeq_bool duration 0 then 0%Q else (inject_Z total / duration)%Q.

(** Throughput efficiency of the specification: [observedRate / targetRate * 100]. *)
Definition spec_efficiency (observed_rate : Q) (target_rate : Z) : Q :=
  (observed_rate / inject_Z target_rate * 100)%Q.

(** ** The executor and the dispatcher, as plain data

    What [make_request] sends and returns for a request id, and what one
    batch of [run_load_test] leaves on the trace; the lemmas further down
    show that the methods do exactly this. *)

Definition latency (w : World) (request_id : Z) : Q :=
  ((time_resolved w request_id - time_started w request_id) * 1000)%Q.

Definition outgoing_request (w : World) (t : APILoadTester) (request_id : Z) : http_request :=
  mk_request (method t) (url t)
    (request_headers w (use_random_user_agent t) request_id)
    (if bool_decide (method t ∈ ["POST"; "PUT"]%string) then request_body t else None)
    30.

(** The exceptions some [except] clause of [make_request] catches. *)
Definition handled (e : py_exception) : bool :=
  isinstance e TimeoutError || isinstance e ClientConnectionError
  || isinstance e ClientError || isinstance e Exception.

Definition outcome_of (w : World) (t : APILoadTester) (request_id : Z) : Z * Z * Q * string :=
  match session_request w request_id (outgoing_request w t request_id) with
  | Responded status => (request_id, status, latency w request_id, EmptyString)
  | Raised e => (request_id, 0, latency w request_id, error_text (classify e))
  end.

Definition entry_of (w : World) (t : APILoadTester) (request_id : Z) : result_entry :=
  let '(i, status_code, response_time, error) := outcome_of w t request_id in
  mk_result i status_code response_time error (time_recorded w request_id).

(** No interrupt reaches a request: whatever the network raises derives
    from [Exception]. *)
Definition uninterrupted (w : World) : Prop :=
  forall request_id req e,
    session_request w request_id req = Raised e -> isinstance e Exception = true.


Definition batch_size (t : APILoadTester) : Z :=
  (timing_and_concurrency (requests_per_second t)).1.

Definition batch_ids (t : APILoadTester) (batch_start : Z) : list Z :=
  seqZ (batch_start + 1)
       (Z.min (batch_start + batch_size t) (total_requests t) - batch_start).

Definition batch_order (w : World) (t : APILoadTester) (batch_start : Z) : list Z :=
  completion_order (next_finished w batch_start) 0
    (length (batch_ids t batch_start)) (batch_ids t batch_start).

Definition task_events (w : World) (t : APILoadTester) (request_id : Z) : list event :=
  [EvRequest request_id (outgoing_request w t request_id); EvProgress 1].

Definition batch_trace (w : World) (t : APILoadTester) (batch_start : Z) : list event :=
  [EvSemaphore (Z.min (py_len (batch_ids t batch_start)) 1000);
   EvGather (batch_ids t batch_start)]
  ++ concat (task_events w t <$> batch_order w t batch_start)
  ++ (if Z.min (batch_start + batch_size t) (total_requests t) <? total_requests t
      then [EvSleep 1] else []).

(** What [run_load_test] leaves on the trace before the first batch. *)
Definition run_prelude (t : APILoadTester) : list event :=
  [EvPrint Starting; EvPrint (BannerURL (url t)); EvPrint (BannerMethod (method t));
   EvPrint (BannerTargetRPS (requests_per_second t));
   EvPrint (BannerTotalRequests (total_requests t));
   EvPrint (BannerRandomUserAgent (use_random_user_agent t));
   EvPrint (Dashes 70);
   EvSessionOpen (Z.min (requests_per_second t * 2) 2000)
                 (Z.min (requests_per_second t) 1000)].

Definition batch_starts (t : APILoadTester) : list Z :=
  (fun i => i * batch_size t) <$>
    seqZ 0 ((total_requests t + batch_size t - 1) / batch_size t).

(** ** Concrete runs

    A small world and a few objects on which the methods are evaluated. *)

(** An exception that is both a timeout and a connection error, as
    [aiohttp.ServerTimeoutError] is. *)
Definition server_timeout : py_exception :=
  mk_exception [TimeoutError; ClientConnectionError; ClientError; Exception; BaseException]
               "Timeout on reading data from socket".

(** Every third request times out, the others are answered 200; request
    [i] starts at second [i], is resolved a tenth of a second later and
    recorded after another tenth; of the pending tasks the event loop always
    finishes the last one first. *)
Definition demo_world : World :=
  mk_world
    (fun request_id _ => if request_id mod 3 =? 0 then Raised server_timeout else Responded 200)
    (fun request_id => Z.to_nat request_id)
    (fun request_id => inject_Z request_id)
    (fun request_id => (inject_Z request_id + (1 # 10))%Q)
    (fun request_id => (inject_Z request_id + (2 # 10))%Q)
    0%Q 10%Q
    (fun _ step => (step + 2)%nat).

(** The same world, except that the operator's interrupt arrives while
    request 5 is awaited. *)
Definition interrupting_world : World :=
  mk_world
    (fun request_id req =>
       if request_id =? 5
       then Raised (mk_exception [KeyboardInterrupt; BaseException] "")
       else session_request demo_world request_id req)
    (random_index demo_world) (time_started demo_world) (time_resolved demo_world)
    (time_recorded demo_world) (time_run_started demo_world) (time_run_finished demo_world)
    (next_finished demo_world).

(** A square root good enough for evaluation: the claims do not depend on it. *)
Definition demo_sqrt (x : Q) : Q := x.

(** Seven POST requests at three per second. *)
Definition demo_tester : APILoadTester :=
  mk_tester "https://example.com/api" "POST" (Some (JObject [])) 3 7 true [].

Definition success_entry (i : Z) (ms : Q) (at_time : Q) : result_entry :=
  mk_result i 200 ms EmptyString at_time.

Definition with_results (rps : Z) (rs : list result_entry) : APILoadTester :=
  mk_tester "https://example.com/api" "GET" None rps (py_len rs) false rs.

Definition three_latencies : APILoadTester :=
  with_results 10 [success_entry 1 30 1; success_entry 2 10 2; success_entry 3 20 3]%Q.

Definition four_latencies : APILoadTester :=
  with_results 10
    [success_entry 1 40 1; success_entry 2 10 2; success_entry 3 30 3; success_entry 4 20 4]%Q.

(** Two outcomes a fortieth of a second apart: 80 per second observed, 100
    per second requested. *)
Definition eighty_per_second : APILoadTester :=
  with_results 100 [success_entry 1 5 0; success_entry 2 5 (1 # 40)]%Q.

Definition two_failures : APILoadTester :=
  with_results 10 [mk_result 1 0 30000 "Timeout" 1; mk_result 2 0 12 "Client Error: bad" 2]%Q.

Definition one_success : APILoadTester :=
  with_results 10 [success_entry 1 25 1; mk_result 2 0 30000 "Timeout" 2]%Q.

(** ** IEEE-754 double arithmetic, for cross-checking

    The standard library's reference implementation of binary64
    ([SpecFloat], precision 53, maximal exponent 1024). *)

Definition f64_of_Z (z : Z) : spec_float := binary_normalize 53 1024 z 0 false.

Definition f64_mul : spec_float -> spec_float -> spec_float := SFmul 53 1024.
Definition f64_div : spec_float -> spec_float -> spec_float := SFdiv 53 1024.

(** [int(x)] on a double. *)
Definition f64_int (x : spec_float) : Z :=
  match x with
  | S754_finite negative m e =>
      let magnitude := if 0 <=? e then Z.shiftl (Zpos m) e else Z.shiftr (Zpos m) (- e) in
      if negative then - magnitude else magnitude
  | _ => 0
  end.

(** The percentile index with every operation rounded as Python rounds it. *)
Definition percentile_index_f64 (p n : Z) : Z :=
  let idx := f64_int (f64_mul (f64_div (f64_of_Z p) (f64_of_Z 100)) (f64_of_Z n)) - 1 in
  if idx <? 0 then 0 else idx.

(** ** More readings of the report and the trace *)

Definition status_line_of (l : line) : option (Z * Z * Q) :=
  match l with StatusLine code count pct => Some (code, count, pct) | _ => None end.
Definition fast_of (l : line) : option Z :=
  match l with Fast n _ => Some n | _ => None end.
Definition medium_of (l : line) : option Z :=
  match l with Medium n _ => Some n | _ => None end.
Definition slow_of (l : line) : option Z :=
  match l with Slow n _ => Some n | _ => None end.
Definition min_of (l : line) : option Q :=
  match l with Min ms => Some ms | _ => None end.
Definition max_of (l : line) : option Q :=
  match l with Max ms => Some ms | _ => None end.

Definition total_of (l : line) : option Z :=
  match l with TotalRequests n => Some n | _ => None end.
Definition successful_of (l : line) : option Z :=
  match l with Successful n => Some n | _ => None end.
Definition failed_of (l : line) : option Z :=
  match l with Failed n => Some n | _ => None end.
Definition success_rate_of (l : line) : option Q :=
  match l with SuccessRate pct => Some pct | _ => None end.
Definition count_of (l : line) : option Z :=
  match l with Count n => Some n | _ => None end.
Definition average_of (l : line) : option Q :=
  match l with Average ms => Some ms | _ => None end.
Definition median_of (l : line) : option Q :=
  match l with Median ms => Some ms | _ => None end.

(** The median as [statistics.median] takes it: the middle of the sorted
    data, or the mean of the two middle values. *)
Definition is_median (med : Q) (data : list Q) : Prop :=
  let n := py_len data in
  if n mod 2 =? 1 then sorted data !! Z.to_nat (n / 2) = Some med
  else exists a b,
         sorted data !! Z.to_nat (n / 2 - 1) = Some a /\
         sorted data !! Z.to_nat (n / 2) = Some b /\
         med = ((a + b) / 2)%Q.

(** The sum of a list of counts. *)
Definition Zsum (l : list Z) : Z := foldr Z.add 0 l.

(** How many recorded outcomes carry the status code [code]; the sentinel 0
    of a failure is no status code. *)
Definition status_key (r : result_entry) : option Z :=
  if 0 <? r_status_code r then Some (r_status_code r) else None.

Definition status_count (rs : list result_entry) (code : Z) : Z :=
  py_len (filter (fun r => status_key r = Some code) rs).

(** The pauses and the session calls of a trace. *)
Definition sleeps_of (tr : list event) : list Q :=
  omap (fun ev => match ev with EvSleep delay => Some delay | _ => None end) tr.


(** The rhythm of a run: a batch handed to [asyncio.gather], or a pause. *)
Inductive pace : Set := Batch | Pause.

Definition pacing_of (tr : list event) : list pace :=
  omap (fun ev => match ev with
                  | EvGather _ => Some Batch
                  | EvSleep _ => Some Pause
                  | _ => None
                  end) tr.

(** The limits of the connection pools a trace opens: total and per host. *)
Definition pools_of (tr : list event) : list (Z * Z) :=
  omap (fun ev => match ev with
                  | EvSessionOpen limit limit_per_host => Some (limit, limit_per_host)
                  | _ => None
                  end) tr.

(** The four labels under which the error distribution groups the outcomes
    of [make_request]. *)
Definition error_labels : list string :=
  ["Timeout"; "Connection Error"; "Client Error"; "Unexpected Error"]%string.

(** The object and the trace a completed run leaves, written out. *)
Definition completed_object (w : World) (t : APILoadTester) : APILoadTester :=
  set_results
    (results t ++ concat ((fun s => entry_of w t <$> batch_order w t s) <$> batch_starts t)) t.

Definition completed_trace (w : World) (py_sqrt : Q -> Q) (t : APILoadTester) : list event :=
  run_prelude t
  ++ concat (batch_trace w t <$> batch_starts t)
  ++ [EvPrint (LoadTestCompleted (time_run_finished w - time_run_started w)%Q);
      EvSessionClose]
  ++ (EvPrint <$> console (print_summary py_sqrt) (completed_object w t)).

(** The label of an error kind, and the label under which the failure of a
    request id is counted: none when the call is answered. *)
Definition label_of (k : error_kind) : string :=
  match k with
  | Timeout => "Timeout"
  | ConnectionError => "Connection Error"
  | ClientErrorKind _ => "Client Error"
  | UnexpectedError _ => "Unexpected Error"
  end.

Definition raised_label (w : World) (t : APILoadTester) (request_id : Z) : option string :=
  match session_request w request_id (outgoing_request w t request_id) with
  | Responded _ => None
  | Raised e => Some (label_of (classify e))
  end.


(** ** The dialogue: [get_user_input]

    The operator's side of the dialogue is the list of what arrives on
    standard input: a line typed and entered, or an interrupt.  When the
    list is exhausted the input is at its end, and [input] raises
    [EOFError].  The program's side is the screen: the prompts of [input]
    and the lines [get_user_input] prints, kept apart from the trace of the
    run, which they precede. *)

Inductive key : Type := Typed (text : string) | CtrlC.

Inductive tty : Type := Asked (prompt : string) | Printed (text : string).

Record terminal : Type := mk_terminal {
  host : machine;
  screen : list tty
}.

Definition Tty (A : Type) : Type := terminal -> (py_exception + A) * terminal.

Definition tty_ret {A} (a : A) : Tty A := fun s => (inr a, s).

Definition tty_bind {A B} (c : Tty A) (k : A -> Tty B) : Tty B :=
  fun s => match c s with
           | (inl e, s') => (inl e, s')
           | (inr a, s') => k a s'
           end.

Definition tty_raise {A} (e : py_exception) : Tty A := fun s => (inl e, s).

Definition tty_try_except {A} (body : Tty A) (handler : py_exception -> Tty A) : Tty A :=
  fun s => match body s with
           | (inl e, s') => handler e s'
           | (inr a, s') => (inr a, s')
           end.

(** A method of the object, run at the terminal. *)
Definition lift {A} (c : Py A) : Tty A :=
  fun s => let out := c (host s) in (out.1, mk_terminal out.2 (screen s)).

(** [print(text)] within the dialogue. *)
Definition say (text : string) : Tty unit :=
  fun s => (inr tt, mk_terminal (host s) (screen s ++ [Printed text])).

(** [self.<field> = value]. *)
Definition assign (update : APILoadTester -> APILoadTester) : Tty unit :=
  fun s => (inr tt,
            mk_terminal (mk_machine (update (self (host s))) (trace (host s))) (screen s)).

Definition field {A} (f : APILoadTester -> A) : Tty A :=
  fun s => (inr (f (self (host s))), s).

Declare Scope tty_scope.
Delimit Scope tty_scope with tty.
Notation "x <- c ;; k" := (tty_bind c (fun x => k))
  (at level 100, c at next level, right associativity) : tty_scope.
Notation "c ;; k" := (tty_bind c (fun _ => k))
  (at level 100, right associativity) : tty_scope.

Definition set_url (u : string) (t : APILoadTester) : APILoadTester :=
  mk_tester u (method t) (request_body t) (requests_per_second t)
            (total_requests t) (use_random_user_agent t) (results t).

Definition set_method (m : string) (t : APILoadTester) : APILoadTester :=
  mk_tester (url t) m (request_body t) (requests_per_second t)
            (total_requests t) (use_random_user_agent t) (results t).

Definition set_request_body (b : option json) (t : APILoadTester) : APILoadTester :=
  mk_tester (url t) (method t) b (requests_per_second t)
            (total_requests t) (use_random_user_agent t) (results t).

Definition set_requests_per_second (n : Z) (t : APILoadTester) : APILoadTester :=
  mk_tester (url t) (method t) (request_body t) n
            (total_requests t) (use_random_user_agent t) (results t).

Definition set_total_requests (n : Z) (t : APILoadTester) : APILoadTester :=
  mk_tester (url t) (method t) (request_body t) (requests_per_second t)
            n (use_random_user_agent t) (results t).

Definition set_use_random_user_agent (b : bool) (t : APILoadTester) : APILoadTester :=
  mk_tester (url t) (method t) (request_body t) (requests_per_second t)
            (total_requests t) b (results t).

(** [EOFError], a direct subclass of [Exception], and the interrupt. *)
Definition eof_error : py_exception :=
  mk_exception [Exception; BaseException] "EOF when reading a line".

Definition keyboard_interrupt : py_exception :=
  mk_exception [KeyboardInterrupt; BaseException] "".

(** The library functions the dialogue calls.  Nothing is assumed of what
    they compute; [urlparse] can raise (it raises [ValueError] on a
    malformed bracketed host), [json.loads] returns a value, raises
    [JSONDecodeError] or raises something else, [int] on a string returns an
    integer or raises [ValueError]. *)
Record parse_result : Type := mk_parse_result {
  scheme : string;
  netloc : string
}.

Inductive loaded : Type :=
  | Loaded (value : json)
  | JSONDecodeError
  | LoadRaised (e : py_exception).

Record Library : Type := mk_library {
  str_strip : string -> string;
  str_upper : string -> string;
  str_lower : string -> string;
  urlparse : string -> py_exception + parse_result;
  json_loads : string -> loaded;
  int_of_str : string -> option Z
}.

(** Truthiness of a string: [if s:]. *)
Definition str_truthy (s : string) : bool :=
  match s with EmptyString => false | _ => true end.

(** [s * n]. *)
Fixpoint str_repeat (s : string) (n : nat) : string :=
  match n with
  | O => EmptyString
  | S n' => (s ++ str_repeat s n')%string
  end.

(** The terminal before anything has happened, with the object as
    [__init__] leaves it. *)
Definition power_on : terminal :=
  mk_terminal (mk_machine APILoadTester_init []) [].

Section Dialogue.
Variable lib : Library.
Local Open Scope tty_scope.

(** [input(prompt)]: the prompt is written, then a line is read. *)
Definition input (prompt : string) (keys : list key) : Tty (string * list key) :=
  fun s =>
    let s' := mk_terminal (host s) (screen s ++ [Asked prompt]) in
    match keys with
    | [] => (inl eof_error, s')
    | CtrlC :: _ => (inl keyboard_interrupt, s')
    | Typed text :: rest => (inr (text, rest), s')
    end.

(** [while True: answer = input(prompt); ...]: every loop of the dialogue
    reads one line at the top of each round; the rest of the round either
    leaves the loop ([Some], the [break]) or goes round again ([None]).  The
    recursion is on what is left of the input. *)
Fixpoint while_true {A} (prompt : string) (round : string -> Tty (option A))
    (keys : list key) : Tty (A * list key) :=
  answer <- input prompt keys ;;
  r <- round answer.1 ;;
  match r with
  | Some a => tty_ret (a, answer.2)
  | None =>
      match keys with
      | _ :: rest => while_true prompt round rest
      | [] => tty_raise eof_error
      end
  end.

(** # Get API URL *)
Definition url_round (answer : string) : Tty (option unit) :=
  assign (set_url (str_strip lib answer)) ;;
  u <- field url ;;
  if str_truthy u then
    match urlparse lib u with
    | inl e => tty_raise e
    | inr parsed =>
        if str_truthy (scheme parsed) && str_truthy (netloc parsed)
        then tty_ret (Some tt)
        else say "Invalid URL format. Please include http:// or https://" ;;
             tty_ret None
    end
  else say "URL cannot be empty." ;; tty_ret None.

(** # Get HTTP method *)
Definition method_round (answer : string) : Tty (option unit) :=
  let method := str_upper lib (str_strip lib answer) in
  if bool_decide (method ∈ ["GET"; "POST"; "PUT"; "DELETE"]%string)
  then assign (set_method method) ;; tty_ret (Some tt)
  else say "Invalid method. Please enter GET, POST, PUT, or DELETE." ;; tty_ret None.

(** # Get request body for POST/PUT methods *)
Definition request_body_step (keys : list key) : Tty (list key) :=
  m <- field method ;;
  if bool_decide (m ∈ ["POST"; "PUT"]%string) then
    answer <- input "Enter request body (JSON format, or press Enter for empty): " keys ;;
    let body_input := str_strip lib answer.1 in
    (if str_truthy body_input then
       match json_loads lib body_input with
       | Loaded value => assign (set_request_body (Some value))
       | JSONDecodeError =>
           say "Invalid JSON format. Using empty body." ;;
           assign (set_request_body (Some (JObject [])))
       | LoadRaised e => tty_raise e
       end
     else assign (set_request_body (Some (JObject [])))) ;;
    tty_ret answer.2
  else tty_ret keys.

(** # Get requests per second *)
Definition rps_round (answer : string) : Tty (option unit) :=
  match int_of_str lib answer with
  | Some rps =>
      if 0 <? rps
      then assign (set_requests_per_second rps) ;; tty_ret (Some tt)
      else say "Requests per second must be greater than 0." ;; tty_ret None
  | None => say "Please enter a valid number." ;; tty_ret None
  end.

(** # Get total number of requests *)
Definition total_round (answer : string) : Tty (option unit) :=
  match int_of_str lib answer with
  | Some total =>
      if 0 <? total
      then assign (set_total_requests total) ;; tty_ret (Some tt)
      else say "Total requests must be greater than 0." ;; tty_ret None
  | None => say "Please enter a valid number." ;; tty_ret None
  end.

(** # Get User-Agent preference *)
Definition user_agent_round (answer : string) : Tty (option unit) :=
  let ua_choice := str_lower lib (str_strip lib answer) in
  if bool_decide (ua_choice ∈ ["yes"; "y"]%string)
  then assign (set_use_random_user_agent true) ;; tty_ret (Some tt)
  else if bool_decide (ua_choice ∈ ["no"; "n"]%string)
  then assign (set_use_random_user_agent false) ;; tty_ret (Some tt)
  else say "Please enter 'yes' or 'no'." ;; tty_ret None.

(** [get_user_input]; the value returned is what is left of the input. *)
Definition get_user_input (keys : list key) : Tty (list key) :=
  say (str_repeat "=" 50) ;;
  say "API Load Tester" ;;
  say (str_repeat "=" 50) ;;
  r <- while_true "Enter API URL (e.g., https://example.com/api): " url_round keys ;;
  r <- while_true "Enter HTTP method (GET/POST/PUT/DELETE): " method_round r.2 ;;
  keys <- request_body_step r.2 ;;
  r <- while_true "Enter number of requests per second: " rps_round keys ;;
  r <- while_true "Enter total number of requests to send: " total_round r.2 ;;
  r <- while_true "Use random User-Agent headers? (yes/no): " user_agent_round r.2 ;;
  tty_ret r.2.

Variable w : World.
Variable py_sqrt : Q -> Q.

(** The two [except] clauses of [run]. *)
Definition run_handlers (e : py_exception) : Py unit :=
  (if isinstance e KeyboardInterrupt then
     print Interrupted ;;
     rs <- attr results ;;
     if truthy rs then print PartialResults ;; print_summary py_sqrt else ret tt
   else if isinstance e Exception then
     print (UnexpectedErrorLine (exc_str e)) ;;
     raise (mk_exception [SystemExit; BaseException] "1")
   else raise e)%py.

(** [run] with its first statement, the dialogue. *)
Definition run_with_input (keys : list key) : Tty unit :=
  tty_try_except
    (get_user_input keys ;; lift (run_load_test w py_sqrt))
    (fun e => lift (run_handlers e)).

(** [main]: a fresh object, then [run]. *)
Definition main (keys : list key) : (py_exception + unit) * terminal :=
  run_with_input keys power_on.

End Dialogue.

(** What is known of the object once the dialogue has got through.  Every
    attribute holds an answer that was typed and that passed its check: the
    URL is a stripped answer, not empty, in which [urlparse] finds a scheme
    and a host; the method is a stripped answer in capitals, one of the
    four; the body, set only if the method carries one and left as [before]
    had it otherwise, is what [json.loads] made of a stripped answer, or the
    empty dictionary; the two numbers are what [int] made of an answer, and
    positive; the flag tells whether the answer was yes. *)
Definition url_checked (lib : Library) (keys : list key) (t : APILoadTester) : Prop :=
  (exists answer, Typed answer ∈ keys /\ url t = str_strip lib answer) /\
  url t <> EmptyString /\
  exists parsed, urlparse lib (url t) = inr parsed /\
                 scheme parsed <> EmptyString /\ netloc parsed <> EmptyString.

Definition method_checked (lib : Library) (keys : list key) (t : APILoadTester) : Prop :=
  (exists answer, Typed answer ∈ keys /\
                  method t = str_upper lib (str_strip lib answer)) /\
  method t ∈ ["GET"; "POST"; "PUT"; "DELETE"]%string.

Definition body_of (lib : Library) (answer : string) : json :=
  if str_truthy (str_strip lib answer) then
    match json_loads lib (str_strip lib answer) with
    | Loaded value => value
    | _ => JObject []
    end
  else JObject [].

Definition body_checked (lib : Library) (keys : list key) (before t : APILoadTester) : Prop :=
  if bool_decide (method t ∈ ["POST"; "PUT"]%string)
  then exists answer, Typed answer ∈ keys /\ request_body t = Some (body_of lib answer)
  else request_body t = request_body before.

Definition rate_checked (lib : Library) (keys : list key) (t : APILoadTester) : Prop :=
  (exists answer, Typed answer ∈ keys /\
                  int_of_str lib answer = Some (requests_per_second t)) /\
  0 < requests_per_second t.

Definition total_checked (lib : Library) (keys : list key) (t : APILoadTester) : Prop :=
  (exists answer, Typed answer ∈ keys /\
                  int_of_str lib answer = Some (total_requests t)) /\
  0 < total_requests t.

Definition user_agent_checked (lib : Library) (keys : list key) (t : APILoadTester) : Prop :=
  exists answer,
    Typed answer ∈ keys /\
    str_lower lib (str_strip lib answer) ∈ ["yes"; "y"; "no"; "n"]%string /\
    use_random_user_agent t
    = bool_decide (str_lower lib (str_strip lib answer) ∈ ["yes"; "y"]%string).

Definition validated (lib : Library) (keys : list key) (before t : APILoadTester) : Prop :=
  url_checked lib keys t /\ method_checked lib keys t /\ body_checked lib keys before t /\
  rate_checked lib keys t /\ total_checked lib keys t /\ user_agent_checked lib keys t.

(** Why a dialogue can fail: the input ended, the operator interrupted, or
    a library function raised on one of the answers. *)
Definition dialogue_failure (lib : Library) (keys : list key) (e : py_exception) : Prop :=
  (e = eof_error /\ CtrlC ∉ keys) \/
  (e = keyboard_interrupt /\ CtrlC ∈ keys) \/
  (exists answer, Typed answer ∈ keys /\ urlparse lib (str_strip lib answer) = inl e) \/
  (exists answer, Typed answer ∈ keys /\
                  json_loads lib (str_strip lib answer) = LoadRaised e).

(** The dialogue touches neither the trace nor the recorded outcomes. *)
Definition same_run (s0 s : terminal) : Prop :=
  trace (host s) = trace (host s0) /\
  results (self (host s)) = results (self (host s0)).

(** [rest] is what is left of [keys] after some answers were read. *)
Definition left_of (keys rest : list key) : Prop :=
  exists answers, keys = (Typed <$> answers) ++ rest.


(** [ends c s post fail]: run from the terminal [s], [c] returns a value and
    a terminal that satisfy [post], or raises an exception that satisfies
    [fail] with the terminal it leaves. *)
Definition ends {A} (c : Tty A) (s : terminal) (post : A -> terminal -> Prop)
    (fail : py_exception -> terminal -> Prop) : Prop :=
  match c s with
  | (inr a, s') => post a s'
  | (inl e, s') => fail e s'
  end.

(** ** A dialogue to evaluate

    A library exact on plain ASCII answers: blanks are stripped, letters
    change case, [scheme://host/path] is taken apart at the first colon and
    the next slash, a decimal numeral is read, and of JSON only the empty
    object and [null] are known. *)

Fixpoint lstrip (s : string) : string :=
  match s with
  | String c s' => if Ascii.eqb c " "%char then lstrip s' else s
  | EmptyString => EmptyString
  end.

Fixpoint rstrip (s : string) : string :=
  match s with
  | String c s' =>
      match rstrip s' with
      | EmptyString => if Ascii.eqb c " "%char then EmptyString else String c EmptyString
      | r => String c r
      end
  | EmptyString => EmptyString
  end.

Definition shift_case (from to : ascii) (c : ascii) : ascii :=
  let n := nat_of_ascii c in
  if (nat_of_ascii from <=? n)%nat && (n <=? nat_of_ascii from + 25)%nat
  then ascii_of_nat (n - nat_of_ascii from + nat_of_ascii to)
  else c.

Fixpoint map_string (f : ascii -> ascii) (s : string) : string :=
  match s with
  | String c s' => String (f c) (map_string f s')
  | EmptyString => EmptyString
  end.

Fixpoint after_colon (s : string) : option string :=
  match s with
  | String c s' => if Ascii.eqb c ":"%char then Some s' else after_colon s'
  | EmptyString => None
  end.

Fixpoint before_slash (s : string) : string :=
  match s with
  | String c s' => if Ascii.eqb c "/"%char then EmptyString else String c (before_slash s')
  | EmptyString => EmptyString
  end.

Definition demo_urlparse (u : string) : py_exception + parse_result :=
  match after_colon u with
  | Some (String c1 (String c2 r)) =>
      if Ascii.eqb c1 "/"%char && Ascii.eqb c2 "/"%char
      then inr (mk_parse_result (before_colon u) (before_slash r))
      else inr (mk_parse_result (before_colon u) EmptyString)
  | Some _ => inr (mk_parse_result (before_colon u) EmptyString)
  | None => inr (mk_parse_result EmptyString EmptyString)
  end.

Fixpoint digits (acc : Z) (s : string) : option Z :=
  match s with
  | String c s' =>
      let n := nat_of_ascii c in
      if (48 <=? n)%nat && (n <=? 57)%nat
      then digits (10 * acc + Z.of_nat (n - 48)) s'
      else None
  | EmptyString => Some acc
  end.

Definition demo_int (s : string) : option Z :=
  match s with
  | EmptyString => None
  | String c s' =>
      if Ascii.eqb c "-"%char
      then match s' with EmptyString => None | _ => Z.opp <$> digits 0 s' end
      else digits 0 s
  end.

Definition demo_json_loads (s : string) : loaded :=
  if String.eqb s "{}" then Loaded (JObject [])
  else if String.eqb s "null" then Loaded JNull
  else JSONDecodeError.

Definition demo_library : Library :=
  mk_library (fun s => rstrip (lstrip s))
             (map_string (shift_case "a" "A"))
             (map_string (shift_case "A" "a"))
             demo_urlparse demo_json_loads demo_int.

(** An operator who gets every question wrong once. *)
Definition demo_keys : list key :=
  [Typed ""; Typed "example.com"; Typed " https://example.com/api ";
   Typed "patch"; Typed "post";
   Typed "{oops";
   Typed "many"; Typed "0"; Typed "3";
   Typed "-7"; Typed "7";
   Typed "maybe"; Typed " Y"].

(** The input ends after the method; the operator interrupts at the body. *)
Definition short_keys : list key :=
  [Typed "https://example.com/api"; Typed "GET"].

Definition interrupted_keys : list key :=
  [Typed "https://example.com/api"; Typed "PUT"; CtrlC; Typed "3"].

(** * Properties *)

(** ** The monad *)

Section RunsLemmas.
Context {A B : Type} (t : APILoadTester).

Lemma runs_ret (a : A) : runs t (ret a) a [].
Proof. intros tr. unfold ret. by rewrite app_nil_r. Qed.

Lemma runs_bind (c : Py A) (k : A -> Py B) a b e1 e2 :
  runs t c a e1 -> runs t (k a) b e2 -> runs t (bind c k) b (e1 ++ e2).
Proof.
  intros Hc Hk tr. unfold bind. rewrite Hc, Hk. by rewrite app_assoc.
Qed.

Lemma runs_attr (field : APILoadTester -> A) : runs t (attr field) (field t) [].
Proof. intros tr. unfold attr. simpl. by rewrite app_nil_r. Qed.

Lemma runs_emit ev : runs t (emit ev) tt [ev].
Proof. intros tr. reflexivity. Qed.

Lemma runs_print l : runs t (print l) tt [EvPrint l].
Proof. apply runs_emit. Qed.
End RunsLemmas.

Lemma runs_print_then {B} t l (k : Py B) b evs :
  runs t k b evs -> runs t (print l ;; k) b (EvPrint l :: evs).
Proof. intros Hk. apply (runs_bind t _ _ tt b [EvPrint l] evs); [apply runs_print | done]. Qed.

Lemma runs_attr_then {A B} t (field : APILoadTester -> A) (k : A -> Py B) b evs :
  runs t (k (field t)) b evs -> runs t (x <- attr field ;; k x) b evs.
Proof. intros Hk. apply (runs_bind t _ _ (field t) b [] evs); [apply runs_attr | done]. Qed.

Lemma runs_bind_silent {A B} t (c : Py A) (k : A -> Py B) a b evs :
  runs t c a [] -> runs t (k a) b evs -> runs t (bind c k) b evs.
Proof. intros Hc Hk. by apply (runs_bind t c k a b [] evs). Qed.

Lemma runs_for_each {A} t (xs : list A) (body : A -> Py unit) (out : A -> list event) :
  (forall x, x ∈ xs -> runs t (body x) tt (out x)) ->
  runs t (for_each xs body) tt (concat (out <$> xs)).
Proof.
  induction xs as [|x xs IH]; intros Hbody; simpl.
  - apply runs_ret.
  - eapply runs_bind.
    + apply Hbody. by left.
    + apply IH. intros y Hy. apply Hbody. by right.
Qed.

Lemma runs_console {A} t (c : Py A) a evs :
  runs t c a evs -> console c t = stdout evs /\ object_after c t = t.
Proof. intros H. unfold console, object_after. by rewrite (H []). Qed.

Lemma stdout_prints (ls : list line) : stdout (EvPrint <$> ls) = ls.
Proof. induction ls as [|l ls IH]; [done|]. unfold stdout in *. simpl. by f_equal. Qed.

Lemma stdout_app (a b : list event) : stdout (a ++ b) = stdout a ++ stdout b.
Proof. apply omap_app. Qed.

(** ** Builtins *)

Lemma truthy_true {A} (l : list A) : truthy l = true <-> l <> [].
Proof. by destruct l. Qed.

Lemma truthy_false {A} (l : list A) : truthy l = false <-> l = [].
Proof. by destruct l. Qed.

Lemma Qltb_lt (a b : Q) : Qltb a b = true <-> (a < b)%Q.
Proof.
  unfold Qltb. rewrite negb_true_iff. split.
  - intros H. apply Qnot_le_lt. intros Hle. apply Qle_bool_iff in Hle. congruence.
  - intros H. destruct (Qle_bool b a) eqn:E; [|done].
    apply Qle_bool_iff in E. exfalso. by apply (Qlt_not_le a b).
Qed.

Lemma Qltb_ge (a b : Q) : Qltb a b = false <-> (b <= a)%Q.
Proof.
  unfold Qltb. rewrite negb_false_iff. apply Qle_bool_iff.
Qed.

Lemma inject_Z_nonzero (n : Z) : n <> 0 -> Qeq_bool (inject_Z n) 0 = false.
Proof.
  intros Hn. destruct (Qeq_bool (inject_Z n) 0) eqn:E; [|done].
  apply Qeq_bool_eq in E. unfold Qeq in E. simpl in E. lia.
Qed.

Lemma py_len_nonzero {A} (l : list A) : l <> [] -> py_len l <> 0.
Proof. destruct l; [done|]. unfold py_len. simpl. lia. Qed.

Lemma runs_truediv t (a b : Q) : ~ (b == 0)%Q -> runs t (truediv a b) (a / b)%Q [].
Proof.
  intros Hb. unfold truediv. destruct (Qeq_bool b 0) eqn:E.
  - apply Qeq_bool_eq in E. contradiction.
  - apply runs_ret.
Qed.

Lemma runs_truediv_Z t (a : Q) (n : Z) :
  n <> 0 -> runs t (truediv a (inject_Z n)) (a / inject_Z n)%Q [].
Proof.
  intros Hn. apply runs_truediv. intros E. unfold Qeq in E. simpl in E. lia.
Qed.

(** *** [max] and [min] *)

Lemma max_from_spec x xs : is_maximum (max_from x xs) (x :: xs).
Proof.
  unfold max_from. revert x. induction xs as [|y ys IH]; intros x; simpl.
  - split; [by left|]. intros z Hz. apply list_elem_of_singleton in Hz. subst. apply Qle_refl.
  - destruct (Qltb x y) eqn:E.
    + destruct (IH y) as [Hin Hub]. split.
      * apply elem_of_cons. right. exact Hin.
      * intros z Hz. apply elem_of_cons in Hz as [->|Hz].
        -- apply Qltb_lt in E. apply Qle_trans with y; [by apply Qlt_le_weak|].
           apply Hub. by left.
        -- apply Hub. exact Hz.
    + destruct (IH x) as [Hin Hub]. split.
      * apply elem_of_cons in Hin as [->|Hin]; [by left|]. right. by right.
      * intros z Hz. apply elem_of_cons in Hz as [->|Hz]; [apply Hub; by left|].
        apply elem_of_cons in Hz as [->|Hz].
        -- apply Qltb_ge in E. apply Qle_trans with x; [done|]. apply Hub. by left.
        -- apply Hub. by right.
Qed.

Lemma min_from_spec x xs : is_minimum (min_from x xs) (x :: xs).
Proof.
  unfold min_from. revert x. induction xs as [|y ys IH]; intros x; simpl.
  - split; [by left|]. intros z Hz. apply list_elem_of_singleton in Hz. subst. apply Qle_refl.
  - destruct (Qltb y x) eqn:E.
    + destruct (IH y) as [Hin Hlb]. split.
      * apply elem_of_cons. right. exact Hin.
      * intros z Hz. apply elem_of_cons in Hz as [->|Hz].
        -- apply Qltb_lt in E. apply Qle_trans with y; [|by apply Qlt_le_weak].
           apply Hlb. by left.
        -- apply Hlb. exact Hz.
    + destruct (IH x) as [Hin Hlb]. split.
      * apply elem_of_cons in Hin as [->|Hin]; [by left|]. right. by right.
      * intros z Hz. apply elem_of_cons in Hz as [->|Hz]; [apply Hlb; by left|].
        apply elem_of_cons in Hz as [->|Hz].
        -- apply Qltb_ge in E. apply Qle_trans with x; [|done]. apply Hlb. by left.
        -- apply Hlb. by right.
Qed.

Lemma runs_py_max t xs :
  xs <> [] -> exists hi, is_maximum hi xs /\ runs t (py_max xs) hi [].
Proof.
  destruct xs as [|x xs]; [done|]. intros _. exists (max_from x xs).
  split; [apply max_from_spec | apply runs_ret].
Qed.

Lemma runs_py_min t xs :
  xs <> [] -> exists lo, is_minimum lo xs /\ runs t (py_min xs) lo [].
Proof.
  destruct xs as [|x xs]; [done|]. intros _. exists (min_from x xs).
  split; [apply min_from_spec | apply runs_ret].
Qed.

(** *** Sorting *)

Lemma insert_by_Permutation {A} (leb : A -> A -> bool) x l :
  insert_by leb x l ≡ₚ x :: l.
Proof.
  induction l as [|y l IH]; simpl; [done|].
  destruct (leb x y); [done|]. rewrite IH. apply Permutation_swap.
Qed.

Lemma sorted_by_Permutation {A} (leb : A -> A -> bool) l : sorted_by leb l ≡ₚ l.
Proof.
  induction l as [|x l IH]; simpl; [done|].
  rewrite insert_by_Permutation. by rewrite IH.
Qed.

Lemma sorted_by_length {A} (leb : A -> A -> bool) l :
  length (sorted_by leb l) = length l.
Proof. apply Permutation_length, sorted_by_Permutation. Qed.

Lemma sorted_by_truthy {A} (leb : A -> A -> bool) l :
  truthy (sorted_by leb l) = truthy l.
Proof.
  destruct l as [|x l]; [done|]. simpl.
  destruct (sorted_by leb l) as [|y l']; simpl; [done|]. by destruct (leb x y).
Qed.

Lemma insert_Qle_sorted x l :
  StronglySorted Qle l -> StronglySorted Qle (insert_by Qle_bool x l).
Proof.
  induction 1 as [|y l Hl IH Hy]; simpl.
  - repeat constructor.
  - destruct (Qle_bool x y) eqn:E.
    + apply Qle_bool_iff in E. constructor; [by constructor|].
      constructor; [done|].
      eapply Forall_impl; [exact Hy|]. intros z Hz. by apply Qle_trans with y.
    + constructor; [exact IH|].
      assert (Hyx : (y <= x)%Q).
      { apply Qlt_le_weak, Qnot_le_lt. intros Hle. apply Qle_bool_iff in Hle. congruence. }
      rewrite (insert_by_Permutation Qle_bool x l). by constructor.
Qed.

Lemma sorted_StronglySorted xs : StronglySorted Qle (sorted xs).
Proof.
  unfold sorted, sorted_by. induction xs as [|x xs IH]; simpl.
  - constructor.
  - by apply insert_Qle_sorted.
Qed.

Lemma sorted_Permutation xs : sorted xs ≡ₚ xs.
Proof. apply sorted_by_Permutation. Qed.

Lemma sorted_length xs : py_len (sorted xs) = py_len xs.
Proof. unfold py_len, sorted. by rewrite sorted_by_length. Qed.

(** The last element of a sorted list is a maximum of the list. *)
Lemma StronglySorted_last_max (l : list Q) v :
  StronglySorted Qle l -> l !! (length l - 1)%nat = Some v ->
  forall x, x ∈ l -> (x <= v)%Q.
Proof.
  induction 1 as [|y l Hl IH Hy]; intros Hv x Hx; [by apply elem_of_nil in Hx|].
  destruct l as [|z l].
  - simpl in Hv. injection Hv as <-. apply list_elem_of_singleton in Hx. subst. apply Qle_refl.
  - replace (length (y :: z :: l) - 1)%nat with (S (length (z :: l) - 1)) in Hv
      by (simpl; lia).
    change ((z :: l) !! (length (z :: l) - 1)%nat = Some v) in Hv.
    apply elem_of_cons in Hx as [->|Hx].
    + rewrite Forall_forall in Hy. apply Hy.
      apply list_elem_of_lookup. eauto.
    + by apply IH.
Qed.

(** *** Indexing *)

Lemma runs_getitem {A} t (xs : list A) (i : Z) :
  0 <= i < py_len xs ->
  exists v, xs !! Z.to_nat i = Some v /\ runs t (getitem xs i) v [].
Proof.
  intros [Hlo Hhi]. unfold getitem.
  destruct (i <? 0) eqn:E1; [lia|]. rewrite E1.
  destruct (xs !! Z.to_nat i) as [v|] eqn:E2.
  - exists v. split; [done|]. apply runs_ret.
  - apply lookup_ge_None in E2. unfold py_len in Hhi. lia.
Qed.

(** *** The percentile index *)

Lemma py_int_fraction (p n : Z) :
  0 <= p -> 0 <= n -> py_int ((inject_Z p / 100) * inject_Z n)%Q = p * n / 100.
Proof.
  intros Hp Hn. unfold py_int. simpl.
  rewrite Z.mul_1_r. rewrite Z.quot_div_nonneg by lia. reflexivity.
Qed.

Lemma percentile_index_floor (p n : Z) :
  0 <= p -> 0 <= n -> percentile_index p n = floor_rank_index p n.
Proof.
  intros Hp Hn. unfold percentile_index, floor_rank_index.
  rewrite py_int_fraction by done.
  destruct (p * n / 100 - 1 <? 0) eqn:E; lia.
Qed.

Lemma floor_rank_index_bounds (p n : Z) :
  0 <= p <= 100 -> 0 < n -> 0 <= floor_rank_index p n < n.
Proof.
  intros Hp Hn. unfold floor_rank_index.
  assert (p * n / 100 <= n).
  { apply Z.div_le_upper_bound; nia. }
  lia.
Qed.

Lemma percentiles_range p : p ∈ percentiles -> 0 <= p <= 100.
Proof.
  unfold percentiles. rewrite !elem_of_cons, elem_of_nil. intros H.
  repeat destruct H as [->|H]; lia || done.
Qed.

(** ** The aggregator, block by block *)

Section Report.
Variable py_sqrt : Q -> Q.
Variable t : APILoadTester.

Lemma runs_statistics_mean data :
  data <> [] -> exists avg, runs t (statistics_mean data) avg [].
Proof.
  intros Hne. unfold statistics_mean.
  apply truthy_true in Hne. rewrite Hne. eexists. apply runs_ret.
Qed.

Lemma runs_statistics_median data :
  data <> [] -> exists med, runs t (statistics_median data) med [].
Proof.
  intros Hne. unfold statistics_median.
  pose proof (py_len_nonzero data Hne) as Hn.
  rewrite sorted_length.
  assert (Hpos : 0 < py_len data) by (unfold py_len in *; lia).
  destruct (py_len data =? 0) eqn:E0; [lia|].
  destruct (py_len data mod 2 =? 1) eqn:E1.
  - destruct (runs_getitem t (sorted data) (py_len data / 2)) as (v & _ & Hv).
    { rewrite sorted_length. split; [apply Z.div_pos; lia|].
      apply Z.div_lt_upper_bound; lia. }
    by exists v.
  - assert (Heven : py_len data mod 2 = 0).
    { pose proof (Z.mod_pos_bound (py_len data) 2). lia. }
    assert (Hhalf : 1 <= py_len data / 2 < py_len data).
    { pose proof (Z.div_mod (py_len data) 2). lia. }
    destruct (runs_getitem t (sorted data) (py_len data / 2 - 1)) as (a & _ & Ha).
    { rewrite sorted_length. lia. }
    destruct (runs_getitem t (sorted data) (py_len data / 2)) as (b & _ & Hb).
    { rewrite sorted_length. lia. }
    exists ((a + b) / 2)%Q.
    apply (runs_bind t _ _ a _ [] []); [exact Ha|].
    apply (runs_bind t _ _ b _ [] []); [exact Hb|].
    apply runs_ret.
Qed.

Lemma runs_statistics_stdev data :
  1 < py_len data -> exists sd, runs t (statistics_stdev py_sqrt data) sd [].
Proof.
  intros Hn. unfold statistics_stdev.
  destruct (py_len data <? 2) eqn:E; [lia|]. eexists. apply runs_ret.
Qed.

Lemma runs_percentile_loop rt :
  rt <> [] ->
  exists pl,
    Forall2 (fun p l => exists v, l = Percentile p v /\
               sorted rt !! Z.to_nat (percentile_index p (py_len rt)) = Some v)
            percentiles pl
    /\ runs t (for_each percentiles (fun p =>
                 v <- getitem (sorted rt) (percentile_index p (py_len (sorted rt))) ;;
                 print (Percentile p v))) tt (EvPrint <$> pl).
Proof.
  intros Hne.
  pose proof (py_len_nonzero rt Hne) as Hn.
  assert (Hpos : 0 < py_len rt) by (unfold py_len in *; lia).
  set (value := fun p => default 0%Q (sorted rt !! Z.to_nat (percentile_index p (py_len rt)))).
  assert (Hval : forall p, p ∈ percentiles ->
            sorted rt !! Z.to_nat (percentile_index p (py_len rt)) = Some (value p)
            /\ runs t (getitem (sorted rt) (percentile_index p (py_len rt))) (value p) []).
  { intros p Hp. apply percentiles_range in Hp.
    destruct (runs_getitem t (sorted rt) (percentile_index p (py_len rt))) as (v & Hv & Hr).
    { rewrite sorted_length, percentile_index_floor by lia.
      by apply floor_rank_index_bounds. }
    unfold value. rewrite Hv. simpl. done. }
  exists ((fun p => Percentile p (value p)) <$> percentiles). split.
  - apply Forall2_fmap_r, Forall_Forall2_diag, Forall_forall.
    intros p Hp. exists (value p). split; [done|]. by apply Hval.
  - rewrite sorted_length.
    replace (EvPrint <$> ((fun p => Percentile p (value p)) <$> percentiles))
      with (concat ((fun p => [EvPrint (Percentile p (value p))]) <$> percentiles))
      by reflexivity.
    apply runs_for_each. intros p Hp.
    apply (runs_bind t _ _ (value p) _ [] [_]); [by apply Hval|].
    apply runs_print.
Qed.

Lemma runs_response_time_statistics rt :
  rt <> [] ->
  exists R, response_time_report rt R
            /\ runs t (response_time_statistics py_sqrt rt) tt (EvPrint <$> R).
Proof.
  intros Hne. unfold response_time_statistics.
  rewrite (proj2 (truthy_true rt) Hne).
  destruct (runs_statistics_mean rt Hne) as [avg Havg].
  destruct (runs_statistics_median rt Hne) as [med Hmed].
  destruct (runs_py_min t rt Hne) as (lo & Hlo & Hrlo).
  destruct (runs_py_max t rt Hne) as (hi & Hhi & Hrhi).
  destruct (runs_percentile_loop rt Hne) as (pl & Hpl & Hrpl).
  assert (Hsd : exists sd, (py_len rt = 1 -> sd = 0%Q) /\
            runs t (if 1 <? py_len rt then statistics_stdev py_sqrt rt else ret 0%Q) sd []).
  { destruct (1 <? py_len rt) eqn:E.
    - destruct (runs_statistics_stdev rt) as [sd Hsd]; [lia|].
      exists sd. split; [lia | done].
    - exists 0%Q. split; [done | apply runs_ret]. }
  destruct Hsd as (sd & Hsd0 & Hrsd).
  exists ([ResponseTimeHeader; Count (py_len rt); Average avg; Median med;
           Min lo; Max hi; StdDev sd; PercentilesHeader] ++ pl).
  split.
  { exists avg, med, lo, hi, sd, pl. done. }
  simpl.
  do 2 apply runs_print_then.
  apply (runs_bind t _ _ avg _ [] (_ :: _)); [exact Havg|]. apply runs_print_then.
  apply (runs_bind t _ _ med _ [] (_ :: _)); [exact Hmed|]. apply runs_print_then.
  apply (runs_bind t _ _ lo _ [] (_ :: _)); [exact Hrlo|]. apply runs_print_then.
  apply (runs_bind t _ _ hi _ [] (_ :: _)); [exact Hrhi|]. apply runs_print_then.
  apply (runs_bind t _ _ sd _ [] (_ :: _)); [exact Hrsd|]. do 2 apply runs_print_then.
  exact Hrpl.
Qed.

Lemma runs_response_time_statistics_nil :
  runs t (response_time_statistics py_sqrt []) tt [].
Proof. apply runs_ret. Qed.

Lemma duration_of_spec rs :
  rs <> [] ->
  exists hi lo,
    is_maximum hi (r_timestamp <$> rs) /\ is_minimum lo (r_timestamp <$> rs) /\
    duration_of rs = (hi - lo)%Q.
Proof.
  intros Hne. unfold duration_of.
  destruct rs as [|r rs]; [done|]. simpl.
  exists (max_from (r_timestamp r) (r_timestamp <$> rs)),
         (min_from (r_timestamp r) (r_timestamp <$> rs)).
  split; [apply max_from_spec|]. split; [apply min_from_spec | done].
Qed.

Lemma duration_of_nonneg rs : (0 <= duration_of rs)%Q.
Proof.
  destruct rs as [|r rs]; [apply Qle_refl|].
  destruct (duration_of_spec (r :: rs)) as (hi & lo & [Hin _] & [_ Hlb] & ->); [done|].
  specialize (Hlb hi Hin). lra.
Qed.

Lemma runs_test_duration_and_rps rs n :
  rs <> [] ->
  runs t (test_duration_and_rps rs n)
       (duration_of rs,
        if Qltb 0 (duration_of rs) then (inject_Z n / duration_of rs)%Q else 0%Q) [].
Proof.
  intros Hne. unfold test_duration_and_rps, duration_of.
  rewrite (proj2 (truthy_true rs) Hne).
  destruct rs as [|r rs]; [done|]. simpl.
  eapply runs_bind_silent; [apply runs_ret|].
  eapply runs_bind_silent; [apply runs_ret|].
  set (d := (max_from _ _ - min_from _ _)%Q).
  destruct (Qltb 0 d) eqn:E.
  - eapply runs_bind_silent; [|apply runs_ret].
    apply runs_truediv. apply Qltb_lt in E. intros H0. rewrite H0 in E.
    by apply Qlt_irrefl in E.
  - eapply runs_bind_silent; apply runs_ret.
Qed.

Lemma runs_basic_statistics total successful failed duration rate :
  total <> 0 ->
  runs t (basic_statistics total successful failed duration rate) tt
       (EvPrint <$> basic_report t total successful failed duration rate).
Proof.
  intros Hn. unfold basic_statistics, basic_report. simpl.
  do 4 apply runs_print_then.
  eapply runs_bind_silent; [by apply runs_truediv_Z|].
  do 2 apply runs_print_then. apply runs_attr_then.
  apply runs_print_then. apply runs_print.
Qed.

Lemma runs_throughput_analysis duration rate :
  runs t (throughput_analysis duration rate) tt (EvPrint <$> throughput_report t duration rate).
Proof.
  unfold throughput_analysis, throughput_report.
  destruct (Qltb 0 duration) eqn:E; [|apply runs_ret]. simpl.
  do 3 apply runs_print_then. apply runs_attr_then.
  eapply runs_bind_silent.
  { apply runs_truediv. apply Qltb_lt in E. intros H0. rewrite H0 in E.
    by apply Qlt_irrefl in E. }
  apply runs_print_then. apply runs_attr_then.
  destruct (0 <? requests_per_second t) eqn:Et.
  - eapply runs_bind_silent; [|apply runs_print].
    eapply runs_bind_silent; [|apply runs_ret].
    apply runs_truediv_Z. lia.
  - eapply runs_bind_silent; [apply runs_ret | apply runs_print].
Qed.

Lemma runs_distribution_loop {K} (mk : K -> Z -> Q -> line) n (items : list (K * Z)) :
  n <> 0 ->
  runs t (for_each items (fun '(k, c) =>
            ratio <- truediv (inject_Z c) (inject_Z n) ;; print (mk k c (ratio * 100)%Q)))
       tt (EvPrint <$> ((fun kc => mk kc.1 kc.2 (inject_Z kc.2 / inject_Z n * 100)%Q) <$> items)).
Proof.
  intros Hn. induction items as [|[k c] items IH]; simpl; [apply runs_ret|].
  apply (runs_bind t _ _ tt _ [_] _); [|exact IH].
  eapply runs_bind_silent; [by apply runs_truediv_Z | apply runs_print].
Qed.

Lemma runs_status_code_distribution n :
  n <> 0 ->
  runs t (status_code_distribution n) tt
       (EvPrint <$> distribution_report StatusHeader StatusLine n
          (sorted_by (item_leb Z.compare) (map_to_list (status_histogram (results t))))).
Proof.
  intros Hn. unfold status_code_distribution, distribution_report.
  apply runs_attr_then. fold (status_histogram (results t)).
  destruct (truthy (map_to_list (status_histogram (results t)))) eqn:E.
  - rewrite sorted_by_truthy, E. simpl. apply runs_print_then. by apply runs_distribution_loop.
  - rewrite sorted_by_truthy, E. apply runs_ret.
Qed.

Lemma runs_error_distribution n :
  n <> 0 ->
  runs t (error_distribution n) tt
       (EvPrint <$> distribution_report ErrorHeader ErrorLine n
          (sorted_by (item_leb String.compare) (map_to_list (error_histogram (results t))))).
Proof.
  intros Hn. unfold error_distribution, distribution_report.
  apply runs_attr_then. fold (error_histogram (results t)).
  destruct (truthy (map_to_list (error_histogram (results t)))) eqn:E.
  - rewrite sorted_by_truthy, E. simpl. apply runs_print_then. by apply runs_distribution_loop.
  - rewrite sorted_by_truthy, E. apply runs_ret.
Qed.

Lemma runs_performance_analysis times n :
  n <> 0 ->
  runs t (performance_analysis times n) tt (EvPrint <$> performance_report times n).
Proof.
  intros Hn. unfold performance_analysis, performance_report.
  destruct (truthy times); [|apply runs_ret]. simpl.
  apply runs_print_then.
  eapply runs_bind_silent; [by apply runs_truediv_Z|]. apply runs_print_then.
  eapply runs_bind_silent; [by apply runs_truediv_Z|]. apply runs_print_then.
  eapply runs_bind_silent; [by apply runs_truediv_Z|]. apply runs_print.
Qed.

End Report.

(** ** The whole report *)

Lemma print_summary_empty py_sqrt t :
  results t = [] ->
  runs t (print_summary py_sqrt) tt (EvPrint <$> [Rule 70; Title; Rule 70; NoResults]).
Proof.
  intros He. unfold print_summary. simpl.
  do 3 apply runs_print_then. apply runs_attr_then. rewrite He. simpl.
  apply runs_print.
Qed.

Lemma print_summary_nonempty py_sqrt t :
  results t <> [] ->
  exists R,
    (successful_times t = [] -> R = []) /\
    (successful_times t <> [] -> response_time_report (successful_times t) R) /\
    runs t (print_summary py_sqrt) tt
         (EvPrint <$> summary_layout t (duration_of (results t)) R).
Proof.
  intros Hne.
  pose proof (py_len_nonzero _ Hne) as Hn.
  pose proof (runs_test_duration_and_rps t (results t) (py_len (results t)) Hne) as Htiming.
  assert (HR : exists R,
            (successful_times t = [] -> R = []) /\
            (successful_times t <> [] -> response_time_report (successful_times t) R) /\
            runs t (response_time_statistics py_sqrt (successful_times t)) tt (EvPrint <$> R)).
  { destruct (successful_times t) as [|x xs] eqn:E.
    - exists []. split; [done|]. split; [done|]. apply runs_ret.
    - destruct (runs_response_time_statistics py_sqrt t (x :: xs)) as (R & HR & Hrun); [done|].
      exists R. split; [done|]. split; done. }
  destruct HR as (R & HR0 & HR1 & HRrun).
  exists R. do 2 (split; [done|]).
  unfold print_summary, summary_layout.
  fold (rate_for t (duration_of (results t))) in Htiming.
  remember (rate_for t (duration_of (results t))) as rate eqn:Hrate.
  remember (basic_report t _ _ _ _ _) as Bs eqn:HBs.
  remember (throughput_report t _ _) as Ts eqn:HTs.
  remember (distribution_report StatusHeader _ _ _) as Ss eqn:HSs.
  remember (distribution_report ErrorHeader _ _ _) as Es eqn:HEs.
  remember (performance_report _ _) as Ps eqn:HPs.
  rewrite !fmap_app. simpl.
  do 3 apply runs_print_then. apply runs_attr_then.
  rewrite (proj2 (truthy_true _) Hne). simpl.
  eapply runs_bind_silent; [exact Htiming|]. cbv beta iota.
  subst Bs Ts Ss Es Ps.
  apply runs_bind with (a := tt); [by apply runs_basic_statistics|].
  apply runs_bind with (a := tt); [exact HRrun|].
  apply runs_bind with (a := tt); [apply runs_throughput_analysis|].
  apply runs_bind with (a := tt); [by apply runs_status_code_distribution|].
  apply runs_bind with (a := tt); [by apply runs_error_distribution|].
  apply runs_bind with (a := tt); [by apply runs_performance_analysis|].
  apply runs_print.
Qed.

Lemma console_print_summary_nonempty py_sqrt t :
  results t <> [] ->
  exists R,
    (successful_times t = [] -> R = []) /\
    (successful_times t <> [] -> response_time_report (successful_times t) R) /\
    console (print_summary py_sqrt) t = summary_layout t (duration_of (results t)) R /\
    runs t (print_summary py_sqrt) tt
         (EvPrint <$> summary_layout t (duration_of (results t)) R).
Proof.
  intros Hne. destruct (print_summary_nonempty py_sqrt t Hne) as (R & H0 & H1 & Hrun).
  exists R. do 2 (split; [done|]). split; [|done].
  destruct (runs_console _ _ _ _ Hrun) as [-> _]. apply stdout_prints.
Qed.

(** *** Reading one kind of line off the report *)

Lemma omap_layout {A} (f : line -> option A) t d R :
  omap f (summary_layout t d R) =
    omap f [Rule 70; Title; Rule 70]
    ++ omap f (basic_report t (py_len (results t))
                 (py_len (filter (fun r => is_success r = true) (results t)))
                 (py_len (results t)
                  - py_len (filter (fun r => is_success r = true) (results t)))
                 d (rate_for t d))
    ++ omap f R
    ++ omap f (throughput_report t d (rate_for t d))
    ++ omap f (distribution_report StatusHeader StatusLine (py_len (results t))
                 (sorted_by (item_leb Z.compare)
                    (map_to_list (status_histogram (results t)))))
    ++ omap f (distribution_report ErrorHeader ErrorLine (py_len (results t))
                 (sorted_by (item_leb String.compare)
                    (map_to_list (error_histogram (results t)))))
    ++ omap f (performance_report (r_response_time <$> results t) (py_len (results t)))
    ++ omap f [Rule 70].
Proof. unfold summary_layout. by rewrite !omap_app. Qed.

Lemma omap_distribution_none {A K} (f : line -> option A) header
    (mk : K -> Z -> Q -> line) n items :
  f header = None -> (forall k c q, f (mk k c q) = None) ->
  omap f (distribution_report header mk n items) = [].
Proof.
  intros Hh Hmk. unfold distribution_report. destruct (truthy items); [|done].
  simpl. rewrite Hh. induction items as [|[k c] items IH]; [done|].
  simpl. by rewrite Hmk.
Qed.

Lemma omap_performance_none {A} (f : line -> option A) times n :
  f PerformanceHeader = None -> (forall k q, f (Fast k q) = None) ->
  (forall k q, f (Medium k q) = None) -> (forall k q, f (Slow k q) = None) ->
  omap f (performance_report times n) = [].
Proof.
  intros H0 H1 H2 H3. unfold performance_report. destruct (truthy times); [|done].
  simpl. by rewrite H0, H1, H2, H3.
Qed.

Lemma omap_throughput_none {A} (f : line -> option A) t d r :
  f ThroughputHeader = None -> (forall q, f (RequestsPerSecond q) = None) ->
  (forall q, f (RequestsPerMinute q) = None) ->
  (forall q, f (DataPointsPerSecond q) = None) ->
  (forall q, f (ThroughputEfficiency q) = None) ->
  omap f (throughput_report t d r) = [].
Proof.
  intros H0 H1 H2 H3 H4. unfold throughput_report. destruct (Qltb 0 d); [|done].
  simpl. by rewrite H0, H1, H2, H3, H4.
Qed.

(** A line with payload [y] is in a report iff the projection finds [y]. *)
Lemma elem_of_projection {A} (f : line -> option A) (mk : A -> line) (ls : list line) y :
  (forall l z, f l = Some z -> l = mk z) -> f (mk y) = Some y ->
  mk y ∈ ls <-> y ∈ omap f ls.
Proof.
  intros Hinv Hmk. rewrite list_elem_of_omap. split.
  - intros H. by exists (mk y).
  - intros (l & Hl & Hf). by rewrite <- (Hinv l y Hf).
Qed.

Ltac other_blocks_silent :=
  rewrite omap_layout;
  rewrite ?omap_throughput_none by done;
  rewrite ?omap_performance_none by done;
  rewrite ?(omap_distribution_none _ StatusHeader) by done;
  rewrite ?(omap_distribution_none _ ErrorHeader) by done;
  simpl; rewrite ?app_nil_r.

Lemma layout_test_duration t d R :
  omap test_duration_of (summary_layout t d R) = d :: omap test_duration_of R.
Proof. by other_blocks_silent. Qed.

Lemma layout_actual_rps t d R :
  omap actual_rps_of (summary_layout t d R) = rate_for t d :: omap actual_rps_of R.
Proof. by other_blocks_silent. Qed.

Lemma layout_percentile t d R :
  omap percentile_of (summary_layout t d R) = omap percentile_of R.
Proof. by other_blocks_silent. Qed.

Lemma layout_std_dev t d R :
  omap std_dev_of (summary_layout t d R) = omap std_dev_of R.
Proof. by other_blocks_silent. Qed.

Lemma layout_latency t d R :
  omap latency_line (summary_layout t d R) = omap latency_line R.
Proof. by other_blocks_silent. Qed.

Lemma layout_efficiency t d R :
  omap efficiency_of (summary_layout t d R) =
    omap efficiency_of R ++ omap efficiency_of (throughput_report t d (rate_for t d)).
Proof.
  rewrite omap_layout.
  rewrite ?omap_performance_none by done.
  rewrite ?(omap_distribution_none _ StatusHeader) by done.
  rewrite ?(omap_distribution_none _ ErrorHeader) by done.
  simpl. by rewrite ?app_nil_r.
Qed.

Lemma layout_error_line t d R :
  omap error_line_of (summary_layout t d R) =
    omap error_line_of R
    ++ omap error_line_of
         (distribution_report ErrorHeader ErrorLine (py_len (results t))
            (sorted_by (item_leb String.compare)
               (map_to_list (error_histogram (results t))))).
Proof.
  rewrite omap_layout.
  rewrite ?omap_throughput_none by done.
  rewrite ?omap_performance_none by done.
  rewrite ?(omap_distribution_none _ StatusHeader) by done.
  simpl. by rewrite ?app_nil_r.
Qed.

Lemma layout_error_header t d R :
  omap error_header_of (summary_layout t d R) =
    omap error_header_of R
    ++ omap error_header_of
         (distribution_report ErrorHeader ErrorLine (py_len (results t))
            (sorted_by (item_leb String.compare)
               (map_to_list (error_histogram (results t))))).
Proof.
  rewrite omap_layout.
  rewrite ?omap_throughput_none by done.
  rewrite ?omap_performance_none by done.
  rewrite ?(omap_distribution_none _ StatusHeader) by done.
  simpl. by rewrite ?app_nil_r.
Qed.

(** The response-time block, read the same way. *)
Lemma response_time_report_percentiles rt R :
  response_time_report rt R ->
  forall p v, (p, v) ∈ omap percentile_of R <->
    p ∈ percentiles /\
    sorted rt !! Z.to_nat (percentile_index p (py_len rt)) = Some v.
Proof.
  intros (avg & med & lo & hi & sd & pl & -> & _ & _ & _ & Hpl) p v.
  rewrite omap_app. simpl.
  rewrite list_elem_of_omap. split.
  - intros (l & Hl & Hf).
    apply list_elem_of_lookup in Hl as [i Hi].
    destruct (Forall2_lookup_r _ _ _ _ _ Hpl Hi) as (p' & Hp' & v' & -> & Hv').
    simpl in Hf. injection Hf as -> ->.
    split; [|done]. apply list_elem_of_lookup. eauto.
  - intros [Hp Hv].
    apply list_elem_of_lookup in Hp as [i Hi].
    destruct (Forall2_lookup_l _ _ _ _ _ Hpl Hi) as (l & Hl & v' & -> & Hv').
    exists (Percentile p v'). split; [apply list_elem_of_lookup; eauto|].
    simpl. congruence.
Qed.

Lemma response_time_report_std_dev rt R :
  response_time_report rt R -> exists sd,
    omap std_dev_of R = [sd] /\ (py_len rt = 1 -> sd = 0%Q).
Proof.
  intros (avg & med & lo & hi & sd & pl & -> & _ & _ & Hsd & Hpl).
  exists sd. split; [|done].
  rewrite omap_app. simpl.
  assert (Hnone : omap std_dev_of pl = []).
  { clear -Hpl. induction Hpl as [|p l ps ls (v & -> & _) _ IH]; [done|]. by simpl. }
  by rewrite Hnone.
Qed.

Lemma response_time_report_silent {A} (f : line -> option A) rt R :
  response_time_report rt R ->
  f ResponseTimeHeader = None -> (forall n, f (Count n) = None) ->
  (forall q, f (Average q) = None) -> (forall q, f (Median q) = None) ->
  (forall q, f (Min q) = None) -> (forall q, f (Max q) = None) ->
  (forall q, f (StdDev q) = None) -> f PercentilesHeader = None ->
  (forall p q, f (Percentile p q) = None) ->
  omap f R = [].
Proof.
  intros (avg & med & lo & hi & sd & pl & -> & _ & _ & _ & Hpl) H0 H1 H2 H3 H4 H5 H6 H7 H8.
  rewrite omap_app. simpl. rewrite H0, H1, H2, H3, H4, H5, H6, H7.
  induction Hpl as [|p l ps ls (v & -> & _) _ IH]; [done|]. simpl. by rewrite H8.
Qed.

(** *** The histograms *)

Lemma fold_count_lookup `{Countable K} (key : result_entry -> option K)
    (f : gmap K Z -> result_entry -> gmap K Z) rs (d : gmap K Z) k :
  (forall d r, f d r = match key r with Some k' => count_up k' d | None => d end) ->
  fold_left f rs d !! k =
    let c := py_len (filter (fun r => key r = Some k) rs) in
    if c =? 0 then d !! k else Some (default 0 (d !! k) + c).
Proof.
  intros Hf. revert d. induction rs as [|r rs IH]; intros d; [done|].
  simpl fold_left. rewrite IH, Hf. unfold py_len.
  destruct (key r) as [k'|] eqn:Ek.
  - destruct (decide (k' = k)) as [->|Hne].
    + rewrite filter_cons_True by done.
      unfold count_up at 1 2. rewrite lookup_insert_eq. simpl.
      destruct (filter _ rs) as [|x xs]; simpl.
      * f_equal.
      * f_equal. lia.
    + rewrite filter_cons_False by congruence.
      unfold count_up. by rewrite lookup_insert_ne.
  - rewrite filter_cons_False by congruence. done.
Qed.

Lemma error_histogram_lookup rs k c :
  error_histogram rs !! k = Some c <-> 0 < c /\ c = error_count rs k.
Proof.
  unfold error_histogram, error_count.
  rewrite (fold_count_lookup error_key) by (intros d r; unfold error_key; by case_bool_decide).
  rewrite lookup_empty. simpl.
  set (n := py_len _). assert (0 <= n) by (unfold n, py_len; lia).
  destruct (n =? 0) eqn:E.
  - split; [done|]. lia.
  - split; [intros [= <-]; lia | intros [_ ->]; f_equal; lia].
Qed.

Lemma error_items rs k c :
  (k, c) ∈ sorted_by (item_leb String.compare) (map_to_list (error_histogram rs))
  <-> 0 < c /\ c = error_count rs k.
Proof.
  rewrite (sorted_by_Permutation _ _), elem_of_map_to_list.
  apply error_histogram_lookup.
Qed.

Lemma error_histogram_empty rs :
  map_to_list (error_histogram rs) = [] <-> Forall (fun r => r_error r = EmptyString) rs.
Proof.
  rewrite map_to_list_empty_iff. split.
  - intros He. apply Forall_forall. intros r Hr.
    destruct (decide (r_error r = EmptyString)) as [|Hne]; [done|]. exfalso.
    pose (k := before_colon (r_error r)).
    assert (Hk : error_key r = Some k).
    { unfold error_key. by rewrite bool_decide_eq_true_2. }
    assert (Hpos : 0 < error_count rs k).
    { unfold error_count, py_len.
      assert (r ∈ filter (fun r => error_key r = Some k) rs) as Hin
        by (by apply list_elem_of_filter).
      destruct (filter _ rs); [by apply elem_of_nil in Hin | simpl; lia]. }
    assert (error_histogram rs !! k = Some (error_count rs k)) as Hl
      by (by apply error_histogram_lookup).
    rewrite He, lookup_empty in Hl. done.
  - intros Hall. apply map_eq. intros k. rewrite lookup_empty.
    destruct (error_histogram rs !! k) as [c|] eqn:E; [|done]. exfalso.
    apply error_histogram_lookup in E as [Hpos ->].
    unfold error_count, py_len in Hpos.
    destruct (filter _ rs) as [|r l] eqn:Ef; [simpl in Hpos; lia|].
    assert (r ∈ filter (fun r => error_key r = Some k) rs) as Hin by (rewrite Ef; by left).
    apply list_elem_of_filter in Hin as [Hkey Hin].
    rewrite Forall_forall in Hall. specialize (Hall r Hin).
    unfold error_key in Hkey. by rewrite bool_decide_eq_false_2 in Hkey by naive_solver.
Qed.

Lemma error_lines_of_distribution n (items : list (string * Z)) k c pct :
  (k, c, pct) ∈ omap error_line_of (distribution_report ErrorHeader ErrorLine n items)
  <-> (k, c) ∈ items /\ pct = (inject_Z c / inject_Z n * 100)%Q.
Proof.
  rewrite list_elem_of_omap. unfold distribution_report.
  destruct items as [|it items].
  - simpl. split.
    + intros (l & Hl & _). by apply elem_of_nil in Hl.
    + intros [H _]. by apply elem_of_nil in H.
  - cbn [truthy]. split.
    + intros (l & Hl & Hf). apply elem_of_cons in Hl as [->|Hl]; [done|].
      apply list_elem_of_fmap in Hl as ([k' c'] & -> & Hin). simpl in Hf.
      injection Hf as <- <- <-. done.
    + intros [Hin ->]. exists (ErrorLine k c (inject_Z c / inject_Z n * 100)%Q).
      split; [|done]. right. apply list_elem_of_fmap. by exists (k, c).
Qed.

Lemma error_header_of_distribution n (items : list (string * Z)) :
  omap error_header_of (distribution_report ErrorHeader ErrorLine n items)
  = if truthy items then [tt] else [].
Proof.
  unfold distribution_report. destruct (truthy items); [|done]. simpl. f_equal.
  induction items as [|[k c] items IH]; [done|]. by simpl.
Qed.

(** * The claims about the aggregator *)

(** The report of [print_summary] on any object: it returns normally, and
    what it prints is a function of the object alone. *)
Lemma print_summary_runs py_sqrt t :
  exists ls, runs t (print_summary py_sqrt) tt (EvPrint <$> ls).
Proof.
  destruct (results t) as [|r rs] eqn:E.
  - eexists. by apply print_summary_empty.
  - destruct (print_summary_nonempty py_sqrt t) as (R & _ & _ & Hrun); [by rewrite E|].
    eexists. exact Hrun.
Qed.

(** C9. Producing the report leaves the outcome collection unchanged.  For
    every object [t], at any time (whatever the trace [tr] so far, whatever
    the collection holds, partial or empty), [print_summary] returns without
    raising, the object it leaves is [t] itself (so [results] has the same
    entries in the same order), and the events it adds depend on [t] only. *)
Theorem print_summary_leaves_collection_unchanged :
  forall (py_sqrt : Q -> Q) (t : APILoadTester),
  exists evs : list event,
    forall tr : list event,
      print_summary py_sqrt (mk_machine t tr) = (inr tt, mk_machine t (tr ++ evs))
      /\ results (self (print_summary py_sqrt (mk_machine t tr)).2) = results t.
Proof.
  intros py_sqrt t. destruct (print_summary_runs py_sqrt t) as [ls Hrun].
  exists (EvPrint <$> ls). intros tr. split; [apply Hrun|]. by rewrite (Hrun tr).
Qed.

Lemma rate_for_spec t d :
  (0 <= d)%Q -> rate_for t d = spec_observed_rate (py_len (results t)) d.
Proof.
  intros Hd. unfold rate_for, spec_observed_rate.
  destruct (Qltb 0 d) eqn:E.
  - apply Qltb_lt in E. destruct (Qeq_bool d 0) eqn:E0; [|done].
    apply Qeq_bool_eq in E0. rewrite E0 in E. by apply Qlt_irrefl in E.
  - apply Qltb_ge in E. assert (Hz : (d == 0)%Q) by lra.
    apply Qeq_bool_iff in Hz. by rewrite Hz.
Qed.

Lemma console_test_duration py_sqrt t :
  results t <> [] ->
  omap test_duration_of (console (print_summary py_sqrt) t) = [duration_of (results t)].
Proof.
  intros Hne.
  destruct (console_print_summary_nonempty py_sqrt t Hne) as (R & H0 & H1 & -> & _).
  rewrite layout_test_duration. f_equal.
  destruct (successful_times t) as [|x xs] eqn:E; [by rewrite H0|].
  by apply (response_time_report_silent _ (x :: xs)); [apply H1|..].
Qed.

Lemma console_actual_rps py_sqrt t :
  results t <> [] ->
  omap actual_rps_of (console (print_summary py_sqrt) t)
  = [rate_for t (duration_of (results t))].
Proof.
  intros Hne.
  destruct (console_print_summary_nonempty py_sqrt t Hne) as (R & H0 & H1 & -> & _).
  rewrite layout_actual_rps. f_equal.
  destruct (successful_times t) as [|x xs] eqn:E; [by rewrite H0|].
  by apply (response_time_report_silent _ (x :: xs)); [apply H1|..].
Qed.

Lemma console_efficiency py_sqrt t :
  results t <> [] ->
  omap efficiency_of (console (print_summary py_sqrt) t)
  = omap efficiency_of
      (throughput_report t (duration_of (results t))
         (rate_for t (duration_of (results t)))).
Proof.
  intros Hne.
  destruct (console_print_summary_nonempty py_sqrt t Hne) as (R & H0 & H1 & -> & _).
  rewrite layout_efficiency.
  destruct (successful_times t) as [|x xs] eqn:E; [by rewrite H0|].
  by rewrite (response_time_report_silent _ (x :: xs) R); [|apply H1|..].
Qed.

(** C6. For every non-empty outcome collection the report shows one test
    duration, [max(timestamp) - min(timestamp)] taken over the timestamps of
    all outcomes, successful or failed, and one observed rate,
    [total / duration], which is [0] when the duration is [0]. *)
Theorem observed_duration_and_rate :
  forall (py_sqrt : Q -> Q) (t : APILoadTester),
    results t <> [] ->
    exists hi lo : Q,
      is_maximum hi (all_timestamps t) /\ is_minimum lo (all_timestamps t) /\
      (forall d, TestDuration d ∈ console (print_summary py_sqrt) t <-> d = (hi - lo)%Q) /\
      (forall r, ActualRPS r ∈ console (print_summary py_sqrt) t <->
                 r = spec_observed_rate (py_len (results t)) (hi - lo)).
Proof.
  intros py_sqrt t Hne.
  destruct (duration_of_spec (results t) Hne) as (hi & lo & Hhi & Hlo & Hd).
  exists hi, lo. split; [done|]. split; [done|]. split.
  - intros d.
    rewrite (elem_of_projection test_duration_of TestDuration) by (try done; by intros []; intros; simplify_eq/=).
    rewrite console_test_duration by done. rewrite list_elem_of_singleton. by rewrite Hd.
  - intros r.
    rewrite (elem_of_projection actual_rps_of ActualRPS) by (try done; by intros []; intros; simplify_eq/=).
    rewrite console_actual_rps by done. rewrite list_elem_of_singleton.
    rewrite rate_for_spec by apply duration_of_nonneg. by rewrite Hd.
Qed.

(** C7. For every run with a positive target rate and a positive observed
    duration, the one throughput efficiency the report shows is
    [observedRate / targetRate * 100], where [observedRate] is the rate the
    report shows; with a target of 100 and an observed rate of 80 the
    efficiency shown is 80. *)
Theorem throughput_efficiency_reported :
  forall (py_sqrt : Q -> Q) (t : APILoadTester),
    results t <> [] ->
    0 < requests_per_second t ->
    (0 < duration_of (results t))%Q ->
    let observed_rate := (inject_Z (py_len (results t)) / duration_of (results t))%Q in
    ActualRPS observed_rate ∈ console (print_summary py_sqrt) t /\
    (forall e, ThroughputEfficiency e ∈ console (print_summary py_sqrt) t <->
               e = spec_efficiency observed_rate (requests_per_second t)) /\
    (requests_per_second t = 100 -> (observed_rate == 80)%Q ->
     forall e, ThroughputEfficiency e ∈ console (print_summary py_sqrt) t -> (e == 80)%Q).
Proof.
  intros py_sqrt t Hne Hrps Hd observed_rate.
  assert (Hrate : rate_for t (duration_of (results t)) = observed_rate).
  { unfold rate_for. by rewrite (proj2 (Qltb_lt _ _) Hd). }
  assert (Heff : forall e, ThroughputEfficiency e ∈ console (print_summary py_sqrt) t <->
               e = spec_efficiency observed_rate (requests_per_second t)).
  { intros e.
    rewrite (elem_of_projection efficiency_of ThroughputEfficiency) by (try done; by intros []; intros; simplify_eq/=).
    rewrite console_efficiency by done. unfold throughput_report.
    rewrite (proj2 (Qltb_lt _ _) Hd). simpl.
    rewrite (proj2 (Z.ltb_lt _ _) Hrps), Hrate.
    by rewrite list_elem_of_singleton. }
  split; [|split; [exact Heff|]].
  - rewrite (elem_of_projection actual_rps_of ActualRPS) by (try done; by intros []; intros; simplify_eq/=).
    rewrite console_actual_rps, Hrate by done. by apply list_elem_of_singleton.
  - intros H100 H80 e He. apply Heff in He. subst e.
    unfold spec_efficiency. rewrite H100, H80. reflexivity.
Qed.

Lemma basic_report_in_layout t d R l :
  l ∈ basic_report t (py_len (results t))
        (py_len (filter (fun r => is_success r = true) (results t)))
        (py_len (results t) - py_len (filter (fun r => is_success r = true) (results t)))
        d (rate_for t d) ->
  l ∈ summary_layout t d R.
Proof.
  intros Hl. unfold summary_layout. apply elem_of_app. right.
  apply elem_of_app. by left.
Qed.

Lemma no_success_filter rs :
  Forall (fun r => is_success r = false) rs ->
  filter (fun r => is_success r = true) rs = [].
Proof.
  induction 1 as [|r rs Hr _ IH]; [done|].
  rewrite filter_cons_False by congruence. exact IH.
Qed.

Lemma console_error_lines py_sqrt t k c pct :
  results t <> [] ->
  ErrorLine k c pct ∈ console (print_summary py_sqrt) t <->
  0 < c /\ c = error_count (results t) k /\
  pct = (inject_Z c / inject_Z (py_len (results t)) * 100)%Q.
Proof.
  intros Hne.
  rewrite (elem_of_projection error_line_of (fun x => ErrorLine x.1.1 x.1.2 x.2) _ (k, c, pct))
    by (try done; by intros []; intros [[??]?]; intros; simplify_eq/=).
  destruct (console_print_summary_nonempty py_sqrt t Hne) as (R & H0 & H1 & -> & _).
  rewrite layout_error_line.
  assert (HR : omap error_line_of R = []).
  { destruct (successful_times t) as [|x xs] eqn:E; [by rewrite H0|].
    by apply (response_time_report_silent _ (x :: xs)); [apply H1|..]. }
  rewrite HR. simpl.
  rewrite error_lines_of_distribution, error_items. tauto.
Qed.

Lemma console_error_header py_sqrt t :
  results t <> [] ->
  ErrorHeader ∈ console (print_summary py_sqrt) t <->
  Exists (fun r => r_error r <> EmptyString) (results t).
Proof.
  intros Hne.
  rewrite (elem_of_projection error_header_of (fun _ => ErrorHeader) _ tt)
    by (try done; by intros []; intros; simplify_eq/=).
  destruct (console_print_summary_nonempty py_sqrt t Hne) as (R & H0 & H1 & -> & _).
  rewrite layout_error_header.
  assert (HR : omap error_header_of R = []).
  { destruct (successful_times t) as [|x xs] eqn:E; [by rewrite H0|].
    by apply (response_time_report_silent _ (x :: xs)); [apply H1|..]. }
  rewrite HR. simpl. rewrite error_header_of_distribution, sorted_by_truthy.
  destruct (truthy (map_to_list (error_histogram (results t)))) eqn:E.
  - split; [intros _ | intros _; by left].
    apply truthy_true in E. apply not_Forall_Exists; [intros r; apply _|].
    intros Hall. apply E. apply error_histogram_empty.
    eapply Forall_impl; [exact Hall|]. simpl. intros r Hr.
    destruct (decide (r_error r = EmptyString)); [done|]. contradiction.
  - split; [intros H; by apply elem_of_nil in H|].
    apply truthy_false, error_histogram_empty in E. intros Hex.
    apply Exists_exists in Hex as (r & Hr & Herr).
    rewrite Forall_forall in E. exfalso. apply Herr, E. exact Hr.
Qed.

(** C8. The report is total on degenerate collections.
    - With no outcome at all, [print_summary] returns normally after printing
      the banner and the line "No results to display.".
    - When every outcome failed, it returns normally, prints no line of the
      latency blocks, and still prints the counts (total, 0 successful, all
      failed) and the error histogram: one line per error kind that occurs,
      with its number of occurrences and share, under the histogram header
      whenever some outcome carries an error text.
    - With exactly one successful outcome, the standard deviation printed
      is 0. *)
Theorem report_total_on_degenerate_collections :
  forall (py_sqrt : Q -> Q) (t : APILoadTester),
    let out := console (print_summary py_sqrt) t in
    let n := py_len (results t) in
    (results t = [] ->
       (forall tr, print_summary py_sqrt (mk_machine t tr)
                   = (inr tt, mk_machine t (tr ++ (EvPrint <$> [Rule 70; Title; Rule 70; NoResults]))))
       /\ out = [Rule 70; Title; Rule 70; NoResults])
    /\
    (results t <> [] -> Forall (fun r => is_success r = false) (results t) ->
       (forall tr, (print_summary py_sqrt (mk_machine t tr)).1 = inr tt)
       /\ (forall l, l ∈ out -> latency_line l = None)
       /\ TotalRequests n ∈ out /\ Successful 0 ∈ out /\ Failed n ∈ out
       /\ (forall k c pct, ErrorLine k c pct ∈ out <->
             0 < c /\ c = error_count (results t) k /\
             pct = (inject_Z c / inject_Z n * 100)%Q)
       /\ (ErrorHeader ∈ out <-> Exists (fun r => r_error r <> EmptyString) (results t)))
    /\
    (py_len (successful_times t) = 1 -> forall sd, StdDev sd ∈ out <-> sd = 0%Q).
Proof.
  intros py_sqrt t out n. split; [|split].
  - intros He. pose proof (print_summary_empty py_sqrt t He) as Hrun.
    split; [exact Hrun|]. unfold out.
    destruct (runs_console _ _ _ _ Hrun) as [-> _]. apply stdout_prints.
  - intros Hne Hfail.
    destruct (console_print_summary_nonempty py_sqrt t Hne) as (R & H0 & _ & Hout & Hrun).
    assert (Hnone : filter (fun r => is_success r = true) (results t) = [])
      by (by apply no_success_filter).
    assert (HR : R = []).
    { apply H0. unfold successful_times. by rewrite Hnone. }
    subst R. split; [|split; [|split; [|split; [|split; [|split]]]]].
    + intros tr. by rewrite (Hrun tr).
    + intros l Hl. unfold out in Hl. rewrite Hout in Hl.
      destruct (latency_line l) as [l'|] eqn:E; [|done]. exfalso.
      assert (l' ∈ omap latency_line (summary_layout t (duration_of (results t)) [])) as Hin
        by (apply list_elem_of_omap; eauto).
      rewrite layout_latency in Hin. by apply elem_of_nil in Hin.
    + unfold out. rewrite Hout. apply basic_report_in_layout.
      unfold basic_report. apply elem_of_cons. right. by left.
    + unfold out. rewrite Hout. apply basic_report_in_layout.
      unfold basic_report. rewrite Hnone. do 2 (apply elem_of_cons; right). by left.
    + unfold out. rewrite Hout. apply basic_report_in_layout.
      unfold basic_report. rewrite Hnone. do 3 (apply elem_of_cons; right).
      replace (py_len (results t) - py_len []) with n by (unfold n, py_len; simpl; lia).
      by left.
    + intros k c pct. by apply console_error_lines.
    + by apply console_error_header.
  - intros Hone sd.
    assert (Hrt : successful_times t <> []).
    { intros He. rewrite He in Hone. done. }
    assert (Hne : results t <> []).
    { intros He. apply Hrt. unfold successful_times. by rewrite He. }
    destruct (console_print_summary_nonempty py_sqrt t Hne) as (R & _ & H1 & Hout & _).
    rewrite (elem_of_projection std_dev_of StdDev)
      by (try done; by intros []; intros; simplify_eq/=).
    unfold out. rewrite Hout, layout_std_dev.
    destruct (response_time_report_std_dev _ _ (H1 Hrt)) as (sd' & -> & Hsd).
    rewrite list_elem_of_singleton. by rewrite (Hsd Hone).
Qed.

(** *** Percentiles *)

Lemma floor_rank_index_100 n : 0 < n -> floor_rank_index 100 n = n - 1.
Proof.
  intros Hn. unfold floor_rank_index.
  replace (100 * n) with (n * 100) by lia. rewrite Z.div_mul by done. lia.
Qed.

(** The index of the program and the nearest-rank index of the specification
    agree exactly when [p * n] is a multiple of 100 or smaller than 100. *)
Lemma floor_rank_vs_nearest_rank p n :
  0 <= p -> 0 <= n ->
  floor_rank_index p n = spec_nearest_rank_index p n <->
  (p * n) mod 100 = 0 \/ p * n < 100.
Proof.
  intros Hp Hn. unfold floor_rank_index, spec_nearest_rank_index, ceil_div.
  assert (0 <= p * n) by nia.
  pose proof (Z.div_mod (p * n) 100 ltac:(lia)) as Hdm.
  pose proof (Z.mod_pos_bound (p * n) 100 ltac:(lia)) as Hmb.
  pose proof (Z.div_mod (- (p * n)) 100 ltac:(lia)) as Hdm'.
  pose proof (Z.mod_pos_bound (- (p * n)) 100 ltac:(lia)) as Hmb'.
  assert (0 <= p * n / 100) by (apply Z.div_pos; lia).
  split; intros Hc; [|destruct Hc]; nia.
Qed.

Lemma sorted_last_is_maximum rt v :
  rt <> [] -> sorted rt !! Z.to_nat (py_len rt - 1) = Some v -> is_maximum v rt.
Proof.
  intros Hne Hv. split.
  - rewrite <- (sorted_Permutation rt). apply list_elem_of_lookup. eauto.
  - intros x Hx. rewrite <- (sorted_Permutation rt) in Hx.
    apply (StronglySorted_last_max (sorted rt)); [apply sorted_StronglySorted| |done].
    replace (length (sorted rt) - 1)%nat with (Z.to_nat (py_len rt - 1)); [done|].
    rewrite <- sorted_length. unfold py_len. lia.
Qed.

(** C1, as the program has it.  For every percentile [p] of the ladder and
    every non-empty collection of successful latencies, the one percentile
    value the report shows for [p] is the element of the sorted latencies at
    index [max(0, floor(p * n / 100) - 1)]: the program truncates with
    [int(...)] where nearest rank takes the ceiling.  Percentile 100 computed
    this way is the maximum, and [p = 50] on [[10, 20, 30, 40]] gives 20. *)
Theorem percentile_uses_floor_rank :
  forall (py_sqrt : Q -> Q) (t : APILoadTester),
    let rt := successful_times t in
    rt <> [] ->
    (forall p v, Percentile p v ∈ console (print_summary py_sqrt) t <->
       p ∈ percentiles /\
       sorted rt !! Z.to_nat (floor_rank_index p (py_len rt)) = Some v)
    /\ (forall v, sorted rt !! Z.to_nat (percentile_index 100 (py_len rt)) = Some v ->
                  is_maximum v rt)
    /\ sorted [10; 20; 30; 40]%Q !! Z.to_nat (percentile_index 50 4) = Some 20%Q.
Proof.
  intros py_sqrt t rt Hrt.
  assert (Hne : results t <> []).
  { intros He. apply Hrt. unfold rt, successful_times. by rewrite He. }
  pose proof (py_len_nonzero rt Hrt) as Hn.
  assert (Hpos : 0 < py_len rt) by (unfold py_len in *; lia).
  split; [|split; [|reflexivity]].
  - intros p v.
    destruct (console_print_summary_nonempty py_sqrt t Hne) as (R & _ & H1 & -> & _).
    rewrite (elem_of_projection percentile_of (fun x => Percentile x.1 x.2) _ (p, v))
      by (try done; by intros []; intros [??]; intros; simplify_eq/=).
    rewrite layout_percentile, (response_time_report_percentiles rt R (H1 Hrt)).
    split; intros [Hp Hv]; (split; [done|]);
      pose proof (percentiles_range p Hp);
      by rewrite percentile_index_floor in * by lia.
  - intros v Hv. apply sorted_last_is_maximum; [done|].
    by rewrite percentile_index_floor, floor_rank_index_100 in Hv by lia.
Qed.

(** * The claims about the executor *)

Lemma make_request_run w t tr request_id :
  make_request w request_id (mk_machine t tr) =
    let m1 := mk_machine t (tr ++ [EvRequest request_id (outgoing_request w t request_id)]) in
    match session_request w request_id (outgoing_request w t request_id) with
    | Responded status =>
        (inr (request_id, status, latency w request_id, EmptyString), m1)
    | Raised e =>
        if handled e
        then (inr (request_id, 0, latency w request_id, error_text (classify e)), m1)
        else (inl e, m1)
    end.
Proof.
  unfold make_request, try_except, session_call.
  cbv beta iota delta [bind attr emit ret raise self trace fst snd].
  fold (outgoing_request w t request_id). fold (latency w request_id).
  destruct (session_request w request_id (outgoing_request w t request_id)) as [status|e];
    [done|].
  unfold handled, classify.
  destruct (isinstance e TimeoutError); [done|].
  destruct (isinstance e ClientConnectionError); [done|].
  destruct (isinstance e ClientError); [done|].
  destruct (isinstance e Exception); done.
Qed.

Lemma error_text_nonempty k : error_text k <> EmptyString.
Proof. by destruct k. Qed.



(** C10. For every request, whatever the method, the headers [make_request]
    sends hold [Content-Type: application/json], and the body it sends is
    the configured body when the method is POST or PUT and none otherwise:
    for GET and DELETE no body is sent even if one is set. *)
Theorem content_type_always_body_only_post_put :
  forall (w : World) (t : APILoadTester) (tr : list event) (request_id : Z),
    exists req : http_request,
      requests_of (trace (make_request w request_id (mk_machine t tr)).2)
        = requests_of tr ++ [(request_id, req)] /\
      req_method req = method t /\
      req_headers req !! "Content-Type"%string = Some "application/json"%string /\
      (method t = "POST"%string \/ method t = "PUT"%string ->
         req_json req = request_body t) /\
      (method t <> "POST"%string -> method t <> "PUT"%string -> req_json req = None) /\
      (method t = "GET"%string \/ method t = "DELETE"%string -> req_json req = None).
Proof.
  intros w t tr request_id. exists (outgoing_request w t request_id).
  split; [|split; [done|split; [|split; [|split]]]].
  - rewrite make_request_run. cbv zeta.
    destruct (session_request w request_id (outgoing_request w t request_id)) as [s|e];
      [|destruct (handled e)]; simpl; unfold requests_of; by rewrite omap_app.
  - unfold outgoing_request, request_headers. simpl.
    destruct (use_random_user_agent t).
    + rewrite lookup_insert_ne by done. apply lookup_singleton_eq.
    + apply lookup_singleton_eq.
  - intros Hm. unfold outgoing_request. simpl.
    rewrite bool_decide_eq_true_2; [done|].
    destruct Hm as [-> | ->]; [by left | right; by left].
  - intros HnP HnU. unfold outgoing_request. simpl.
    rewrite bool_decide_eq_false_2; [done|].
    rewrite !elem_of_cons, elem_of_nil. tauto.
  - intros Hm. unfold outgoing_request. simpl.
    rewrite bool_decide_eq_false_2; [done|].
    rewrite !elem_of_cons, elem_of_nil. destruct Hm as [-> | ->]; intuition discriminate.
Qed.

(** * The claims about the dispatcher *)

Lemma set_results_same t : set_results (results t) t = t.
Proof. by destruct t. Qed.

Lemma outgoing_request_set_results w rs t request_id :
  outgoing_request w (set_results rs t) request_id = outgoing_request w t request_id.
Proof. done. Qed.

Lemma uninterrupted_handled w request_id req e :
  uninterrupted w -> session_request w request_id req = Raised e -> handled e = true.
Proof.
  intros Hw He. unfold handled. rewrite (Hw _ _ _ He). by rewrite !orb_true_r.
Qed.

Lemma limited_request_run w t rs tr request_id :
  uninterrupted w ->
  limited_request w request_id (mk_machine (set_results rs t) tr)
  = (inr (outcome_of w t request_id),
     mk_machine (set_results (rs ++ [entry_of w t request_id]) t)
                (tr ++ task_events w t request_id)).
Proof.
  intros Hw. unfold limited_request.
  unfold bind at 1. rewrite make_request_run. cbv zeta.
  rewrite outgoing_request_set_results.
  unfold entry_of, outcome_of, task_events.
  destruct (session_request w request_id (outgoing_request w t request_id))
    as [status|e] eqn:Ereply.
  - cbv beta iota delta [bind print_result results_append emit ret self trace fst snd].
    simpl. by rewrite <- app_assoc.
  - rewrite (uninterrupted_handled w _ _ e Hw Ereply).
    cbv beta iota delta [bind print_result results_append emit ret self trace fst snd].
    simpl. by rewrite <- app_assoc.
Qed.

(** Every pending task finishes exactly once. *)
Lemma completion_order_Permutation choose step pending :
  completion_order choose step (length pending) pending ≡ₚ pending.
Proof.
  remember (length pending) as fuel eqn:Hfuel.
  revert step pending Hfuel. induction fuel as [|fuel IH]; intros step pending Hfuel.
  - destruct pending; [done | discriminate].
  - simpl.
    assert (Hi : (choose step mod length pending < length pending)%nat).
    { apply Nat.mod_upper_bound. lia. }
    destruct (lookup_lt_is_Some_2 pending _ Hi) as [x Hx].
    rewrite Hx.
    transitivity (x :: delete (choose step mod length pending)%nat pending);
      [|symmetry; by apply delete_Permutation].
    constructor. apply IH.
    rewrite length_delete by eauto. lia.
Qed.

Lemma tasks_run w t ids :
  uninterrupted w ->
  forall rs tr,
    for_each ids (fun request_id =>
        try_except (limited_request w request_id ;; ret tt)
          (fun e => if isinstance e KeyboardInterrupt || isinstance e SystemExit
                    then raise e else ret tt))
      (mk_machine (set_results rs t) tr)
    = (inr tt,
       mk_machine (set_results (rs ++ (entry_of w t <$> ids)) t)
                  (tr ++ concat (task_events w t <$> ids))).
Proof.
  intros Hw. induction ids as [|request_id ids IH]; intros rs tr.
  - simpl. unfold ret. by rewrite !app_nil_r.
  - simpl for_each. unfold bind at 1. unfold try_except at 1. unfold bind at 1.
    rewrite limited_request_run by done. unfold ret at 1.
    rewrite IH. simpl. by rewrite <- !app_assoc.
Qed.

Lemma gather_run w t batch_start ids rs tr :
  uninterrupted w ->
  gather w batch_start ids (mk_machine (set_results rs t) tr)
  = (inr tt,
     mk_machine
       (set_results
          (rs ++ (entry_of w t <$>
                  completion_order (next_finished w batch_start) 0 (length ids) ids)) t)
       (tr ++ EvGather ids
           :: concat (task_events w t <$>
                      completion_order (next_finished w batch_start) 0 (length ids) ids))).
Proof.
  intros Hw. unfold gather. unfold bind at 1. unfold emit at 1. simpl self. simpl trace.
  rewrite tasks_run by done. by rewrite <- app_assoc.
Qed.

(** *** Ranges *)

Lemma range_list_unit_step a b : range_list (a + 1) (b + 1) 1 = seqZ (a + 1) (b - a).
Proof.
  unfold range_list. simpl (0 <? 1).
  replace ((b + 1 - (a + 1) + 1 - 1) / 1) with (b - a) by (rewrite Z.div_1_r; lia).
  replace (seqZ (a + 1) (b - a)) with (seqZ (a + 1 + 0) (b - a)) by (f_equal; lia).
  rewrite <- fmap_add_seqZ.
  apply list_fmap_ext. intros i x _. lia.
Qed.

Lemma range_list_batch_starts t :
  0 < batch_size t -> range_list 0 (total_requests t) (batch_size t) = batch_starts t.
Proof.
  intros Hbs. unfold range_list, batch_starts.
  rewrite (proj2 (Z.ltb_lt _ _) Hbs), Z.sub_0_r.
  apply list_fmap_ext. intros i x _. lia.
Qed.

Lemma timing_and_concurrency_delay rps :
  timing_and_concurrency rps = ((timing_and_concurrency rps).1, 1%Q).
Proof. unfold timing_and_concurrency. by destruct (100 <=? rps). Qed.

(** *** One batch, then all of them *)

Lemma batch_run w t batch_start rs tr :
  uninterrupted w ->
  (total <- attr total_requests ;;
   batch_requests <- py_range (batch_start + 1)
                              (Z.min (batch_start + batch_size t) total + 1) 1 ;;
   emit (EvSemaphore (Z.min (py_len batch_requests) 1000)) ;;
   gather w batch_start batch_requests ;;
   if Z.min (batch_start + batch_size t) total <? total
   then emit (EvSleep 1%Q) else ret tt)
    (mk_machine (set_results rs t) tr)
  = (inr tt,
     mk_machine (set_results (rs ++ (entry_of w t <$> batch_order w t batch_start)) t)
                (tr ++ batch_trace w t batch_start)).
Proof.
  intros Hw.
  unfold bind at 1. unfold attr at 1. simpl self. simpl total_requests.
  unfold bind at 1. unfold py_range. simpl (1 =? 0). cbv iota. unfold ret at 1.
  rewrite range_list_unit_step. fold (batch_ids t batch_start).
  unfold bind at 1. unfold emit at 1. simpl self. simpl trace.
  unfold bind at 1. rewrite gather_run by done.
  fold (batch_order w t batch_start). unfold batch_trace.
  destruct (Z.min (batch_start + batch_size t) (total_requests t) <? total_requests t).
  - unfold emit. cbn [self trace]. do 2 f_equal. by rewrite <- !app_assoc.
  - unfold ret. do 2 f_equal. by rewrite app_nil_r, <- !app_assoc.
Qed.

Lemma batches_run w t starts :
  uninterrupted w ->
  forall rs tr,
    for_each starts (fun batch_start =>
       total <- attr total_requests ;;
       batch_requests <- py_range (batch_start + 1)
                                  (Z.min (batch_start + batch_size t) total + 1) 1 ;;
       emit (EvSemaphore (Z.min (py_len batch_requests) 1000)) ;;
       gather w batch_start batch_requests ;;
       if Z.min (batch_start + batch_size t) total <? total
       then emit (EvSleep 1%Q) else ret tt)
      (mk_machine (set_results rs t) tr)
    = (inr tt,
       mk_machine
         (set_results (rs ++ concat ((fun s => entry_of w t <$> batch_order w t s) <$> starts)) t)
         (tr ++ concat (batch_trace w t <$> starts))).
Proof.
  intros Hw. induction starts as [|s starts IH]; intros rs tr.
  - simpl. unfold ret. by rewrite !app_nil_r.
  - simpl for_each. unfold bind at 1.
    rewrite (batch_run w t s rs tr Hw). rewrite IH.
    by rewrite !fmap_cons, !concat_cons, !app_assoc.
Qed.

Lemma batches_run_from w t starts tr :
  uninterrupted w ->
  for_each starts (fun batch_start =>
     total <- attr total_requests ;;
     batch_requests <- py_range (batch_start + 1)
                                (Z.min (batch_start + batch_size t) total + 1) 1 ;;
     emit (EvSemaphore (Z.min (py_len batch_requests) 1000)) ;;
     gather w batch_start batch_requests ;;
     if Z.min (batch_start + batch_size t) total <? total
     then emit (EvSleep 1%Q) else ret tt)
    (mk_machine t tr)
  = (inr tt,
     mk_machine
       (set_results
          (results t ++ concat ((fun s => entry_of w t <$> batch_order w t s) <$> starts)) t)
       (tr ++ concat (batch_trace w t <$> starts))).
Proof.
  intros Hw. pose proof (batches_run w t starts Hw (results t) tr) as H.
  by rewrite set_results_same in H.
Qed.

Lemma py_range_nonzero start stop step :
  step <> 0 -> py_range start stop step = ret (range_list start stop step).
Proof. intros Hs. unfold py_range. destruct (step =? 0) eqn:E; [lia | done]. Qed.

Lemma bind_runs {A B} t (c : Py A) (k : A -> Py B) a evs tr :
  runs t c a evs -> bind c k (mk_machine t tr) = k a (mk_machine t (tr ++ evs)).
Proof. intros Hc. unfold bind. by rewrite Hc. Qed.

(** The trace and the collection a whole run leaves. *)
Lemma run_load_test_run w py_sqrt t tr :
  uninterrupted w -> 0 < batch_size t ->
  exists ls,
    run_load_test w py_sqrt (mk_machine t tr)
    = (inr tt,
       mk_machine
         (set_results
            (results t
             ++ concat ((fun s => entry_of w t <$> batch_order w t s) <$> batch_starts t)) t)
         (tr ++ run_prelude t
             ++ concat (batch_trace w t <$> batch_starts t)
             ++ [EvPrint (LoadTestCompleted (time_run_finished w - time_run_started w)%Q);
                 EvSessionClose]
             ++ (EvPrint <$> ls))).
Proof.
  intros Hw Hbs.
  set (t' := set_results
            (results t
             ++ concat ((fun s => entry_of w t <$> batch_order w t s) <$> batch_starts t)) t).
  destruct (print_summary_runs py_sqrt t') as [ls Hsummary].
  exists ls. unfold run_load_test.
  repeat first [ erewrite bind_runs by apply runs_attr
               | erewrite bind_runs by apply runs_print ].
  rewrite timing_and_concurrency_delay. fold (batch_size t). cbv iota beta.
  erewrite bind_runs by apply runs_attr.
  erewrite bind_runs by apply runs_emit.
  unfold bind at 1. unfold try_finally.
  erewrite bind_runs by apply runs_attr.
  rewrite (py_range_nonzero 0 (total_requests t) (batch_size t)) by lia.
  erewrite bind_runs by apply runs_ret.
  rewrite range_list_batch_starts by done.
  unfold bind at 1.
  rewrite (batches_run_from w t (batch_starts t) _ Hw). fold t'.
  unfold print at 1. unfold emit at 1. cbn [self trace].
  unfold emit at 1. cbn [self trace].
  rewrite (Hsummary _). do 2 f_equal.
  rewrite !app_nil_r, <- !app_assoc. reflexivity.
Qed.

(** *** Reading batches, semaphores and requests off the trace *)

Lemma batches_of_tasks w t ids : batches_of (concat (task_events w t <$> ids)) = [].
Proof. induction ids as [|i ids IH]; [done|]. simpl. exact IH. Qed.

Lemma semaphores_of_tasks w t ids : semaphores_of (concat (task_events w t <$> ids)) = [].
Proof. induction ids as [|i ids IH]; [done|]. simpl. exact IH. Qed.

Lemma requests_of_tasks w t ids :
  (requests_of (concat (task_events w t <$> ids))).*1 = ids.
Proof.
  induction ids as [|i ids IH]; [done|].
  unfold requests_of in *. simpl. by f_equal.
Qed.

Lemma batches_of_batch_trace w t s : batches_of (batch_trace w t s) = [batch_ids t s].
Proof.
  unfold batch_trace, batches_of. rewrite !omap_app. simpl.
  fold (batches_of (concat (task_events w t <$> batch_order w t s))).
  rewrite batches_of_tasks. by destruct (_ <? _).
Qed.

Lemma semaphores_of_batch_trace w t s :
  semaphores_of (batch_trace w t s) = [Z.min (py_len (batch_ids t s)) 1000].
Proof.
  unfold batch_trace, semaphores_of. rewrite !omap_app. simpl.
  fold (semaphores_of (concat (task_events w t <$> batch_order w t s))).
  rewrite semaphores_of_tasks. by destruct (_ <? _).
Qed.

Lemma requests_of_batch_trace w t s :
  (requests_of (batch_trace w t s)).*1 = batch_order w t s.
Proof.
  unfold batch_trace, requests_of. rewrite !omap_app, !fmap_app. simpl.
  fold (requests_of (concat (task_events w t <$> batch_order w t s))).
  rewrite requests_of_tasks. destruct (_ <? _); simpl; by rewrite app_nil_r.
Qed.

Lemma batches_of_loop w t starts :
  batches_of (concat (batch_trace w t <$> starts)) = batch_ids t <$> starts.
Proof.
  induction starts as [|s starts IH]; [done|].
  rewrite !fmap_cons, concat_cons. unfold batches_of in *.
  rewrite omap_app, IH. fold (batches_of (batch_trace w t s)).
  by rewrite batches_of_batch_trace.
Qed.

Lemma semaphores_of_loop w t starts :
  semaphores_of (concat (batch_trace w t <$> starts))
  = (fun b => Z.min (py_len b) 1000) <$> (batch_ids t <$> starts).
Proof.
  induction starts as [|s starts IH]; [done|].
  rewrite !fmap_cons, concat_cons. unfold semaphores_of in *.
  rewrite omap_app, IH. fold (semaphores_of (batch_trace w t s)).
  by rewrite semaphores_of_batch_trace.
Qed.

Lemma requests_of_loop w t starts :
  (requests_of (concat (batch_trace w t <$> starts))).*1
  = concat (batch_order w t <$> starts).
Proof.
  induction starts as [|s starts IH]; [done|].
  rewrite !fmap_cons, !concat_cons. unfold requests_of in *.
  rewrite omap_app, fmap_app, IH. fold (requests_of (batch_trace w t s)).
  by rewrite requests_of_batch_trace.
Qed.

(** *** The batches cover [[1, total]] *)

Lemma batch_ids_upto t (k : nat) :
  0 < batch_size t -> 0 <= total_requests t ->
  concat (batch_ids t <$> ((fun i => i * batch_size t) <$> seqZ 0 (Z.of_nat k)))
  = seqZ 1 (Z.min (Z.of_nat k * batch_size t) (total_requests t)).
Proof.
  intros Hbs Htotal. induction k as [|k IH].
  - by rewrite !seqZ_nil by lia.
  - rewrite seqZ_S, !fmap_app, concat_app, IH. simpl. rewrite app_nil_r.
    unfold batch_ids at 1.
    destruct (Z_le_gt_dec (Z.of_nat k * batch_size t) (total_requests t)) as [Hle|Hgt].
    + rewrite (Z.min_l (Z.of_nat k * batch_size t)) by lia.
      replace (Z.min (Z.of_nat (S k) * batch_size t) (total_requests t))
        with (Z.of_nat k * batch_size t
              + (Z.min ((0 + Z.of_nat k) * batch_size t + batch_size t) (total_requests t)
                 - (0 + Z.of_nat k) * batch_size t)) by lia.
      rewrite seqZ_app by lia. do 2 f_equal. lia.
    + rewrite (seqZ_nil ((0 + Z.of_nat k) * batch_size t + 1)) by lia.
      rewrite app_nil_r. f_equal. lia.
Qed.

Lemma batch_count_bounds t :
  0 < batch_size t -> 0 < total_requests t ->
  let nb := (total_requests t + batch_size t - 1) / batch_size t in
  0 < nb /\ (nb - 1) * batch_size t < total_requests t <= nb * batch_size t.
Proof.
  intros Hbs Htotal nb.
  pose proof (Z.div_mod (total_requests t + batch_size t - 1) (batch_size t) ltac:(lia)) as Hdm.
  pose proof (Z.mod_pos_bound (total_requests t + batch_size t - 1) (batch_size t) Hbs) as Hmb.
  fold nb in Hdm. split; nia.
Qed.

Lemma batches_cover t :
  0 < batch_size t -> 0 < total_requests t ->
  concat (batch_ids t <$> batch_starts t) = seqZ 1 (total_requests t).
Proof.
  intros Hbs Htotal. unfold batch_starts.
  destruct (batch_count_bounds t Hbs Htotal) as [Hnb Hb]. cbv zeta in Hnb, Hb.
  set (nb := (total_requests t + batch_size t - 1) / batch_size t) in *.
  rewrite <- (Z2Nat.id nb) by lia.
  rewrite batch_ids_upto by lia. f_equal. rewrite Z2Nat.id by lia. lia.
Qed.

Lemma batches_consecutive t :
  0 < batch_size t -> 0 < total_requests t ->
  consecutive_batches (total_requests t) (batch_size t) (batch_ids t <$> batch_starts t).
Proof.
  intros Hbs Htotal. split; [by apply batches_cover|].
  intros i b Hb.
  destruct (batch_count_bounds t Hbs Htotal) as [Hnb Hbounds]. cbv zeta in Hnb, Hbounds.
  unfold batch_starts in *.
  set (nb := (total_requests t + batch_size t - 1) / batch_size t) in *.
  rewrite !length_fmap, length_seqZ.
  rewrite !list_lookup_fmap in Hb.
  destruct (seqZ 0 nb !! i) as [j|] eqn:Ej; [|done].
  apply lookup_seqZ in Ej as [-> Hi]. simpl in Hb. injection Hb as <-.
  unfold batch_ids, py_len. rewrite length_seqZ.
  assert (Z.of_nat i * batch_size t <= (nb - 1) * batch_size t) by nia.
  split; [lia|]. intros Hlast.
  assert ((Z.of_nat i + 1) * batch_size t <= (nb - 1) * batch_size t) by nia.
  lia.
Qed.

Lemma batch_orders_Permutation w t starts :
  concat (batch_order w t <$> starts) ≡ₚ concat (batch_ids t <$> starts).
Proof.
  induction starts as [|s starts IH]; [done|].
  rewrite !fmap_cons, !concat_cons. apply Permutation_app; [|exact IH].
  apply completion_order_Permutation.
Qed.

Lemma entry_of_id w t request_id : r_id (entry_of w t request_id) = request_id.
Proof.
  unfold entry_of, outcome_of.
  by destruct (session_request w request_id (outgoing_request w t request_id)).
Qed.

Lemma recorded_ids w t starts :
  r_id <$> concat ((fun s => entry_of w t <$> batch_order w t s) <$> starts)
  = concat (batch_order w t <$> starts).
Proof.
  induction starts as [|s starts IH]; [done|].
  rewrite !fmap_cons, !concat_cons, fmap_app, IH. f_equal.
  rewrite <- list_fmap_compose. rewrite <- (list_fmap_id (batch_order w t s)) at 2.
  apply list_fmap_ext. intros i x _. apply entry_of_id.
Qed.

Lemma batch_size_formula t :
  (100 <= requests_per_second t -> batch_size t = Z.min (requests_per_second t) 1000) /\
  (requests_per_second t < 100 -> batch_size t = requests_per_second t).
Proof.
  unfold batch_size, timing_and_concurrency.
  destruct (100 <=? requests_per_second t) eqn:E; simpl; split; intros; lia.
Qed.

(** The semaphore of a batch has room for the whole batch: no task of the
    batch ever waits at [async with semaphore]. *)
Lemma semaphore_admits_batch t batch_start :
  Z.min (py_len (batch_ids t batch_start)) 1000 = py_len (batch_ids t batch_start).
Proof.
  destruct (batch_size_formula t) as [Hhi Hlo].
  unfold batch_ids, py_len. rewrite length_seqZ.
  destruct (Z_le_gt_dec 100 (requests_per_second t)); lia.
Qed.

Lemma batches_of_prints ls : batches_of (EvPrint <$> ls) = [].
Proof. induction ls as [|l ls IH]; [done|]. exact IH. Qed.

Lemma semaphores_of_prints ls : semaphores_of (EvPrint <$> ls) = [].
Proof. induction ls as [|l ls IH]; [done|]. exact IH. Qed.

Lemma requests_of_prints ls : requests_of (EvPrint <$> ls) = [].
Proof. induction ls as [|l ls IH]; [done|]. exact IH. Qed.

(** A completed run, read off its trace. *)
Lemma run_load_test_complete w py_sqrt t tr :
  uninterrupted w -> 0 < batch_size t ->
  exists t' tr',
    run_load_test w py_sqrt (mk_machine t tr) = (inr tt, mk_machine t' (tr ++ tr')) /\
    batches_of tr' = batch_ids t <$> batch_starts t /\
    semaphores_of tr' = (fun b => Z.min (py_len b) 1000) <$> batches_of tr' /\
    (requests_of tr').*1 = concat (batch_order w t <$> batch_starts t) /\
    results t' =
      results t ++ concat ((fun s => entry_of w t <$> batch_order w t s) <$> batch_starts t).
Proof.
  intros Hw Hbs.
  destruct (run_load_test_run w py_sqrt t tr Hw Hbs) as [ls Hrun].
  eexists _, _. split; [exact Hrun|].
  assert (Hb : batches_of
            (run_prelude t
             ++ concat (batch_trace w t <$> batch_starts t)
             ++ [EvPrint (LoadTestCompleted (time_run_finished w - time_run_started w)%Q);
                 EvSessionClose]
             ++ (EvPrint <$> ls))
          = batch_ids t <$> batch_starts t).
  { unfold batches_of. rewrite !omap_app. simpl.
    fold (batches_of (concat (batch_trace w t <$> batch_starts t))).
    fold (batches_of (EvPrint <$> ls)).
    by rewrite batches_of_loop, batches_of_prints, app_nil_r. }
  split; [exact Hb|]. split; [|split; [|done]].
  - rewrite Hb. unfold semaphores_of. rewrite !omap_app. simpl.
    fold (semaphores_of (concat (batch_trace w t <$> batch_starts t))).
    fold (semaphores_of (EvPrint <$> ls)).
    by rewrite semaphores_of_loop, semaphores_of_prints, app_nil_r.
  - unfold requests_of. rewrite !omap_app. simpl.
    fold (requests_of (concat (batch_trace w t <$> batch_starts t))).
    fold (requests_of (EvPrint <$> ls)).
    by rewrite requests_of_prints, app_nil_r, requests_of_loop.
Qed.

(** C2. For every configuration with [total_requests > 0] and a batch size
    [> 0], a run that no interrupt cuts short completes, and the batches it
    gathers are consecutive runs of [[1, total_requests]], each of the batch
    size except possibly the last, shorter but never empty.  Every request
    id of [[1, total_requests]] is sent exactly once, and the outcome
    collection gains exactly one entry per request id: [total_requests]
    entries on a collection that started empty. *)
Theorem batches_partition_requests :
  forall (w : World) (py_sqrt : Q -> Q) (t : APILoadTester) (tr : list event),
    0 < total_requests t -> 0 < batch_size t -> uninterrupted w ->
    exists (t' : APILoadTester) (tr' : list event) (new : list result_entry),
      run_load_test w py_sqrt (mk_machine t tr) = (inr tt, mk_machine t' (tr ++ tr')) /\
      consecutive_batches (total_requests t) (batch_size t) (batches_of tr') /\
      (requests_of tr').*1 ≡ₚ seqZ 1 (total_requests t) /\
      results t' = results t ++ new /\
      r_id <$> new ≡ₚ seqZ 1 (total_requests t) /\
      (results t = [] -> py_len (results t') = total_requests t).
Proof.
  intros w py_sqrt t tr Htotal Hbs Hw.
  destruct (run_load_test_complete w py_sqrt t tr Hw Hbs)
    as (t' & tr' & Hrun & Hbatches & _ & Hreqs & Hres).
  exists t', tr',
    (concat ((fun s => entry_of w t <$> batch_order w t s) <$> batch_starts t)).
  assert (Hids : r_id <$> concat ((fun s => entry_of w t <$> batch_order w t s)
                                    <$> batch_starts t)
                 ≡ₚ seqZ 1 (total_requests t)).
  { rewrite recorded_ids, batch_orders_Permutation. by rewrite batches_cover. }
  split; [exact Hrun|]. split; [|split; [|split; [exact Hres|split; [exact Hids|]]]].
  - rewrite Hbatches. by apply batches_consecutive.
  - rewrite Hreqs, batch_orders_Permutation. by rewrite batches_cover.
  - intros Hempty. rewrite Hres, Hempty. simpl. unfold py_len.
    rewrite <- (length_fmap r_id), Hids, length_seqZ. lia.
Qed.

(** C5. For every positive target rate the batch size of the dispatcher is
    [min(rate, 1000)] when the rate is at least 100 and the rate itself
    otherwise; the batches of a run have that size; and the semaphore
    created for each batch has capacity [min(len(batch), 1000)]. *)
Theorem batch_size_and_gate_capacity :
  forall (w : World) (py_sqrt : Q -> Q) (t : APILoadTester) (tr : list event),
    0 < requests_per_second t -> 0 < total_requests t -> uninterrupted w ->
    (100 <= requests_per_second t -> batch_size t = Z.min (requests_per_second t) 1000) /\
    (requests_per_second t < 100 -> batch_size t = requests_per_second t) /\
    exists (t' : APILoadTester) (tr' : list event),
      run_load_test w py_sqrt (mk_machine t tr) = (inr tt, mk_machine t' (tr ++ tr')) /\
      consecutive_batches (total_requests t) (batch_size t) (batches_of tr') /\
      semaphores_of tr' = (fun batch => Z.min (py_len batch) 1000) <$> batches_of tr'.
Proof.
  intros w py_sqrt t tr Hrps Htotal Hw.
  destruct (batch_size_formula t) as [Hhi Hlo].
  split; [exact Hhi|]. split; [exact Hlo|].
  assert (Hbs : 0 < batch_size t).
  { destruct (Z_le_gt_dec 100 (requests_per_second t)); lia. }
  destruct (run_load_test_complete w py_sqrt t tr Hw Hbs)
    as (t' & tr' & Hrun & Hbatches & Hsem & _ & _).
  exists t', tr'. split; [exact Hrun|]. split; [|exact Hsem].
  rewrite Hbatches. by apply batches_consecutive.
Qed.

(** * The claims on concrete runs *)

Lemma demo_world_uninterrupted : uninterrupted demo_world.
Proof.
  intros request_id req e. simpl.
  destruct (request_id mod 3 =? 0); [|done]. by intros [= <-].
Qed.


(** The run of [demo_tester]: three batches, the last one short; within a
    batch the tasks finish in the order the event loop picks. *)
Example demo_run_batches :
  let m := (run_load_test demo_world demo_sqrt (mk_machine demo_tester [])).2 in
  batches_of (trace m) = [[1; 2; 3]; [4; 5; 6]; [7]] /\
  semaphores_of (trace m) = [3; 3; 1] /\
  r_id <$> results (self m) = [3; 2; 1; 6; 5; 4; 7] /\
  r_error <$> results (self m)
    = ["Timeout"; ""; ""; "Timeout"; ""; ""; ""]%string.
Proof. vm_compute. done. Qed.

(** An interrupted run: the session is still closed, the outcomes recorded
    so far are kept and [run] prints the partial report. *)
Example interrupted_run_keeps_partial_results :
  let out := run interrupting_world demo_sqrt (mk_machine demo_tester []) in
  out.1 = inr tt /\
  r_id <$> results (self out.2) = [3; 2; 1; 6] /\
  omap (fun l => match l with
                 | Interrupted | PartialResults | NoResults | TotalRequests _ => Some l
                 | _ => None
                 end) (stdout (trace out.2))
    = [Interrupted; PartialResults; TotalRequests 4] /\
  omap (fun ev => match ev with
                  | EvSessionOpen _ _ | EvSessionClose | EvGather _ => Some ev
                  | _ => None
                  end) (trace out.2)
    = [EvSessionOpen 6 3; EvGather [1; 2; 3]; EvGather [4; 5; 6]; EvSessionClose].
Proof. vm_compute. done. Qed.

(** C1 fails as stated: on the successful latencies 10, 20, 30 the report
    shows 10 for percentile 50, and the nearest-rank index
    [max(0, ceil(0.5 * 3) - 1) = 1] selects 20. *)
Lemma percentile_not_nearest_rank :
  ~ (forall v,
       Percentile 50 v ∈ console (print_summary demo_sqrt) three_latencies ->
       sorted (successful_times three_latencies)
         !! Z.to_nat (spec_nearest_rank_index 50 (py_len (successful_times three_latencies)))
       = Some v).
Proof.
  intros H. specialize (H 10%Q).
  assert (Hin : Percentile 50 10%Q ∈ console (print_summary demo_sqrt) three_latencies).
  { apply (elem_of_projection percentile_of (fun x => Percentile x.1 x.2) _ (50, 10%Q));
      [by intros []; intros [??]; intros; simplify_eq/= | done |].
    assert (Hc : omap percentile_of (console (print_summary demo_sqrt) three_latencies)
                 = [(50, 10%Q); (75, 20%Q); (90, 20%Q); (95, 20%Q); (99, 20%Q)])
      by (vm_compute; reflexivity).
    rewrite Hc. by left. }
  specialize (H Hin). vm_compute in H. discriminate.
Qed.

Lemma percentile_uses_floor_rank_witness :
  successful_times four_latencies <> [] /\
  Percentile 50 20%Q ∈ console (print_summary demo_sqrt) four_latencies.
Proof.
  refine ((fun H : successful_times four_latencies <> [] =>
             conj H (proj2 (proj1 (percentile_uses_floor_rank demo_sqrt four_latencies H)
                                  50 20%Q) _)) _).
  - split; [by left | reflexivity].
  - discriminate.
Defined.

Lemma batches_partition_requests_witness :
  0 < total_requests demo_tester /\ 0 < batch_size demo_tester /\ uninterrupted demo_world /\
  exists (t' : APILoadTester) (tr' : list event) (new : list result_entry),
    run_load_test demo_world demo_sqrt (mk_machine demo_tester [])
      = (inr tt, mk_machine t' ([] ++ tr')) /\
    consecutive_batches (total_requests demo_tester) (batch_size demo_tester)
                        (batches_of tr') /\
    (requests_of tr').*1 ≡ₚ seqZ 1 (total_requests demo_tester) /\
    results t' = results demo_tester ++ new /\
    r_id <$> new ≡ₚ seqZ 1 (total_requests demo_tester) /\
    (results demo_tester = [] -> py_len (results t') = total_requests demo_tester).
Proof.
  refine ((fun (H1 : 0 < total_requests demo_tester) (H2 : 0 < batch_size demo_tester) =>
             conj H1 (conj H2 (conj demo_world_uninterrupted
               (batches_partition_requests demo_world demo_sqrt demo_tester []
                  H1 H2 demo_world_uninterrupted)))) _ _); reflexivity.
Defined.



Lemma batch_size_and_gate_capacity_witness :
  0 < requests_per_second demo_tester /\ 0 < total_requests demo_tester /\
  uninterrupted demo_world /\
  batch_size demo_tester = requests_per_second demo_tester /\
  exists (t' : APILoadTester) (tr' : list event),
    run_load_test demo_world demo_sqrt (mk_machine demo_tester [])
      = (inr tt, mk_machine t' ([] ++ tr')) /\
    consecutive_batches (total_requests demo_tester) (batch_size demo_tester)
                        (batches_of tr') /\
    semaphores_of tr' = (fun batch => Z.min (py_len batch) 1000) <$> batches_of tr'.
Proof.
  refine ((fun (H1 : 0 < requests_per_second demo_tester)
               (H2 : 0 < total_requests demo_tester)
               (H3 : requests_per_second demo_tester < 100) =>
             let T := batch_size_and_gate_capacity demo_world demo_sqrt demo_tester []
                        H1 H2 demo_world_uninterrupted in
             conj H1 (conj H2 (conj demo_world_uninterrupted
               (conj (proj1 (proj2 T) H3) (proj2 (proj2 T)))))) _ _ _); reflexivity.
Defined.

Lemma observed_duration_and_rate_witness :
  results four_latencies <> [] /\
  exists hi lo : Q,
    is_maximum hi (all_timestamps four_latencies) /\
    is_minimum lo (all_timestamps four_latencies) /\
    (forall d, TestDuration d ∈ console (print_summary demo_sqrt) four_latencies
               <-> d = (hi - lo)%Q) /\
    (forall r, ActualRPS r ∈ console (print_summary demo_sqrt) four_latencies
               <-> r = spec_observed_rate (py_len (results four_latencies)) (hi - lo)).
Proof.
  refine ((fun H : results four_latencies <> [] =>
             conj H (observed_duration_and_rate demo_sqrt four_latencies H)) _).
  discriminate.
Defined.

Lemma throughput_efficiency_reported_witness :
  results eighty_per_second <> [] /\
  0 < requests_per_second eighty_per_second /\
  (0 < duration_of (results eighty_per_second))%Q /\
  forall e,
    ThroughputEfficiency e ∈ console (print_summary demo_sqrt) eighty_per_second ->
    (e == 80)%Q.
Proof.
  refine ((fun (H1 : results eighty_per_second <> [])
               (H2 : 0 < requests_per_second eighty_per_second)
               (H3 : (0 < duration_of (results eighty_per_second))%Q) =>
             conj H1 (conj H2 (conj H3
               (proj2 (proj2 (throughput_efficiency_reported demo_sqrt eighty_per_second
                                H1 H2 H3)) eq_refl _)))) _ _ _).
  - reflexivity.
  - discriminate.
  - reflexivity.
  - reflexivity.
Defined.

Lemma report_total_on_degenerate_collections_witness :
  console (print_summary demo_sqrt) APILoadTester_init = [Rule 70; Title; Rule 70; NoResults]
  /\ (Failed 2 ∈ console (print_summary demo_sqrt) two_failures /\
      forall l, l ∈ console (print_summary demo_sqrt) two_failures -> latency_line l = None)
  /\ StdDev 0 ∈ console (print_summary demo_sqrt) one_success.
Proof.
  split; [|split].
  - exact (proj2 (proj1 (report_total_on_degenerate_collections demo_sqrt APILoadTester_init)
                        eq_refl)).
  - destruct (proj1 (proj2 (report_total_on_degenerate_collections demo_sqrt two_failures)))
      as (_ & Hlatency & _ & _ & Hfailed & _).
    + discriminate.
    + repeat constructor.
    + split; [exact Hfailed | exact Hlatency].
  - exact (proj2 (proj2 (proj2 (report_total_on_degenerate_collections demo_sqrt one_success))
                    eq_refl 0%Q) eq_refl).
Defined.

(** ** Binary64 cross-checks

    In the model a Python float is an exact rational.  Where rounding could
    change what is printed, the model is compared with double arithmetic. *)

(** For every percentile of the ladder and every sample size up to 2000,
    [int((p / 100) * n) - 1] computed in doubles is the index of the model. *)
Lemma percentile_index_matches_binary64 :
  forallb (fun p => forallb (fun n => percentile_index_f64 p n =? percentile_index p n)
                            (seqZ 1 2000))
          percentiles = true.
Proof. vm_compute. reflexivity. Qed.

(** [(80 / 100) * 100] is exactly 80 in doubles. *)
Lemma efficiency_example_binary64 :
  SFeqb (f64_mul (f64_div (f64_of_Z 80) (f64_of_Z 100)) (f64_of_Z 100)) (f64_of_Z 80) = true.
Proof. vm_compute. reflexivity. Qed.

(** * Further properties of the aggregator *)

Lemma console_percentile py_sqrt t p v :
  successful_times t <> [] ->
  Percentile p v ∈ console (print_summary py_sqrt) t <->
  p ∈ percentiles /\
  sorted (successful_times t)
    !! Z.to_nat (percentile_index p (py_len (successful_times t))) = Some v.
Proof.
  intros Hrt.
  assert (Hne : results t <> []).
  { intros He. apply Hrt. unfold successful_times. by rewrite He. }
  destruct (console_print_summary_nonempty py_sqrt t Hne) as (R & _ & H1 & -> & _).
  rewrite (elem_of_projection percentile_of (fun x => Percentile x.1 x.2) _ (p, v))
    by (try done; by intros []; intros [??]; intros; simplify_eq/=).
  by rewrite layout_percentile, (response_time_report_percentiles _ R (H1 Hrt)).
Qed.

Lemma response_time_report_min_max rt R :
  response_time_report rt R ->
  exists lo hi, omap min_of R = [lo] /\ omap max_of R = [hi] /\
                is_minimum lo rt /\ is_maximum hi rt.
Proof.
  intros (avg & med & lo & hi & sd & pl & -> & Hlo & Hhi & _ & Hpl).
  exists lo, hi. rewrite !omap_app. simpl.
  assert (Hmin : omap min_of pl = []).
  { clear -Hpl. induction Hpl as [|p l ps ls (v & -> & _) _ IH]; [done|]. by simpl. }
  assert (Hmax : omap max_of pl = []).
  { clear -Hpl. induction Hpl as [|p l ps ls (v & -> & _) _ IH]; [done|]. by simpl. }
  by rewrite Hmin, Hmax.
Qed.

Lemma layout_min t d R : omap min_of (summary_layout t d R) = omap min_of R.
Proof. by other_blocks_silent. Qed.

Lemma layout_max t d R : omap max_of (summary_layout t d R) = omap max_of R.
Proof. by other_blocks_silent. Qed.

Lemma StronglySorted_lookup_le (l : list Q) i j a b :
  StronglySorted Qle l -> (i <= j)%nat ->
  l !! i = Some a -> l !! j = Some b -> (a <= b)%Q.
Proof.
  intros Hl. revert i j. induction Hl as [|x l Hl IH Hx]; intros i j Hij Hi Hj; [done|].
  destruct i as [|i], j as [|j]; simpl in *.
  - injection Hi as <-. injection Hj as <-. apply Qle_refl.
  - injection Hi as <-. rewrite Forall_forall in Hx. apply Hx.
    apply list_elem_of_lookup. eauto.
  - lia.
  - apply (IH i j); [lia | done | done].
Qed.

Lemma floor_rank_index_mono p q n :
  0 <= p <= q -> 0 <= n -> floor_rank_index p n <= floor_rank_index q n.
Proof.
  intros Hpq Hn. unfold floor_rank_index.
  assert (p * n / 100 <= q * n / 100) by (apply Z.div_le_mono; nia). lia.
Qed.

(** X1. The percentile ladder rises and stays between the smallest and the
    largest successful latency: for [p <= q] the value shown for [p] is at
    most the value shown for [q], and every percentile shown lies between
    the [Min] and the [Max] shown. *)
Theorem percentiles_ordered_within_range :
  forall (py_sqrt : Q -> Q) (t : APILoadTester),
    successful_times t <> [] ->
    let out := console (print_summary py_sqrt) t in
    (forall p q v u, Percentile p v ∈ out -> Percentile q u ∈ out -> p <= q -> (v <= u)%Q)
    /\ (forall p v lo hi, Percentile p v ∈ out -> Min lo ∈ out -> Max hi ∈ out ->
                          (lo <= v <= hi)%Q).
Proof.
  intros py_sqrt t Hrt out.
  pose proof (py_len_nonzero _ Hrt) as Hn.
  assert (Hpos : 0 < py_len (successful_times t)) by (unfold py_len in *; lia).
  split.
  - intros p q v u Hp Hq Hpq.
    apply console_percentile in Hp as [Hp Hv]; [|done].
    apply console_percentile in Hq as [Hq Hu]; [|done].
    pose proof (percentiles_range p Hp). pose proof (percentiles_range q Hq).
    rewrite percentile_index_floor in Hv, Hu by lia.
    eapply StronglySorted_lookup_le;
      [apply sorted_StronglySorted | | exact Hv | exact Hu].
    pose proof (floor_rank_index_mono p q (py_len (successful_times t))).
    pose proof (floor_rank_index_bounds p (py_len (successful_times t))).
    lia.
  - intros p v lo hi Hp Hlo Hhi.
    apply console_percentile in Hp as [Hp Hv]; [|done].
    assert (Hin : v ∈ successful_times t).
    { rewrite <- (sorted_Permutation (successful_times t)).
      apply list_elem_of_lookup. eauto. }
    assert (Hne : results t <> []).
    { intros He. apply Hrt. unfold successful_times. by rewrite He. }
    unfold out in Hlo, Hhi.
    destruct (console_print_summary_nonempty py_sqrt t Hne) as (R & _ & H1 & Hout & _).
    rewrite Hout in Hlo, Hhi.
    destruct (response_time_report_min_max _ R (H1 Hrt))
      as (lo' & hi' & Hmin & Hmax & [_ Hlb] & [_ Hub]).
    apply (elem_of_projection min_of Min) in Hlo;
      [|by intros []; intros; simplify_eq/= | done].
    apply (elem_of_projection max_of Max) in Hhi;
      [|by intros []; intros; simplify_eq/= | done].
    rewrite layout_min, Hmin in Hlo. rewrite layout_max, Hmax in Hhi.
    apply list_elem_of_singleton in Hlo as ->.
    apply list_elem_of_singleton in Hhi as ->.
    split; [by apply Hlb | by apply Hub].
Qed.

Lemma percentiles_ordered_within_range_witness :
  successful_times four_latencies <> [] /\
  let out := console (print_summary demo_sqrt) four_latencies in
  (forall p q v u, Percentile p v ∈ out -> Percentile q u ∈ out -> p <= q -> (v <= u)%Q) /\
  (forall p v lo hi,
     Percentile p v ∈ out -> Min lo ∈ out -> Max hi ∈ out -> (lo <= v <= hi)%Q).
Proof.
  refine ((fun H : successful_times four_latencies <> [] =>
             conj H (percentiles_ordered_within_range demo_sqrt four_latencies H)) _).
  discriminate.
Defined.

(** *** The status code distribution *)

Lemma status_histogram_lookup rs code c :
  status_histogram rs !! code = Some c <-> 0 < c /\ c = status_count rs code.
Proof.
  unfold status_histogram, status_count.
  rewrite (fold_count_lookup status_key)
    by (intros d r; unfold status_key; by destruct (0 <? r_status_code r)).
  rewrite lookup_empty. simpl.
  set (n := py_len _). assert (0 <= n) by (unfold n, py_len; lia).
  destruct (n =? 0) eqn:E.
  - split; [done|]. lia.
  - split; [intros [= <-]; lia | intros [_ ->]; f_equal; lia].
Qed.

Lemma status_count_positive rs code : 0 < status_count rs code -> 0 < code.
Proof.
  unfold status_count, py_len. intros Hpos.
  destruct (filter _ rs) as [|r l] eqn:Ef; [simpl in Hpos; lia|].
  assert (r ∈ filter (fun r => status_key r = Some code) rs) as Hin by (rewrite Ef; by left).
  apply list_elem_of_filter in Hin as [Hkey _]. unfold status_key in Hkey.
  destruct (0 <? r_status_code r) eqn:E; [|done]. injection Hkey as <-. lia.
Qed.

Lemma insert_by_sorted {A} (leb : A -> A -> bool) x l :
  (forall a b, leb a b = false -> leb b a = true) ->
  (forall a b c, leb a b = true -> leb b c = true -> leb a c = true) ->
  StronglySorted (fun a b => leb a b = true) l ->
  StronglySorted (fun a b => leb a b = true) (insert_by leb x l).
Proof.
  intros Htotal Htrans. induction 1 as [|y l Hl IH Hy]; simpl.
  - repeat constructor.
  - destruct (leb x y) eqn:E.
    + constructor; [by constructor|]. constructor; [done|].
      eapply Forall_impl; [exact Hy|]. intros z Hz. by apply Htrans with y.
    + constructor; [exact IH|].
      rewrite (insert_by_Permutation leb x l). constructor; [by apply Htotal | done].
Qed.

Lemma sorted_by_sorted {A} (leb : A -> A -> bool) l :
  (forall a b, leb a b = false -> leb b a = true) ->
  (forall a b c, leb a b = true -> leb b c = true -> leb a c = true) ->
  StronglySorted (fun a b => leb a b = true) (sorted_by leb l).
Proof.
  intros Htotal Htrans. induction l as [|x l IH]; simpl; [constructor|].
  by apply insert_by_sorted.
Qed.

Lemma item_leb_Z_spec (a b : Z * Z) :
  item_leb Z.compare a b = true <-> a.1 < b.1 \/ (a.1 = b.1 /\ a.2 <= b.2).
Proof.
  unfold item_leb. destruct (Z.compare_spec a.1 b.1); rewrite ?Z.leb_le; split; intros; lia || done.
Qed.

Lemma sorted_items_ascending (m : gmap Z Z) :
  StronglySorted Z.lt (sorted_by (item_leb Z.compare) (map_to_list m)).*1.
Proof.
  assert (Hs : StronglySorted (fun a b => item_leb Z.compare a b = true)
                 (sorted_by (item_leb Z.compare) (map_to_list m))).
  { apply sorted_by_sorted.
    - intros a b Hab. apply item_leb_Z_spec.
      destruct (item_leb Z.compare a b) eqn:E; [done|].
      assert (~ (a.1 < b.1 \/ (a.1 = b.1 /\ a.2 <= b.2))) as Hn
        by (rewrite <- item_leb_Z_spec; congruence).
      lia.
    - intros a b c. rewrite !item_leb_Z_spec. lia. }
  assert (Hnd : NoDup (sorted_by (item_leb Z.compare) (map_to_list m)).*1).
  { rewrite (sorted_by_Permutation _ (map_to_list m)). apply NoDup_fst_map_to_list. }
  induction Hs as [|a l Hl IH Ha]; [constructor|].
  rewrite fmap_cons in Hnd |- *. apply NoDup_cons in Hnd as [Hnotin Hnd].
  constructor; [by apply IH|].
  apply Forall_fmap, Forall_forall. intros b Hb. simpl.
  rewrite Forall_forall in Ha. specialize (Ha b Hb). apply item_leb_Z_spec in Ha.
  assert (a.1 <> b.1).
  { intros Heq. apply Hnotin. rewrite Heq. apply list_elem_of_fmap. by exists b. }
  lia.
Qed.

Lemma status_rows_of_distribution n (items : list (Z * Z)) :
  omap status_line_of (distribution_report StatusHeader StatusLine n items)
  = (fun kc => (kc.1, kc.2, (inject_Z kc.2 / inject_Z n * 100)%Q)) <$> items.
Proof.
  unfold distribution_report. destruct items as [|it items]; [done|].
  cbn [truthy]. change (omap status_line_of (StatusHeader :: ?l)) with (omap status_line_of l).
  induction (it :: items) as [|[k c] l IH]; [done|]. simpl. by f_equal.
Qed.

Lemma layout_status_line t d R :
  omap status_line_of (summary_layout t d R) =
    omap status_line_of R
    ++ omap status_line_of
         (distribution_report StatusHeader StatusLine (py_len (results t))
            (sorted_by (item_leb Z.compare)
               (map_to_list (status_histogram (results t))))).
Proof.
  rewrite omap_layout.
  rewrite ?omap_throughput_none by done.
  rewrite ?omap_performance_none by done.
  rewrite ?(omap_distribution_none _ ErrorHeader) by done.
  simpl. by rewrite ?app_nil_r.
Qed.

Lemma console_status_rows py_sqrt t :
  results t <> [] ->
  omap status_line_of (console (print_summary py_sqrt) t)
  = (fun kc => (kc.1, kc.2, (inject_Z kc.2 / inject_Z (py_len (results t)) * 100)%Q))
      <$> sorted_by (item_leb Z.compare) (map_to_list (status_histogram (results t))).
Proof.
  intros Hne.
  destruct (console_print_summary_nonempty py_sqrt t Hne) as (R & H0 & H1 & -> & _).
  rewrite layout_status_line, status_rows_of_distribution.
  assert (HR : omap status_line_of R = []).
  { destruct (successful_times t) as [|x xs] eqn:E; [by rewrite H0|].
    by apply (response_time_report_silent _ (x :: xs)); [apply H1|..]. }
  by rewrite HR.
Qed.

(** X2. The status code distribution of a non-empty collection lists exactly
    the status codes that occur among the outcomes, each once and in
    ascending order, with the number of outcomes that carry it and its share
    of all outcomes; the sentinel 0 of failed outcomes is never listed. *)
Theorem status_distribution_reported :
  forall (py_sqrt : Q -> Q) (t : APILoadTester),
    results t <> [] ->
    let rows := omap status_line_of (console (print_summary py_sqrt) t) in
    (forall code c pct,
       (code, c, pct) ∈ rows <->
       0 < c /\ c = status_count (results t) code /\
       pct = (inject_Z c / inject_Z (py_len (results t)) * 100)%Q)
    /\ StronglySorted Z.lt (rows.*1.*1)
    /\ (forall code c pct, (code, c, pct) ∈ rows -> 0 < code).
Proof.
  intros py_sqrt t Hne rows. unfold rows. rewrite console_status_rows by done.
  assert (Hrow : forall code c pct,
            (code, c, pct) ∈
              (fun kc : Z * Z =>
                 (kc.1, kc.2, (inject_Z kc.2 / inject_Z (py_len (results t)) * 100)%Q))
              <$> sorted_by (item_leb Z.compare) (map_to_list (status_histogram (results t)))
            <-> 0 < c /\ c = status_count (results t) code /\
                pct = (inject_Z c / inject_Z (py_len (results t)) * 100)%Q).
  { intros code c pct. rewrite list_elem_of_fmap. split.
    - intros ([k n] & [= -> -> ->] & Hin). simpl.
      rewrite (sorted_by_Permutation _ _), elem_of_map_to_list in Hin.
      apply status_histogram_lookup in Hin. tauto.
    - intros (Hpos & Hc & ->). exists (code, c). split; [done|].
      rewrite (sorted_by_Permutation _ _), elem_of_map_to_list.
      by apply status_histogram_lookup. }
  split; [exact Hrow|]. split.
  - rewrite <- !list_fmap_compose.
    erewrite list_fmap_ext; [apply sorted_items_ascending|].
    by intros i [k n] _.
  - intros code c pct Hin. apply Hrow in Hin as (Hpos & -> & _).
    by apply (status_count_positive (results t)).
Qed.

Lemma status_distribution_reported_witness :
  results one_success <> [] /\
  (200, 1, (inject_Z 1 / inject_Z (py_len (results one_success)) * 100)%Q)
    ∈ omap status_line_of (console (print_summary demo_sqrt) one_success).
Proof.
  refine ((fun H : results one_success <> [] =>
             conj H (proj2 (proj1 (status_distribution_reported demo_sqrt one_success H)
                                  200 1 _) _)) _).
  - split; [done|]. split; reflexivity.
  - discriminate.
Defined.

(** *** The latency buckets *)

Lemma bucket_counts (times : list Q) :
  py_len (filter (fun x => Qltb x 100 = true) times)
  + py_len (filter (fun x => Qle_bool 100 x && Qltb x 500 = true) times)
  + py_len (filter (fun x => Qle_bool 500 x = true) times)
  = py_len times.
Proof.
  unfold py_len. induction times as [|x times IH]; [done|].
  assert (Hcases :
    (Qltb x 100 = true /\ Qle_bool 100 x = false /\ Qle_bool 500 x = false) \/
    (Qltb x 100 = false /\ Qle_bool 100 x = true /\ Qltb x 500 = true
     /\ Qle_bool 500 x = false) \/
    (Qltb x 100 = false /\ Qle_bool 100 x = true /\ Qltb x 500 = false
     /\ Qle_bool 500 x = true)).
  { unfold Qltb. destruct (Qle_bool 100 x) eqn:E1, (Qle_bool 500 x) eqn:E5; simpl.
    - right. right. done.
    - right. left. done.
    - exfalso. apply Qle_bool_iff in E5.
      assert (Qle_bool 100 x = true) as Hc
        by (apply Qle_bool_iff; apply Qle_trans with 500%Q; [done | exact E5]).
      congruence.
    - left. done. }
  destruct Hcases as [(Hf & Hm & Hs) | [(Hf & Hm1 & Hm2 & Hs) | (Hf & Hm1 & Hm2 & Hs)]].
  - rewrite (filter_cons_True (fun x => Qltb x 100 = true)) by done.
    rewrite (filter_cons_False (fun x => Qle_bool 100 x && Qltb x 500 = true))
      by (rewrite Hm; simpl; congruence).
    rewrite (filter_cons_False (fun x => Qle_bool 500 x = true)) by congruence.
    simpl length. lia.
  - rewrite (filter_cons_False (fun x => Qltb x 100 = true)) by congruence.
    rewrite (filter_cons_True (fun x => Qle_bool 100 x && Qltb x 500 = true))
      by (by rewrite Hm1, Hm2).
    rewrite (filter_cons_False (fun x => Qle_bool 500 x = true)) by congruence.
    simpl length. lia.
  - rewrite (filter_cons_False (fun x => Qltb x 100 = true)) by congruence.
    rewrite (filter_cons_False (fun x => Qle_bool 100 x && Qltb x 500 = true))
      by (rewrite Hm1, Hm2; simpl; congruence).
    rewrite (filter_cons_True (fun x => Qle_bool 500 x = true)) by done.
    simpl length. lia.
Qed.

Lemma layout_buckets t d R :
  response_time_report (successful_times t) R \/ R = [] ->
  results t <> [] ->
  let times := r_response_time <$> results t in
  omap fast_of (summary_layout t d R)
    = [py_len (filter (fun x => Qltb x 100 = true) times)] /\
  omap medium_of (summary_layout t d R)
    = [py_len (filter (fun x => Qle_bool 100 x && Qltb x 500 = true) times)] /\
  omap slow_of (summary_layout t d R)
    = [py_len (filter (fun x => Qle_bool 500 x = true) times)].
Proof.
  intros HR Hne times.
  assert (Htimes : truthy times = true).
  { apply truthy_true. unfold times. by destruct (results t). }
  assert (Hsilent : omap fast_of R = [] /\ omap medium_of R = [] /\ omap slow_of R = []).
  { destruct HR as [HR | ->]; [|done].
    split; [|split]; by apply (response_time_report_silent _ _ _ HR). }
  destruct Hsilent as (Hf & Hm & Hs).
  split; [|split]; rewrite omap_layout;
    rewrite ?omap_throughput_none by done;
    rewrite ?(omap_distribution_none _ StatusHeader) by done;
    rewrite ?(omap_distribution_none _ ErrorHeader) by done;
    rewrite ?Hf, ?Hm, ?Hs; unfold performance_report; fold times; rewrite Htimes; done.
Qed.

(** X3. The three latency buckets partition the collection: on a non-empty
    collection the report shows one fast, one medium and one slow count, of
    the outcomes (failed ones included) whose latency is below 100 ms, from
    100 ms to below 500 ms, and from 500 ms on; the three counts add up to
    the number of outcomes. *)
Theorem latency_buckets_partition :
  forall (py_sqrt : Q -> Q) (t : APILoadTester),
    results t <> [] ->
    let out := console (print_summary py_sqrt) t in
    let times := r_response_time <$> results t in
    exists fast medium slow : Z,
      omap fast_of out = [fast] /\ omap medium_of out = [medium] /\
      omap slow_of out = [slow] /\
      fast = py_len (filter (fun x => Qltb x 100 = true) times) /\
      medium = py_len (filter (fun x => Qle_bool 100 x && Qltb x 500 = true) times) /\
      slow = py_len (filter (fun x => Qle_bool 500 x = true) times) /\
      fast + medium + slow = py_len (results t).
Proof.
  intros py_sqrt t Hne out times.
  destruct (console_print_summary_nonempty py_sqrt t Hne) as (R & H0 & H1 & Hout & _).
  assert (HR : response_time_report (successful_times t) R \/ R = []).
  { destruct (successful_times t) as [|x xs] eqn:E; [right; by apply H0 | left; by apply H1]. }
  destruct (layout_buckets t (duration_of (results t)) R HR Hne) as (Hf & Hm & Hs).
  eexists _, _, _. unfold out. rewrite Hout.
  split; [exact Hf|]. split; [exact Hm|]. split; [exact Hs|].
  do 3 (split; [reflexivity|]).
  rewrite bucket_counts. unfold py_len. by rewrite length_fmap.
Qed.

Lemma latency_buckets_partition_witness :
  results one_success <> [] /\
  let out := console (print_summary demo_sqrt) one_success in
  let times := r_response_time <$> results one_success in
  exists fast medium slow,
    omap fast_of out = [fast] /\ omap medium_of out = [medium] /\
    omap slow_of out = [slow] /\
    fast = py_len (filter (fun x => Qltb x 100 = true) times) /\
    medium = py_len (filter (fun x => Qle_bool 100 x && Qltb x 500 = true) times) /\
    slow = py_len (filter (fun x => Qle_bool 500 x = true) times) /\
    fast + medium + slow = py_len (results one_success).
Proof.
  refine ((fun H : results one_success <> [] =>
             conj H (latency_buckets_partition demo_sqrt one_success H)) _).
  discriminate.
Defined.

(** *** The basic statistics *)

Lemma Zsum_Permutation (l k : list Z) : l ≡ₚ k -> Zsum l = Zsum k.
Proof. unfold Zsum. induction 1; simpl; lia. Qed.

Lemma Zsum_cons x l : Zsum (x :: l) = x + Zsum l.
Proof. reflexivity. Qed.

Lemma Zsum_count_up `{Countable K} (k : K) (d : gmap K Z) :
  Zsum (map_to_list (count_up k d)).*2 = Zsum (map_to_list d).*2 + 1.
Proof.
  unfold count_up. destruct (d !! k) as [v|] eqn:E; simpl.
  - rewrite <- (insert_delete_eq d).
    rewrite (Zsum_Permutation _ ((k, v + 1) :: map_to_list (delete k d)).*2).
    2:{ apply fmap_Permutation, map_to_list_insert, lookup_delete_eq. }
    rewrite (Zsum_Permutation (map_to_list d).*2 ((k, v) :: map_to_list (delete k d)).*2).
    2:{ apply fmap_Permutation. symmetry. by apply map_to_list_delete. }
    rewrite !fmap_cons, !Zsum_cons. simpl. lia.
  - rewrite (Zsum_Permutation _ ((k, 0 + 1) :: map_to_list d).*2).
    2:{ apply fmap_Permutation. by apply map_to_list_insert. }
    rewrite !fmap_cons, !Zsum_cons. simpl. lia.
Qed.

(** The counts of the status histogram add up to the number of outcomes
    that carry a status code. *)
Lemma status_histogram_total rs :
  Zsum (map_to_list (status_histogram rs)).*2
  = py_len (filter (fun r => is_success r = true) rs).
Proof.
  unfold status_histogram.
  assert (Hgen : forall d : gmap Z Z,
            Zsum (map_to_list
                    (fold_left (fun d result =>
                                  let code := r_status_code result in
                                  if 0 <? code then count_up code d else d) rs d)).*2
            = Zsum (map_to_list d).*2
              + py_len (filter (fun r => is_success r = true) rs)).
  { induction rs as [|r rs IH]; intros d; [unfold py_len; simpl; lia|].
    simpl fold_left. rewrite IH.
    destruct (is_success r) eqn:E.
    - rewrite filter_cons_True by done. unfold is_success in E. rewrite E.
      rewrite Zsum_count_up. unfold py_len. cbn [length]. lia.
    - rewrite filter_cons_False by congruence. unfold is_success in E. by rewrite E. }
  rewrite Hgen, map_to_list_empty. done.
Qed.

Lemma failed_count (rs : list result_entry) :
  py_len rs - py_len (filter (fun r => is_success r = true) rs)
  = py_len (filter (fun r => r_status_code r <= 0) rs).
Proof.
  unfold py_len. induction rs as [|r rs IH]; [done|].
  destruct (is_success r) eqn:E.
  - rewrite filter_cons_True by done. unfold is_success in E. apply Z.ltb_lt in E.
    rewrite (filter_cons_False (fun r => r_status_code r <= 0)) by lia.
    cbn [length]. lia.
  - rewrite filter_cons_False by congruence. unfold is_success in E. apply Z.ltb_ge in E.
    rewrite (filter_cons_True (fun r => r_status_code r <= 0)) by lia.
    cbn [length]. lia.
Qed.

Lemma response_time_report_count rt R :
  response_time_report rt R -> omap count_of R = [py_len rt].
Proof.
  intros (avg & med & lo & hi & sd & pl & -> & _ & _ & _ & Hpl).
  rewrite omap_app. simpl. f_equal.
  induction Hpl as [|p l ps ls (v & -> & _) _ IH]; [done|]. exact IH.
Qed.

(** X4. What counts as successful.  On a non-empty collection the report
    shows the number of outcomes as the total; as successful the outcomes
    that carry a status code, whatever the code (a 404 or a 500 is counted
    as successful); as failed the outcomes with the sentinel 0; the success
    rate is the share of the former.  The response-time block counts the
    same outcomes, and the counts of the status code distribution add up to
    them. *)
Theorem answered_requests_count_as_successful :
  forall (py_sqrt : Q -> Q) (t : APILoadTester),
    results t <> [] ->
    let report := console (print_summary py_sqrt) t in
    let n := py_len (results t) in
    let answered := py_len (filter (fun r => 0 < r_status_code r) (results t)) in
    omap total_of report = [n] /\
    omap successful_of report = [answered] /\
    omap failed_of report = [py_len (filter (fun r => r_status_code r <= 0) (results t))] /\
    omap success_rate_of report = [(inject_Z answered / inject_Z n * 100)%Q] /\
    omap count_of report = (if decide (answered = 0) then [] else [answered]) /\
    Zsum (omap status_line_of report).*1.*2 = answered /\
    answered + py_len (filter (fun r => r_status_code r <= 0) (results t)) = n.
Proof.
  intros py_sqrt t Hne report n answered.
  assert (Hanswered : answered = py_len (filter (fun r => is_success r = true) (results t))).
  { unfold answered. f_equal. apply list_filter_iff. intros r. unfold is_success.
    by rewrite Z.ltb_lt. }
  pose proof (failed_count (results t)) as Hfailed. rewrite <- Hanswered in Hfailed.
  fold n in Hfailed.
  assert (Hrows : Zsum (omap status_line_of report).*1.*2 = answered).
  { unfold report. rewrite console_status_rows by done.
    rewrite <- !list_fmap_compose.
    erewrite list_fmap_ext with (g := snd); [|by intros i [k c] _].
    rewrite (Zsum_Permutation _ (map_to_list (status_histogram (results t))).*2)
      by apply fmap_Permutation, sorted_by_Permutation.
    by rewrite status_histogram_total. }
  split; [|split; [|split; [|split; [|split; [|split; [exact Hrows | lia]]]]]];
    unfold report;
    destruct (console_print_summary_nonempty py_sqrt t Hne) as (R & H0 & H1 & -> & _).
  - other_blocks_silent.
    destruct (successful_times t) as [|x xs] eqn:E; [by rewrite H0|].
    by rewrite (response_time_report_silent _ (x :: xs) R) by (by try apply H1).
  - other_blocks_silent. rewrite <- Hanswered.
    destruct (successful_times t) as [|x xs] eqn:E; [by rewrite H0|].
    by rewrite (response_time_report_silent _ (x :: xs) R) by (by try apply H1).
  - other_blocks_silent. rewrite <- Hanswered. fold n. rewrite Hfailed.
    destruct (successful_times t) as [|x xs] eqn:E; [by rewrite H0|].
    by rewrite (response_time_report_silent _ (x :: xs) R) by (by try apply H1).
  - other_blocks_silent. rewrite <- Hanswered. fold n.
    destruct (successful_times t) as [|x xs] eqn:E; [by rewrite H0|].
    by rewrite (response_time_report_silent _ (x :: xs) R) by (by try apply H1).
  - other_blocks_silent.
    assert (Hlen : py_len (successful_times t) = answered).
    { unfold successful_times, py_len. rewrite length_fmap. by rewrite Hanswered. }
    destruct (successful_times t) as [|x xs] eqn:E.
    + rewrite H0 by done. rewrite decide_True; [done|]. by rewrite <- Hlen.
    + rewrite (response_time_report_count (x :: xs) R) by (by apply H1).
      rewrite Hlen. rewrite decide_False; [done|].
      rewrite <- Hlen. unfold py_len. simpl. lia.
Qed.

Lemma answered_requests_count_as_successful_witness :
  results one_success <> [] /\
  let report := console (print_summary demo_sqrt) one_success in
  let n := py_len (results one_success) in
  let answered := py_len (filter (fun r => 0 < r_status_code r) (results one_success)) in
  omap total_of report = [n] /\
  omap successful_of report = [answered] /\
  omap failed_of report
  = [py_len (filter (fun r => r_status_code r <= 0) (results one_success))] /\
  omap success_rate_of report = [(inject_Z answered / inject_Z n * 100)%Q] /\
  omap count_of report = (if decide (answered = 0) then [] else [answered]) /\
  Zsum (omap status_line_of report).*1.*2 = answered /\
  answered + py_len (filter (fun r => r_status_code r <= 0) (results one_success)) = n.
Proof.
  refine ((fun H : results one_success <> [] =>
             conj H (answered_requests_count_as_successful demo_sqrt one_success H)) _).
  discriminate.
Defined.

(** *** The average and the median *)

Lemma runs_statistics_median_value t data :
  data <> [] -> exists med, is_median med data /\ runs t (statistics_median data) med [].
Proof.
  intros Hne. unfold statistics_median, is_median.
  pose proof (py_len_nonzero data Hne) as Hn.
  rewrite sorted_length.
  assert (Hpos : 0 < py_len data) by (unfold py_len in *; lia).
  destruct (py_len data =? 0) eqn:E0; [lia|].
  destruct (py_len data mod 2 =? 1) eqn:E1.
  - destruct (runs_getitem t (sorted data) (py_len data / 2)) as (v & Hv & Hr).
    { rewrite sorted_length. split; [apply Z.div_pos; lia|].
      apply Z.div_lt_upper_bound; lia. }
    by exists v.
  - assert (Heven : py_len data mod 2 = 0).
    { pose proof (Z.mod_pos_bound (py_len data) 2). lia. }
    assert (Hhalf : 1 <= py_len data / 2 < py_len data).
    { pose proof (Z.div_mod (py_len data) 2). lia. }
    destruct (runs_getitem t (sorted data) (py_len data / 2 - 1)) as (a & Ha & Hra).
    { rewrite sorted_length. lia. }
    destruct (runs_getitem t (sorted data) (py_len data / 2)) as (b & Hb & Hrb).
    { rewrite sorted_length. lia. }
    exists ((a + b) / 2)%Q. split; [by exists a, b|].
    apply (runs_bind_silent t _ _ a); [exact Hra|].
    apply (runs_bind_silent t _ _ b); [exact Hrb|]. apply runs_ret.
Qed.

(** The block of the response times with its average and median pinned. *)
Lemma runs_response_time_block py_sqrt t rt :
  rt <> [] ->
  exists med lo hi sd pl,
    is_median med rt /\ is_minimum lo rt /\ is_maximum hi rt /\
    omap average_of pl = [] /\ omap median_of pl = [] /\
    omap min_of pl = [] /\ omap max_of pl = [] /\
    runs t (response_time_statistics py_sqrt rt) tt
      (EvPrint <$> [ResponseTimeHeader; Count (py_len rt);
                    Average (Qsum rt / inject_Z (py_len rt))%Q; Median med;
                    Min lo; Max hi; StdDev sd; PercentilesHeader] ++ pl).
Proof.
  intros Hne. unfold response_time_statistics.
  rewrite (proj2 (truthy_true rt) Hne).
  destruct (runs_statistics_median_value t rt Hne) as (med & Hmed & Hrmed).
  destruct (runs_py_min t rt Hne) as (lo & Hlo & Hrlo).
  destruct (runs_py_max t rt Hne) as (hi & Hhi & Hrhi).
  destruct (runs_percentile_loop t rt Hne) as (pl & Hpl & Hrpl).
  assert (Hsd : exists sd,
            runs t (if 1 <? py_len rt then statistics_stdev py_sqrt rt else ret 0%Q) sd []).
  { destruct (1 <? py_len rt) eqn:E.
    - destruct (runs_statistics_stdev py_sqrt t rt) as [sd Hsd]; [lia|]. by exists sd.
    - exists 0%Q. apply runs_ret. }
  destruct Hsd as (sd & Hrsd).
  exists med, lo, hi, sd, pl. do 3 (split; [done|]).
  assert (Hsilent : forall {A} (f : line -> option A),
            (forall p q, f (Percentile p q) = None) -> omap f pl = []).
  { intros A f Hf. clear -Hpl Hf.
    induction Hpl as [|p l ps ls (v & -> & _) _ IH]; [done|]. simpl. by rewrite Hf. }
  do 4 (split; [by apply Hsilent|]).
  simpl.
  do 2 apply runs_print_then.
  apply (runs_bind_silent t _ _ (Qsum rt / inject_Z (py_len rt))%Q).
  { unfold statistics_mean. rewrite (proj2 (truthy_true rt) Hne). apply runs_ret. }
  apply runs_print_then.
  apply (runs_bind_silent t _ _ med); [exact Hrmed|]. apply runs_print_then.
  apply (runs_bind_silent t _ _ lo); [exact Hrlo|]. apply runs_print_then.
  apply (runs_bind_silent t _ _ hi); [exact Hrhi|]. apply runs_print_then.
  apply (runs_bind_silent t _ _ sd); [exact Hrsd|]. do 2 apply runs_print_then.
  exact Hrpl.
Qed.

(** The report, given the lines of the response-time block. *)
Lemma print_summary_with_block py_sqrt t R :
  results t <> [] ->
  runs t (response_time_statistics py_sqrt (successful_times t)) tt (EvPrint <$> R) ->
  runs t (print_summary py_sqrt) tt
       (EvPrint <$> summary_layout t (duration_of (results t)) R).
Proof.
  intros Hne HRrun.
  pose proof (py_len_nonzero _ Hne) as Hn.
  pose proof (runs_test_duration_and_rps t (results t) (py_len (results t)) Hne) as Htiming.
  unfold print_summary, summary_layout.
  fold (rate_for t (duration_of (results t))) in Htiming.
  remember (rate_for t (duration_of (results t))) as rate eqn:Hrate.
  remember (basic_report t _ _ _ _ _) as Bs eqn:HBs.
  remember (throughput_report t _ _) as Ts eqn:HTs.
  remember (distribution_report StatusHeader _ _ _) as Ss eqn:HSs.
  remember (distribution_report ErrorHeader _ _ _) as Es eqn:HEs.
  remember (performance_report _ _) as Ps eqn:HPs.
  rewrite !fmap_app. simpl.
  do 3 apply runs_print_then. apply runs_attr_then.
  rewrite (proj2 (truthy_true _) Hne). simpl.
  eapply runs_bind_silent; [exact Htiming|]. cbv beta iota.
  subst Bs Ts Ss Es Ps.
  apply runs_bind with (a := tt); [by apply runs_basic_statistics|].
  apply runs_bind with (a := tt); [exact HRrun|].
  apply runs_bind with (a := tt); [apply runs_throughput_analysis|].
  apply runs_bind with (a := tt); [by apply runs_status_code_distribution|].
  apply runs_bind with (a := tt); [by apply runs_error_distribution|].
  apply runs_bind with (a := tt); [by apply runs_performance_analysis|].
  apply runs_print.
Qed.

Lemma Qsum_from_bounds (lo hi : Q) (xs : list Q) :
  (forall x, x ∈ xs -> (lo <= x <= hi)%Q) ->
  forall a : Q,
    (a + inject_Z (py_len xs) * lo <= fold_left Qplus xs a
     <= a + inject_Z (py_len xs) * hi)%Q.
Proof.
  induction xs as [|x xs IH]; intros Hall a.
  - change (inject_Z (py_len (@nil Q))) with 0%Q. simpl fold_left. split; lra.
  - assert (Hlen : (inject_Z (py_len (x :: xs)) == inject_Z (py_len xs) + 1)%Q).
    { unfold py_len. cbn [length]. rewrite Nat2Z.inj_succ. unfold Z.succ.
      by rewrite inject_Z_plus. }
    destruct (Hall x) as [Hx1 Hx2]; [by left|].
    destruct (IH (fun y Hy => Hall y (list_elem_of_further _ _ _ Hy)) (a + x)%Q) as [H1 H2].
    simpl fold_left. rewrite Hlen. split; nra.
Qed.

Lemma mean_within_bounds (lo hi : Q) (xs : list Q) :
  xs <> [] -> (forall x, x ∈ xs -> (lo <= x <= hi)%Q) ->
  (lo <= Qsum xs / inject_Z (py_len xs) <= hi)%Q.
Proof.
  intros Hne Hall. destruct (Qsum_from_bounds lo hi xs Hall 0%Q) as [H1 H2].
  fold (Qsum xs) in H1, H2.
  assert (Hpos : (0 < inject_Z (py_len xs))%Q).
  { change 0%Q with (inject_Z 0). rewrite <- Zlt_Qlt.
    pose proof (py_len_nonzero xs Hne). unfold py_len in *. lia. }
  split.
  - apply Qle_shift_div_l; [done|]. lra.
  - apply Qle_shift_div_r; [done|]. lra.
Qed.

Lemma median_within_bounds (lo hi med : Q) (xs : list Q) :
  is_median med xs -> (forall x, x ∈ xs -> (lo <= x <= hi)%Q) ->
  (lo <= med <= hi)%Q.
Proof.
  intros Hmed Hall.
  assert (Hin : forall i v, sorted xs !! i = Some v -> (lo <= v <= hi)%Q).
  { intros i v Hv. apply Hall. rewrite <- (sorted_Permutation xs).
    by eapply list_elem_of_lookup_2. }
  unfold is_median in Hmed. cbv zeta in Hmed.
  destruct (py_len xs mod 2 =? 1).
  - by eapply Hin.
  - destruct Hmed as (a & b & Ha & Hb & ->).
    apply Hin in Ha. apply Hin in Hb.
    split.
    + apply Qle_shift_div_l; [reflexivity | lra].
    + apply Qle_shift_div_r; [reflexivity | lra].
Qed.

(** X5. The average and the median.  When at least one request was
    answered, the report shows one average, the sum of the response times
    of the answered requests divided by their number, and one median, the
    middle of these times in ascending order or the mean of the two middle
    ones; both lie between the minimum and the maximum the report shows. *)
Theorem average_and_median_reported :
  forall (py_sqrt : Q -> Q) (t : APILoadTester),
    successful_times t <> [] ->
    let rt := successful_times t in
    let report := console (print_summary py_sqrt) t in
    exists med lo hi,
      omap average_of report = [(Qsum rt / inject_Z (py_len rt))%Q] /\
      omap median_of report = [med] /\ is_median med rt /\
      omap min_of report = [lo] /\ omap max_of report = [hi] /\
      (lo <= Qsum rt / inject_Z (py_len rt) <= hi)%Q /\
      (lo <= med <= hi)%Q.
Proof.
  intros py_sqrt t Hrt rt report.
  assert (Hne : results t <> []).
  { intros He. apply Hrt. unfold successful_times. by rewrite He. }
  destruct (runs_response_time_block py_sqrt t rt Hrt)
    as (med & lo & hi & sd & pl & Hmed & Hlo & Hhi & Ha & Hm & Hmin & Hmax & Hrun).
  pose proof (print_summary_with_block py_sqrt t _ Hne Hrun) as Hsummary.
  destruct (runs_console _ _ _ _ Hsummary) as [Hconsole _].
  rewrite stdout_prints in Hconsole. fold report in Hconsole.
  assert (Hbounds : forall x, x ∈ rt -> (lo <= x <= hi)%Q).
  { intros x Hx. split; [by apply Hlo | by apply Hhi]. }
  exists med, lo, hi. rewrite Hconsole.
  split; [|split; [|split; [exact Hmed|split; [|split; [|split]]]]].
  - other_blocks_silent. f_equal. exact Ha.
  - other_blocks_silent. f_equal. exact Hm.
  - other_blocks_silent. f_equal. exact Hmin.
  - other_blocks_silent. f_equal. exact Hmax.
  - by apply mean_within_bounds.
  - by eapply median_within_bounds.
Qed.

Lemma average_and_median_reported_witness :
  successful_times four_latencies <> [] /\
  let rt := successful_times four_latencies in
  let report := console (print_summary demo_sqrt) four_latencies in
  exists med lo hi,
    omap average_of report = [(Qsum rt / inject_Z (py_len rt))%Q] /\
    omap median_of report = [med] /\ is_median med rt /\
    omap min_of report = [lo] /\ omap max_of report = [hi] /\
    (lo <= Qsum rt / inject_Z (py_len rt) <= hi)%Q /\
    (lo <= med <= hi)%Q.
Proof.
  refine ((fun H : successful_times four_latencies <> [] =>
             conj H (average_and_median_reported demo_sqrt four_latencies H)) _).
  discriminate.
Defined.

(** * Further properties of the dispatcher *)

(** A completed run with the report it ends on. *)
Lemma run_load_test_report w py_sqrt t tr :
  uninterrupted w -> 0 < batch_size t ->
  run_load_test w py_sqrt (mk_machine t tr)
  = (inr tt, mk_machine (completed_object w t) (tr ++ completed_trace w py_sqrt t)).
Proof.
  intros Hw Hbs. unfold completed_trace.
  set (t' := completed_object w t).
  destruct (print_summary_runs py_sqrt t') as [ls Hsummary].
  destruct (runs_console _ _ _ _ Hsummary) as [Hconsole _].
  rewrite stdout_prints in Hconsole. rewrite Hconsole.
  unfold run_load_test.
  repeat first [ erewrite bind_runs by apply runs_attr
               | erewrite bind_runs by apply runs_print ].
  rewrite timing_and_concurrency_delay. fold (batch_size t). cbv iota beta.
  erewrite bind_runs by apply runs_attr.
  erewrite bind_runs by apply runs_emit.
  unfold bind at 1. unfold try_finally.
  erewrite bind_runs by apply runs_attr.
  rewrite (py_range_nonzero 0 (total_requests t) (batch_size t)) by lia.
  erewrite bind_runs by apply runs_ret.
  rewrite range_list_batch_starts by done.
  unfold bind at 1.
  rewrite (batches_run_from w t (batch_starts t) _ Hw).
  fold (completed_object w t). fold t'.
  unfold print at 1. unfold emit at 1. cbn [self trace].
  unfold emit at 1. cbn [self trace].
  rewrite (Hsummary _). do 2 f_equal.
  rewrite !app_nil_r, <- !app_assoc. reflexivity.
Qed.

Lemma batches_of_completed w py_sqrt t :
  batches_of (completed_trace w py_sqrt t) = batch_ids t <$> batch_starts t.
Proof.
  unfold completed_trace, batches_of. rewrite !omap_app. simpl.
  fold (batches_of (concat (batch_trace w t <$> batch_starts t))).
  match goal with |- context [omap _ (EvPrint <$> ?ls)] =>
    fold (batches_of (EvPrint <$> ls)); rewrite (batches_of_prints ls) end.
  by rewrite batches_of_loop, app_nil_r.
Qed.

Lemma semaphores_of_completed w py_sqrt t :
  semaphores_of (completed_trace w py_sqrt t)
  = (fun b => Z.min (py_len b) 1000) <$> (batch_ids t <$> batch_starts t).
Proof.
  unfold completed_trace, semaphores_of. rewrite !omap_app. simpl.
  fold (semaphores_of (concat (batch_trace w t <$> batch_starts t))).
  match goal with |- context [omap _ (EvPrint <$> ?ls)] =>
    fold (semaphores_of (EvPrint <$> ls)); rewrite (semaphores_of_prints ls) end.
  by rewrite semaphores_of_loop, app_nil_r.
Qed.

Lemma positive_rate_batch_size t : 0 < requests_per_second t -> 0 < batch_size t.
Proof.
  intros Hrps. destruct (batch_size_formula t) as [Hhi Hlo].
  destruct (Z_le_gt_dec 100 (requests_per_second t)); lia.
Qed.

(** *** Pacing *)

Lemma pacing_of_prints ls : pacing_of (EvPrint <$> ls) = [].
Proof. induction ls as [|l ls IH]; [done|]. exact IH. Qed.

Lemma pacing_of_tasks w t ids : pacing_of (concat (task_events w t <$> ids)) = [].
Proof. induction ids as [|i ids IH]; [done|]. simpl. exact IH. Qed.

Lemma pacing_of_batch_trace w t s :
  pacing_of (batch_trace w t s)
  = Batch :: (if Z.min (s + batch_size t) (total_requests t) <? total_requests t
              then [Pause] else []).
Proof.
  unfold batch_trace, pacing_of. rewrite !omap_app. simpl.
  fold (pacing_of (concat (task_events w t <$> batch_order w t s))).
  rewrite pacing_of_tasks. by destruct (_ <? _).
Qed.

Lemma pacing_of_loop w t starts :
  pacing_of (concat (batch_trace w t <$> starts))
  = concat ((fun s => if (Z.min (s + batch_size t) (total_requests t) <? total_requests t)
                      then [Batch; Pause] else [Batch])
            <$> starts).
Proof.
  induction starts as [|s starts IH]; [done|].
  rewrite !fmap_cons, !concat_cons. unfold pacing_of in *.
  rewrite omap_app, IH. fold (pacing_of (batch_trace w t s)).
  rewrite pacing_of_batch_trace. by destruct (_ <? _).
Qed.

Lemma sleeps_of_prints ls : sleeps_of (EvPrint <$> ls) = [].
Proof. induction ls as [|l ls IH]; [done|]. exact IH. Qed.

Lemma sleeps_of_tasks w t ids : sleeps_of (concat (task_events w t <$> ids)) = [].
Proof. induction ids as [|i ids IH]; [done|]. simpl. exact IH. Qed.

Lemma sleeps_of_batch_trace w t s :
  sleeps_of (batch_trace w t s)
  = if (Z.min (s + batch_size t) (total_requests t) <? total_requests t)
    then [1%Q] else [].
Proof.
  unfold batch_trace, sleeps_of. rewrite !omap_app. simpl.
  fold (sleeps_of (concat (task_events w t <$> batch_order w t s))).
  rewrite sleeps_of_tasks. by destruct (_ <? _).
Qed.

Lemma sleeps_of_loop w t starts :
  sleeps_of (concat (batch_trace w t <$> starts))
  = concat ((fun s => if (Z.min (s + batch_size t) (total_requests t) <? total_requests t)
                      then [1%Q] else [])
            <$> starts).
Proof.
  induction starts as [|s starts IH]; [done|].
  rewrite !fmap_cons, !concat_cons. unfold sleeps_of in *.
  rewrite omap_app, IH. fold (sleeps_of (batch_trace w t s)).
  by rewrite sleeps_of_batch_trace.
Qed.

Lemma batch_starts_split t :
  0 < batch_size t -> 0 < total_requests t ->
  let nb := (total_requests t + batch_size t - 1) / batch_size t in
  batch_starts t
  = ((fun i => i * batch_size t) <$> seqZ 0 (nb - 1)) ++ [(nb - 1) * batch_size t].
Proof.
  intros Hbs Htotal nb. unfold batch_starts. fold nb.
  destruct (batch_count_bounds t Hbs Htotal) as [Hnb _]. cbv zeta in Hnb. fold nb in Hnb.
  replace nb with ((nb - 1) + 1) at 1 by lia.
  rewrite seqZ_app by lia. rewrite fmap_app. by f_equal.
Qed.

(** Whatever is done after every batch but the last. *)
Lemma between_batches {A} t (between after_last : list A) :
  0 < batch_size t -> 0 < total_requests t ->
  concat ((fun s => if (Z.min (s + batch_size t) (total_requests t) <? total_requests t)
                    then between else after_last)
          <$> batch_starts t)
  = concat (replicate (length (batch_starts t) - 1) between) ++ after_last.
Proof.
  intros Hbs Htotal.
  destruct (batch_count_bounds t Hbs Htotal) as [Hnb Hbounds]. cbv zeta in Hnb, Hbounds.
  rewrite (batch_starts_split t Hbs Htotal). cbv zeta.
  set (nb := (total_requests t + batch_size t - 1) / batch_size t) in *.
  rewrite fmap_app, concat_app, length_app, length_fmap, length_seqZ. simpl.
  replace (Z.to_nat (nb - 1) + 1 - 1)%nat with (Z.to_nat (nb - 1)) by lia.
  f_equal.
  - assert (Hall : forall i, i ∈ seqZ 0 (nb - 1) ->
              (Z.min (i * batch_size t + batch_size t) (total_requests t)
               <? total_requests t) = true).
    { intros i Hi. apply elem_of_seqZ in Hi. apply Z.ltb_lt. nia. }
    rewrite <- (length_seqZ 0 (nb - 1)).
    induction (seqZ 0 (nb - 1)) as [|i l IH]; [done|].
    simpl. rewrite (Hall i) by (by left). f_equal.
    apply IH. intros j Hj. apply Hall. by right.
  - rewrite app_nil_r.
    destruct (Z.min ((nb - 1) * batch_size t + batch_size t) (total_requests t)
              <? total_requests t) eqn:E; [|done].
    apply Z.ltb_lt in E. lia.
Qed.

Lemma concat_replicate_singleton {A} n (x : A) : concat (replicate n [x]) = replicate n x.
Proof. induction n as [|n IH]; [done|]. simpl. by rewrite IH. Qed.

(** X6. Pacing.  A completed run alternates batches and pauses: every batch
    but the last is followed by one pause, of one second, and no pause
    follows the last batch; a run of [n] batches pauses [n - 1] times. *)
Theorem batches_paced_by_one_second :
  forall (w : World) (py_sqrt : Q -> Q) (t : APILoadTester) (tr : list event),
    0 < requests_per_second t -> 0 < total_requests t -> uninterrupted w ->
    exists (t' : APILoadTester) (tr' : list event),
      run_load_test w py_sqrt (mk_machine t tr) = (inr tt, mk_machine t' (tr ++ tr')) /\
      pacing_of tr'
        = concat (replicate (length (batches_of tr') - 1) [Batch; Pause]) ++ [Batch] /\
      sleeps_of tr' = replicate (length (batches_of tr') - 1) 1%Q.
Proof.
  intros w py_sqrt t tr Hrps Htotal Hw.
  pose proof (positive_rate_batch_size t Hrps) as Hbs.
  eexists _, _. split; [by apply run_load_test_report|].
  rewrite batches_of_completed, length_fmap. split.
  - unfold completed_trace, pacing_of. rewrite !omap_app. simpl.
    fold (pacing_of (concat (batch_trace w t <$> batch_starts t))).
    match goal with |- context [omap _ (EvPrint <$> ?ls)] =>
      fold (pacing_of (EvPrint <$> ls)); rewrite (pacing_of_prints ls) end.
    by rewrite pacing_of_loop, between_batches, app_nil_r by done.
  - unfold completed_trace, sleeps_of. rewrite !omap_app. simpl.
    fold (sleeps_of (concat (batch_trace w t <$> batch_starts t))).
    match goal with |- context [omap _ (EvPrint <$> ?ls)] =>
      fold (sleeps_of (EvPrint <$> ls)); rewrite (sleeps_of_prints ls) end.
    rewrite sleeps_of_loop, between_batches by done.
    by rewrite !app_nil_r, concat_replicate_singleton.
Qed.

Lemma batches_paced_by_one_second_witness :
  0 < requests_per_second demo_tester /\ 0 < total_requests demo_tester /\
  uninterrupted demo_world /\
  exists (t' : APILoadTester) (tr' : list event),
    run_load_test demo_world demo_sqrt (mk_machine demo_tester [])
      = (inr tt, mk_machine t' ([] ++ tr')) /\
    pacing_of tr'
      = concat (replicate (length (batches_of tr') - 1) [Batch; Pause]) ++ [Batch] /\
    sleeps_of tr' = replicate (length (batches_of tr') - 1) 1%Q.
Proof.
  refine ((fun (H1 : 0 < requests_per_second demo_tester)
               (H2 : 0 < total_requests demo_tester) =>
             conj H1 (conj H2 (conj demo_world_uninterrupted
               (batches_paced_by_one_second demo_world demo_sqrt demo_tester []
                  H1 H2 demo_world_uninterrupted)))) _ _); reflexivity.
Defined.

(** *** The connection pool and the gate *)

Lemma batch_size_min t : batch_size t = Z.min (requests_per_second t) 1000.
Proof.
  unfold batch_size, timing_and_concurrency.
  destruct (100 <=? requests_per_second t) eqn:E; simpl; lia.
Qed.

Lemma pools_of_prints ls : pools_of (EvPrint <$> ls) = [].
Proof. induction ls as [|l ls IH]; [done|]. exact IH. Qed.

Lemma pools_of_loop w t starts : pools_of (concat (batch_trace w t <$> starts)) = [].
Proof.
  induction starts as [|s starts IH]; [done|].
  rewrite fmap_cons, concat_cons. unfold pools_of in *. rewrite omap_app, IH, app_nil_r.
  unfold batch_trace. rewrite !omap_app. simpl.
  assert (Htasks : forall ids, omap (fun ev => match ev with
                     | EvSessionOpen limit limit_per_host => Some (limit, limit_per_host)
                     | _ => None end) (concat (task_events w t <$> ids)) = []).
  { induction ids as [|i ids IHi]; [done|]. simpl. exact IHi. }
  rewrite Htasks. by destruct (_ <? _).
Qed.

(** X7. The threshold of 100 requests per second changes nothing: for every
    rate the batch size is [min(rate, 1000)].  A completed run opens one
    connection pool, whose per-host limit is the batch size and whose total
    limit is twice that; no batch is longer than the per-host limit, and the
    semaphore of each batch has exactly as many slots as the batch has
    requests, so no request ever waits at the semaphore. *)
Theorem pool_and_gate_fit_every_batch :
  forall (w : World) (py_sqrt : Q -> Q) (t : APILoadTester) (tr : list event),
    0 < requests_per_second t -> 0 < total_requests t -> uninterrupted w ->
    batch_size t = Z.min (requests_per_second t) 1000 /\
    exists (t' : APILoadTester) (tr' : list event),
      run_load_test w py_sqrt (mk_machine t tr) = (inr tt, mk_machine t' (tr ++ tr')) /\
      pools_of tr' = [(2 * batch_size t, batch_size t)] /\
      Forall (fun batch => 0 < py_len batch <= batch_size t) (batches_of tr') /\
      semaphores_of tr' = py_len <$> batches_of tr'.
Proof.
  intros w py_sqrt t tr Hrps Htotal Hw.
  pose proof (positive_rate_batch_size t Hrps) as Hbs.
  pose proof (batch_size_min t) as Hmin.
  split; [exact Hmin|].
  eexists _, _. split; [by apply run_load_test_report|].
  rewrite batches_of_completed, semaphores_of_completed. split; [|split].
  - unfold completed_trace, pools_of. rewrite !omap_app. simpl.
    fold (pools_of (concat (batch_trace w t <$> batch_starts t))).
    match goal with |- context [omap _ (EvPrint <$> ?ls)] =>
      fold (pools_of (EvPrint <$> ls)); rewrite (pools_of_prints ls) end.
    rewrite pools_of_loop. simpl. do 2 f_equal; lia.
  - apply Forall_forall. intros b Hb.
    apply list_elem_of_lookup in Hb as [i Hi].
    destruct (batches_consecutive t Hbs Htotal) as [_ Hlen].
    by destruct (Hlen i b Hi).
  - rewrite <- !list_fmap_compose.
    apply list_fmap_ext. intros i s _. simpl. apply semaphore_admits_batch.
Qed.

Lemma pool_and_gate_fit_every_batch_witness :
  0 < requests_per_second demo_tester /\ 0 < total_requests demo_tester /\
  uninterrupted demo_world /\
  batch_size demo_tester = Z.min (requests_per_second demo_tester) 1000 /\
  exists (t' : APILoadTester) (tr' : list event),
    run_load_test demo_world demo_sqrt (mk_machine demo_tester [])
      = (inr tt, mk_machine t' ([] ++ tr')) /\
    pools_of tr' = [(2 * batch_size demo_tester, batch_size demo_tester)] /\
    Forall (fun batch => 0 < py_len batch <= batch_size demo_tester) (batches_of tr') /\
    semaphores_of tr' = py_len <$> batches_of tr'.
Proof.
  refine ((fun (H1 : 0 < requests_per_second demo_tester)
               (H2 : 0 < total_requests demo_tester) =>
             conj H1 (conj H2 (conj demo_world_uninterrupted
               (pool_and_gate_fit_every_batch demo_world demo_sqrt demo_tester []
                  H1 H2 demo_world_uninterrupted)))) _ _); reflexivity.
Defined.

(** *** What is sent *)

Lemma random_choice_USER_AGENTS k : random_choice k USER_AGENTS ∈ USER_AGENTS.
Proof.
  unfold random_choice.
  assert (Hk : (k mod length USER_AGENTS < length USER_AGENTS)%nat)
    by (apply Nat.mod_upper_bound; discriminate).
  destruct (lookup_lt_is_Some_2 USER_AGENTS _ Hk) as [ua Hua].
  rewrite Hua. simpl. apply list_elem_of_lookup. eauto.
Qed.

(** X8. The request [make_request] sends goes to the configured URL with the
    configured method and a total timeout of 30 seconds.  With
    [use_random_user_agent] set it carries a [User-Agent] header taken from
    [USER_AGENTS] ([random.choice] never fails, the list is not empty) and
    nothing but that and [Content-Type]; without the flag [Content-Type] is
    the only header. *)
Theorem user_agent_from_the_pool :
  forall (w : World) (t : APILoadTester) (tr : list event) (request_id : Z),
    exists req : http_request,
      requests_of (trace (make_request w request_id (mk_machine t tr)).2)
        = requests_of tr ++ [(request_id, req)] /\
      req_url req = url t /\ req_method req = method t /\ req_timeout req = 30 /\
      (use_random_user_agent t = true ->
         (exists ua, req_headers req !! "User-Agent"%string = Some ua /\ ua ∈ USER_AGENTS) /\
         dom (req_headers req) = {[ "Content-Type"%string; "User-Agent"%string ]}) /\
      (use_random_user_agent t = false ->
         req_headers req = {[ "Content-Type"%string := "application/json"%string ]}).
Proof.
  intros w t tr request_id. exists (outgoing_request w t request_id).
  split; [|split; [done|split; [done|split; [done|split]]]].
  - rewrite make_request_run. cbv zeta.
    destruct (session_request w request_id (outgoing_request w t request_id)) as [s|e];
      [|destruct (handled e)]; simpl; unfold requests_of; by rewrite omap_app.
  - intros Hua. unfold outgoing_request, request_headers. simpl. rewrite Hua. split.
    + eexists. split; [apply lookup_insert_eq | apply random_choice_USER_AGENTS].
    + rewrite dom_insert_L, dom_singleton_L. set_solver.
  - intros Hua. unfold outgoing_request, request_headers. simpl. by rewrite Hua.
Qed.

(** *** The error distribution of a run *)

(** The text after the first colon never decides the label: an error
    message that itself holds colons does not split a kind. *)
Lemma before_colon_error_text k : before_colon (error_text k) = label_of k.
Proof. by destruct k. Qed.

Lemma label_of_error_labels k : label_of k ∈ error_labels.
Proof. destruct k; unfold error_labels; simpl; repeat constructor. Qed.

Lemma error_key_entry_of w t request_id :
  error_key (entry_of w t request_id) = raised_label w t request_id.
Proof.
  unfold error_key, entry_of, outcome_of, raised_label.
  destruct (session_request w request_id (outgoing_request w t request_id)) as [s|e]; simpl.
  - done.
  - rewrite bool_decide_eq_true_2 by apply error_text_nonempty.
    by rewrite before_colon_error_text.
Qed.

Lemma concat_entries w t starts :
  concat ((fun s => entry_of w t <$> batch_order w t s) <$> starts)
  = entry_of w t <$> concat (batch_order w t <$> starts).
Proof.
  induction starts as [|s starts IH]; [done|].
  by rewrite !fmap_cons, !concat_cons, fmap_app, IH.
Qed.

Lemma length_filter_fmap {A B} (f : A -> B) (P : B -> Prop) `{!forall x, Decision (P x)}
    (l : list A) :
  length (filter P (f <$> l)) = length (filter (fun x => P (f x)) l).
Proof.
  induction l as [|x l IH]; [done|]. rewrite fmap_cons.
  destruct (decide (P (f x))).
  - rewrite !filter_cons_True by done. simpl. by rewrite IH.
  - rewrite !filter_cons_False by done. exact IH.
Qed.

Lemma completed_results w t :
  results t = [] -> 0 < batch_size t -> 0 < total_requests t ->
  exists order,
    results (completed_object w t) = entry_of w t <$> order /\
    order ≡ₚ seqZ 1 (total_requests t).
Proof.
  intros Hempty Hbs Htotal. exists (concat (batch_order w t <$> batch_starts t)). split.
  - unfold completed_object. simpl. by rewrite Hempty, concat_entries.
  - rewrite batch_orders_Permutation. by rewrite batches_cover.
Qed.

(** X9. The error distribution a run ends on.  After a completed run that
    started on an empty collection, the error distribution shows only the
    labels [Timeout], [Connection Error], [Client Error] and
    [Unexpected Error]; a label is shown exactly when some request failed
    that way, with the number of request ids of [[1, total_requests]] whose
    call failed that way, whatever the messages of the exceptions, and with
    its share of [total_requests]. *)
Theorem error_distribution_of_a_run :
  forall (w : World) (py_sqrt : Q -> Q) (t : APILoadTester) (tr : list event),
    results t = [] -> 0 < requests_per_second t -> 0 < total_requests t ->
    uninterrupted w ->
    let t' := self (run_load_test w py_sqrt (mk_machine t tr)).2 in
    forall label c pct,
      ErrorLine label c pct ∈ console (print_summary py_sqrt) t' <->
      0 < c /\
      c = py_len (filter (fun i => raised_label w t i = Some label)
                         (seqZ 1 (total_requests t))) /\
      pct = (inject_Z c / inject_Z (total_requests t) * 100)%Q /\
      label ∈ error_labels.
Proof.
  intros w py_sqrt t tr Hempty Hrps Htotal Hw t' label c pct.
  pose proof (positive_rate_batch_size t Hrps) as Hbs.
  unfold t'. rewrite run_load_test_report by done. cbn [snd self].
  destruct (completed_results w t Hempty Hbs Htotal) as (order & Hres & Hperm).
  assert (Hlen : py_len (results (completed_object w t)) = total_requests t).
  { unfold py_len. rewrite Hres, length_fmap, Hperm, length_seqZ. lia. }
  assert (Hne : results (completed_object w t) <> []).
  { intros He. rewrite He in Hlen. unfold py_len in Hlen. simpl in Hlen. lia. }
  rewrite console_error_lines by done. rewrite Hlen.
  assert (Hcount : error_count (results (completed_object w t)) label
                   = py_len (filter (fun i => raised_label w t i = Some label)
                                    (seqZ 1 (total_requests t)))).
  { unfold error_count, py_len. rewrite Hres, length_filter_fmap. f_equal.
    rewrite <- Hperm. f_equal. apply list_filter_iff. intros i.
    by rewrite error_key_entry_of. }
  rewrite Hcount. split.
  - intros (Hpos & Hc & Hpct). do 3 (split; [done|]).
    subst c. unfold py_len in Hpos.
    destruct (filter _ (seqZ 1 (total_requests t))) as [|i l] eqn:Ef; [simpl in Hpos; lia|].
    assert (i ∈ filter (fun i => raised_label w t i = Some label)
                       (seqZ 1 (total_requests t))) as Hin by (rewrite Ef; by left).
    apply list_elem_of_filter in Hin as [Hlabel _]. unfold raised_label in Hlabel.
    destruct (session_request w i (outgoing_request w t i)) as [s|e]; [done|].
    injection Hlabel as <-. apply label_of_error_labels.
  - tauto.
Qed.

Lemma error_distribution_of_a_run_witness :
  results demo_tester = [] /\ 0 < requests_per_second demo_tester /\
  0 < total_requests demo_tester /\ uninterrupted demo_world /\
  ErrorLine "Timeout" 2 (inject_Z 2 / inject_Z (total_requests demo_tester) * 100)%Q
    ∈ console (print_summary demo_sqrt)
        (self (run_load_test demo_world demo_sqrt (mk_machine demo_tester [])).2).
Proof.
  refine ((fun (H0 : results demo_tester = [])
               (H1 : 0 < requests_per_second demo_tester)
               (H2 : 0 < total_requests demo_tester) =>
             conj H0 (conj H1 (conj H2 (conj demo_world_uninterrupted
               (proj2 (error_distribution_of_a_run demo_world demo_sqrt demo_tester []
                         H0 H1 H2 demo_world_uninterrupted "Timeout"%string 2 _) _)))))
            _ _ _); try reflexivity.
  split; [done|]. split; [reflexivity|]. split; [reflexivity|]. by left.
Defined.

(** * The run in every world

    Nothing is assumed of the network here: a request may raise anything,
    an interrupt included, at any point of the run. *)

Section Moves.
Variable t : APILoadTester.











End Moves.



















(** * The dialogue *)

Lemma left_of_refl keys : left_of keys keys.
Proof. by exists []. Qed.

Lemma left_of_step keys text rest : left_of keys (Typed text :: rest) -> left_of keys rest.
Proof.
  intros [answers ->]. exists (answers ++ [text]).
  by rewrite fmap_app, <- app_assoc.
Qed.

Lemma left_of_nil keys : left_of keys [] -> CtrlC ∉ keys.
Proof.
  intros [answers ->]. rewrite app_nil_r. intros Hin.
  apply list_elem_of_fmap in Hin as (? & ? & _). discriminate.
Qed.

Lemma left_of_CtrlC keys rest : left_of keys (CtrlC :: rest) -> CtrlC ∈ keys.
Proof. intros [answers ->]. apply elem_of_app. right. by left. Qed.

Lemma left_of_Typed keys text rest : left_of keys (Typed text :: rest) -> Typed text ∈ keys.
Proof. intros [answers ->]. apply elem_of_app. right. by left. Qed.

(** The rule of the loops: an invariant [I] of what is left of the input and
    of the terminal, kept by a round that goes round again, gives [Q] when
    the round leaves the loop and [F] when something is raised. *)
Lemma while_true_rule {A} (prompt : string) (round : string -> Tty (option A))
    (I : list key -> terminal -> Prop) (Q : A -> list key -> terminal -> Prop)
    (F : py_exception -> terminal -> Prop) :
  (forall s, I [] s ->
     F eof_error (mk_terminal (host s) (screen s ++ [Asked prompt]))) ->
  (forall rest s, I (CtrlC :: rest) s ->
     F keyboard_interrupt (mk_terminal (host s) (screen s ++ [Asked prompt]))) ->
  (forall text rest s, I (Typed text :: rest) s ->
     match round text (mk_terminal (host s) (screen s ++ [Asked prompt])) with
     | (inr (Some a), s') => Q a rest s'
     | (inr None, s') => I rest s'
     | (inl e, s') => F e s'
     end) ->
  forall keys s, I keys s ->
    match while_true prompt round keys s with
    | (inr (a, rest), s') => Q a rest s'
    | (inl e, s') => F e s'
    end.
Proof.
  intros Heof Hint Hround keys. induction keys as [|[text|] rest IH]; intros s HI.
  - simpl. unfold tty_bind, input. by apply Heof.
  - specialize (Hround text rest s HI).
    simpl. unfold tty_bind at 1. unfold input. unfold tty_bind at 1. cbn [fst snd].
    destruct (round text _) as [[e|[a|]] s']; [done | done | by apply IH].
  - simpl. unfold tty_bind, input. by eapply Hint.
Qed.

Section Ends.
Context {A : Type}.
Variable fail : py_exception -> terminal -> Prop.

Lemma ends_ret (a : A) s (post : A -> terminal -> Prop) :
  post a s -> ends (tty_ret a) s post fail.
Proof. done. Qed.

Lemma ends_raise e s (post : A -> terminal -> Prop) :
  fail e s -> ends (tty_raise e) s post fail.
Proof. done. Qed.

Lemma ends_bind {B} (c : Tty B) (k : B -> Tty A) s
    (mid : B -> terminal -> Prop) (post : A -> terminal -> Prop) :
  ends c s mid fail -> (forall b s', mid b s' -> ends (k b) s' post fail) ->
  ends (tty_bind c k) s post fail.
Proof.
  unfold ends, tty_bind. intros Hc Hk. destruct (c s) as [[e|b] s']; [done|].
  by apply Hk.
Qed.

Lemma ends_say text (k : Tty A) s (post : A -> terminal -> Prop) :
  ends k (mk_terminal (host s) (screen s ++ [Printed text])) post fail ->
  ends (tty_bind (say text) (fun _ => k)) s post fail.
Proof. done. Qed.

Lemma ends_assign update (k : Tty A) s (post : A -> terminal -> Prop) :
  ends k (mk_terminal (mk_machine (update (self (host s))) (trace (host s))) (screen s))
       post fail ->
  ends (tty_bind (assign update) (fun _ => k)) s post fail.
Proof. done. Qed.

Lemma ends_field {B} (f : APILoadTester -> B) (k : B -> Tty A) s
    (post : A -> terminal -> Prop) :
  ends (k (f (self (host s)))) s post fail ->
  ends (tty_bind (field f) k) s post fail.
Proof. done. Qed.

Lemma ends_input prompt keys (k : string * list key -> Tty A) s
    (post : A -> terminal -> Prop) :
  let s' := mk_terminal (host s) (screen s ++ [Asked prompt]) in
  (keys = [] -> fail eof_error s') ->
  (forall rest, keys = CtrlC :: rest -> fail keyboard_interrupt s') ->
  (forall text rest, keys = Typed text :: rest -> ends (k (text, rest)) s' post fail) ->
  ends (tty_bind (input prompt keys) k) s post fail.
Proof.
  intros s' Heof Hint Htyped. unfold ends, tty_bind, input.
  destruct keys as [|[text|] rest]; [by apply Heof | | by eapply Hint].
  by apply (Htyped text rest).
Qed.

Lemma ends_while_true prompt (round : string -> Tty (option A))
    (I : list key -> terminal -> Prop) (Q : A -> list key -> terminal -> Prop) keys s :
  I keys s ->
  (forall s, I [] s ->
     fail eof_error (mk_terminal (host s) (screen s ++ [Asked prompt]))) ->
  (forall rest s, I (CtrlC :: rest) s ->
     fail keyboard_interrupt (mk_terminal (host s) (screen s ++ [Asked prompt]))) ->
  (forall text rest s, I (Typed text :: rest) s ->
     ends (round text) (mk_terminal (host s) (screen s ++ [Asked prompt]))
          (fun r s' => match r with Some a => Q a rest s' | None => I rest s' end) fail) ->
  ends (while_true prompt round keys) s (fun r s' => Q r.1 r.2 s') fail.
Proof.
  intros HI Heof Hint Hround. unfold ends.
  pose proof (while_true_rule prompt round I Q fail Heof Hint) as H.
  specialize (H (fun text rest s HI =>
    ltac:(specialize (Hround text rest s HI); unfold ends in Hround;
          destruct (round text _) as [[e|[a|]] s']; exact Hround)) keys s HI).
  by destruct (while_true prompt round keys s) as [[e|[a rest]] s'].
Qed.

End Ends.

Lemma dialogue_failure_eof lib keys : left_of keys [] -> dialogue_failure lib keys eof_error.
Proof. intros H. left. split; [done | by apply left_of_nil]. Qed.

Lemma dialogue_failure_interrupt lib keys rest :
  left_of keys (CtrlC :: rest) -> dialogue_failure lib keys keyboard_interrupt.
Proof. intros H. right. left. split; [done | by eapply left_of_CtrlC]. Qed.

(** How [get_user_input] ends, whatever is typed. *)
Lemma get_user_input_ends lib keys s :
  ends (get_user_input lib keys) s
    (fun rest s' =>
       left_of keys rest /\ same_run s s' /\
       validated lib keys (self (host s)) (self (host s')))
    (fun e s' => dialogue_failure lib keys e /\ same_run s s').
Proof.
  set (fail := fun e s' => dialogue_failure lib keys e /\ same_run s s').
  set (P0 := fun (rest : list key) (s' : terminal) =>
               left_of keys rest /\ same_run s s' /\
               request_body (self (host s')) = request_body (self (host s))).
  set (P1 := fun (rest : list key) (s' : terminal) =>
               P0 rest s' /\ url_checked lib keys (self (host s'))).
  set (P2 := fun (rest : list key) (s' : terminal) =>
               P1 rest s' /\ method_checked lib keys (self (host s'))).
  set (P3 := fun (rest : list key) (s' : terminal) =>
               left_of keys rest /\ same_run s s' /\
               url_checked lib keys (self (host s')) /\
               method_checked lib keys (self (host s')) /\
               body_checked lib keys (self (host s)) (self (host s'))).
  set (P4 := fun (rest : list key) (s' : terminal) =>
               P3 rest s' /\ rate_checked lib keys (self (host s'))).
  set (P5 := fun (rest : list key) (s' : terminal) =>
               P4 rest s' /\ total_checked lib keys (self (host s'))).
  set (P6 := fun (rest : list key) (s' : terminal) =>
               P5 rest s' /\ user_agent_checked lib keys (self (host s'))).
  assert (Heof : forall (P : list key -> terminal -> Prop) prompt,
            (forall rest s', P rest s' -> left_of keys rest /\ same_run s s') ->
            forall s', P [] s' ->
              fail eof_error (mk_terminal (host s') (screen s' ++ [Asked prompt]))).
  { intros P prompt HP s' HP'. destruct (HP _ _ HP') as [Hl Hs].
    split; [by apply dialogue_failure_eof | exact Hs]. }
  assert (Hint : forall (P : list key -> terminal -> Prop) prompt,
            (forall rest s', P rest s' -> left_of keys rest /\ same_run s s') ->
            forall rest s', P (CtrlC :: rest) s' ->
              fail keyboard_interrupt
                   (mk_terminal (host s') (screen s' ++ [Asked prompt]))).
  { intros P prompt HP rest s' HP'. destruct (HP _ _ HP') as [Hl Hs].
    split; [by eapply dialogue_failure_interrupt | exact Hs]. }
  unfold get_user_input. do 3 apply ends_say. cbn [host screen].
  eapply ends_bind.
  { apply (ends_while_true fail _ _ P0 (fun _ => P1)).
    - split; [apply left_of_refl | done].
    - apply Heof. by intros ? ? (? & ? & _).
    - apply Hint. by intros ? ? (? & ? & _).
    - intros text rest s1 (Hl & [Htr Hrs] & Hbody).
      pose proof (left_of_Typed _ _ _ Hl) as Hin.
      unfold url_round. apply ends_assign. apply ends_field. cbn [self host url set_url].
      destruct (str_truthy (str_strip lib text)) eqn:Hu.
      + destruct (urlparse lib (str_strip lib text)) as [e|parsed] eqn:Hparse.
        * apply ends_raise. split; [|done].
          right. right. left. by exists text.
        * destruct (str_truthy (scheme parsed) && str_truthy (netloc parsed)) eqn:Hok.
          -- apply ends_ret. apply andb_prop in Hok as [Hs Hn].
             split; [split; [by eapply left_of_step | done]|].
             split; [by exists text|].
             split; [by intros E; cbn in E; rewrite E in Hu|].
             exists parsed. cbn. split; [done|].
             split; intros E; rewrite E in *; discriminate.
          -- apply ends_say. apply ends_ret.
             split; [by eapply left_of_step | done].
      + apply ends_say. apply ends_ret. split; [by eapply left_of_step | done]. }
  intros [[] rest1] s1 H1. cbn [fst snd] in *.
  eapply ends_bind.
  { apply (ends_while_true fail _ _ P1 (fun _ => P2)).
    - exact H1.
    - apply Heof. by intros ? ? ((? & ? & _) & _).
    - apply Hint. by intros ? ? ((? & ? & _) & _).
    - intros text rest s2 ((Hl & [Htr Hrs] & Hbody) & Hurl).
      pose proof (left_of_Typed _ _ _ Hl) as Hin.
      unfold method_round.
      destruct (bool_decide (str_upper lib (str_strip lib text)
                               ∈ ["GET"; "POST"; "PUT"; "DELETE"]%string)) eqn:Hm.
      + apply ends_assign. apply ends_ret. apply bool_decide_eq_true in Hm.
        split; [|split; [by exists text | exact Hm]]. split; [|exact Hurl].
        split; [by eapply left_of_step | done].
      + apply ends_say. apply ends_ret.
        split; [|exact Hurl]. split; [by eapply left_of_step | done]. }
  intros [[] rest2] s2 H2. cbn [fst snd] in *.
  eapply ends_bind with (mid := P3).
  { destruct H2 as (((Hl & [Htr Hrs] & Hbody) & Hurl) & Hmethod).
    unfold request_body_step. apply ends_field.
    destruct (bool_decide (method (self (host s2)) ∈ ["POST"; "PUT"]%string)) eqn:Hm.
    - apply ends_input.
      + intros ->. split; [by apply dialogue_failure_eof | done].
      + intros rest ->. split; [by eapply dialogue_failure_interrupt | done].
      + intros text rest ->. cbn [fst snd].
        pose proof (left_of_Typed _ _ _ Hl) as Hin.
        assert (Hset : forall s',
                  host s' = mk_machine
                              (set_request_body (Some (body_of lib text)) (self (host s2)))
                              (trace (host s2)) ->
                  P3 rest s').
        { intros s' Hs'. unfold P3, same_run. rewrite Hs'.
          split; [by eapply left_of_step|]. split; [done|].
          split; [done|]. split; [done|].
          unfold body_checked. cbn [self host method set_request_body request_body].
          rewrite Hm. by exists text. }
        unfold body_of in Hset.
        destruct (str_truthy (str_strip lib text)).
        * destruct (json_loads lib (str_strip lib text)) as [value| |e] eqn:Hload.
          -- apply ends_assign. apply ends_ret. by apply Hset.
          -- unfold ends, tty_bind, say, assign, tty_ret. by apply Hset.
          -- unfold ends, tty_bind, tty_raise. split; [|done].
             right. right. right. by exists text.
        * apply ends_assign. apply ends_ret. by apply Hset.
    - apply ends_ret. split; [done|]. split; [done|]. split; [done|]. split; [done|].
      unfold body_checked. by rewrite Hm. }
  intros rest3 s3 H3.
  eapply ends_bind.
  { apply (ends_while_true fail _ _ P3 (fun _ => P4)).
    - exact H3.
    - apply Heof. by intros ? ? (? & ? & _).
    - apply Hint. by intros ? ? (? & ? & _).
    - intros text rest s4 (Hl & [Htr Hrs] & Hurl & Hmethod & Hbody).
      pose proof (left_of_Typed _ _ _ Hl) as Hin.
      assert (forall s', host s' = host s4 -> P3 rest s') as Hkeep.
      { intros s' Hs'. unfold P3, same_run. rewrite Hs'.
        split; [by eapply left_of_step | done]. }
      unfold rps_round. destruct (int_of_str lib text) as [rps|] eqn:Hint'.
      + destruct (0 <? rps) eqn:Hpos.
        * apply ends_assign. apply ends_ret. apply Z.ltb_lt in Hpos.
          split; [|split; [by exists text | exact Hpos]].
          split; [by eapply left_of_step | done].
        * apply ends_say. apply ends_ret. by apply Hkeep.
      + apply ends_say. apply ends_ret. by apply Hkeep. }
  intros [[] rest4] s4 H4. cbn [fst snd] in *.
  eapply ends_bind.
  { apply (ends_while_true fail _ _ P4 (fun _ => P5)).
    - exact H4.
    - apply Heof. by intros ? ? ((? & ? & _) & _).
    - apply Hint. by intros ? ? ((? & ? & _) & _).
    - intros text rest s5 ((Hl & [Htr Hrs] & Hurl & Hmethod & Hbody) & Hrps).
      pose proof (left_of_Typed _ _ _ Hl) as Hin.
      assert (forall s', host s' = host s5 -> P4 rest s') as Hkeep.
      { intros s' Hs'. unfold P4, P3, same_run. rewrite Hs'.
        split; [|exact Hrps]. split; [by eapply left_of_step | done]. }
      unfold total_round. destruct (int_of_str lib text) as [total|] eqn:Hint'.
      + destruct (0 <? total) eqn:Hpos.
        * apply ends_assign. apply ends_ret. apply Z.ltb_lt in Hpos.
          split; [|split; [by exists text | exact Hpos]]. split; [|exact Hrps].
          split; [by eapply left_of_step | done].
        * apply ends_say. apply ends_ret. by apply Hkeep.
      + apply ends_say. apply ends_ret. by apply Hkeep. }
  intros [[] rest5] s5 H5. cbn [fst snd] in *.
  eapply ends_bind.
  { apply (ends_while_true fail _ _ P5 (fun _ => P6)).
    - exact H5.
    - apply Heof. by intros ? ? (((? & ? & _) & _) & _).
    - apply Hint. by intros ? ? (((? & ? & _) & _) & _).
    - intros text rest s6 (((Hl & [Htr Hrs] & Hurl & Hmethod & Hbody) & Hrps) & Htotal).
      pose proof (left_of_Typed _ _ _ Hl) as Hin.
      assert (forall s' b,
                host s' = mk_machine (set_use_random_user_agent b (self (host s6)))
                                     (trace (host s6)) ->
                P5 rest s') as Hset.
      { intros s' b Hs'. unfold P5, P4, P3, same_run. rewrite Hs'.
        split; [|exact Htotal]. split; [|exact Hrps].
        split; [by eapply left_of_step | done]. }
      assert (forall s', host s' = host s6 -> P5 rest s') as Hkeep.
      { intros s' Hs'. unfold P5, P4, P3, same_run. rewrite Hs'.
        split; [|exact Htotal]. split; [|exact Hrps].
        split; [by eapply left_of_step | done]. }
      unfold user_agent_round.
      destruct (bool_decide (str_lower lib (str_strip lib text) ∈ ["yes"; "y"]%string))
        eqn:Hyes.
      + apply ends_assign. apply ends_ret. split; [by eapply Hset|].
        exists text. split; [done|]. rewrite Hyes. split; [|done].
        apply bool_decide_eq_true in Hyes.
        apply (proj2 (elem_of_app ["yes"; "y"]%string ["no"; "n"]%string _)). by left.
      + destruct (bool_decide (str_lower lib (str_strip lib text) ∈ ["no"; "n"]%string))
          eqn:Hno.
        * apply ends_assign. apply ends_ret. split; [by eapply Hset|].
          exists text. split; [done|]. rewrite Hyes. split; [|done].
          apply bool_decide_eq_true in Hno.
          apply (proj2 (elem_of_app ["yes"; "y"]%string ["no"; "n"]%string _)). by right.
        * apply ends_say. apply ends_ret. by apply Hkeep. }
  intros [[] rest6] s6
    ((((Hl & Hsame & Hurl & Hmethod & Hbody) & Hrps) & Htotal) & Hua).
  apply ends_ret. cbn [fst snd]. done.
Qed.

Example demo_dialogue :
  let out := get_user_input demo_library demo_keys power_on in
  out.1 = inr [] /\ self (host out.2) = demo_tester /\
  screen out.2
  = [Printed (str_repeat "=" 50); Printed "API Load Tester"; Printed (str_repeat "=" 50);
     Asked "Enter API URL (e.g., https://example.com/api): ";
     Printed "URL cannot be empty.";
     Asked "Enter API URL (e.g., https://example.com/api): ";
     Printed "Invalid URL format. Please include http:// or https://";
     Asked "Enter API URL (e.g., https://example.com/api): ";
     Asked "Enter HTTP method (GET/POST/PUT/DELETE): ";
     Printed "Invalid method. Please enter GET, POST, PUT, or DELETE.";
     Asked "Enter HTTP method (GET/POST/PUT/DELETE): ";
     Asked "Enter request body (JSON format, or press Enter for empty): ";
     Printed "Invalid JSON format. Using empty body.";
     Asked "Enter number of requests per second: ";
     Printed "Please enter a valid number.";
     Asked "Enter number of requests per second: ";
     Printed "Requests per second must be greater than 0.";
     Asked "Enter number of requests per second: ";
     Asked "Enter total number of requests to send: ";
     Printed "Total requests must be greater than 0.";
     Asked "Enter total number of requests to send: ";
     Asked "Use random User-Agent headers? (yes/no): ";
     Printed "Please enter 'yes' or 'no'.";
     Asked "Use random User-Agent headers? (yes/no): "].
Proof. vm_compute. done. Qed.

(** X14. What the dialogue guarantees.  Whenever [get_user_input] returns,
    whatever was typed and whatever the object held before: every attribute
    of the configuration holds an answer that was typed and that passed its
    check (the URL is not empty and has a scheme and a host, the method is
    GET, POST, PUT or DELETE, a body is set exactly for POST and PUT, the
    rate and the total are positive integers, the flag is the yes or no that
    was answered); the answers were read from the front of the input; and the
    dialogue touched neither the recorded outcomes nor the trace of the run. *)
Theorem get_user_input_validates :
  forall (lib : Library) (keys rest : list key) (s : terminal),
    (get_user_input lib keys s).1 = inr rest ->
    let s' := (get_user_input lib keys s).2 in
    validated lib keys (self (host s)) (self (host s')) /\
    left_of keys rest /\
    results (self (host s')) = results (self (host s)) /\
    trace (host s') = trace (host s).
Proof.
  intros lib keys rest s Hret s'. subst s'.
  pose proof (get_user_input_ends lib keys s) as H. unfold ends in H.
  destruct (get_user_input lib keys s) as [[e|rest'] s']; [discriminate|].
  injection Hret as ->. destruct H as (Hl & [Htr Hrs] & Hv). done.
Qed.

Lemma get_user_input_validates_witness :
  (get_user_input demo_library demo_keys power_on).1 = inr [] /\
  let s' := (get_user_input demo_library demo_keys power_on).2 in
  validated demo_library demo_keys (self (host power_on)) (self (host s')) /\
  left_of demo_keys [] /\
  results (self (host s')) = results (self (host power_on)) /\
  trace (host s') = trace (host power_on).
Proof.
  refine ((fun H : (get_user_input demo_library demo_keys power_on).1 = inr [] =>
             conj H (get_user_input_validates demo_library demo_keys [] power_on H)) _).
  vm_compute. reflexivity.
Defined.

(** X15. How the dialogue can fail.  [get_user_input] raises only in three
    ways: [EOFError] when the input ends before the last question is
    answered (and then no interrupt was typed), [KeyboardInterrupt] when the
    operator interrupts, or what [urlparse] or [json.loads] raised on one of
    the answers; a rejected answer, a number [int] cannot read and invalid
    JSON never raise.  Whatever was assigned before the failure, the
    recorded outcomes and the trace of the run are untouched. *)
Theorem get_user_input_raises :
  forall (lib : Library) (keys : list key) (s : terminal) (e : py_exception),
    (get_user_input lib keys s).1 = inl e ->
    let s' := (get_user_input lib keys s).2 in
    dialogue_failure lib keys e /\
    results (self (host s')) = results (self (host s)) /\
    trace (host s') = trace (host s).
Proof.
  intros lib keys s e Hraise s'. subst s'.
  pose proof (get_user_input_ends lib keys s) as H. unfold ends in H.
  destruct (get_user_input lib keys s) as [[e'|rest'] s']; [|discriminate].
  injection Hraise as ->. destruct H as (Hf & [Htr Hrs]). done.
Qed.

Lemma get_user_input_raises_witness :
  (get_user_input demo_library short_keys power_on).1 = inl eof_error /\
  let s' := (get_user_input demo_library short_keys power_on).2 in
  dialogue_failure demo_library short_keys eof_error /\
  results (self (host s')) = results (self (host power_on)) /\
  trace (host s') = trace (host power_on).
Proof.
  refine ((fun H : (get_user_input demo_library short_keys power_on).1 = inl eof_error =>
             conj H (get_user_input_raises demo_library short_keys power_on eof_error H)) _).
  vm_compute. reflexivity.
Defined.

Lemma run_handlers_run w py_sqrt :
  run w py_sqrt = try_except (run_load_test w py_sqrt) (run_handlers py_sqrt).
Proof. reflexivity. Qed.



(** X17. A dialogue that does not get through.  When [get_user_input] raises,
    [main] sends no request and opens no session, and the collection stays
    empty.  After an interrupt it prints the notice, no partial results, and
    returns; after the end of the input or an error of the library it prints
    the error on one line and raises [SystemExit] with status 1. *)
Theorem main_after_a_failed_dialogue :
  forall (lib : Library) (w : World) (py_sqrt : Q -> Q) (keys : list key)
         (e : py_exception),
    (get_user_input lib keys power_on).1 = inl e ->
    let asked := (get_user_input lib keys power_on).2 in
    let out := main lib w py_sqrt keys in
    dialogue_failure lib keys e /\
    screen out.2 = screen asked /\
    self (host out.2) = self (host asked) /\
    results (self (host out.2)) = [] /\
    (isinstance e KeyboardInterrupt = true ->
     out.1 = inr tt /\ trace (host out.2) = [EvPrint Interrupted]) /\
    (isinstance e KeyboardInterrupt = false -> isinstance e Exception = true ->
     out.1 = inl (mk_exception [SystemExit; BaseException] "1") /\
     trace (host out.2) = [EvPrint (UnexpectedErrorLine (exc_str e))]) /\
    (e = eof_error ->
     out.1 = inl (mk_exception [SystemExit; BaseException] "1") /\
     trace (host out.2) = [EvPrint (UnexpectedErrorLine "EOF when reading a line")]).
Proof.
  intros lib w py_sqrt keys e Hraise asked out.
  assert (Hasked : dialogue_failure lib keys e /\
                   results (self (host asked)) = [] /\ trace (host asked) = []).
  { pose proof (get_user_input_ends lib keys power_on) as H. unfold ends in H.
    subst asked.
    destruct (get_user_input lib keys power_on) as [[e'|rest'] s']; [|discriminate].
    injection Hraise as ->. by destruct H as (Hf & [Htr Hrs]). }
  destruct Hasked as (Hf & Hrs & Htr).
  split; [exact Hf|].
  assert (Hout : out = let r := run_handlers py_sqrt e (host asked) in
                       (r.1, mk_terminal r.2 (screen asked))).
  { unfold out, main, run_with_input, tty_try_except, tty_bind. fold asked.
    destruct (get_user_input lib keys power_on) as [[e'|rest'] s'] eqn:E; [|discriminate].
    cbn in Hraise. injection Hraise as ->. reflexivity. }
  rewrite Hout. cbv zeta. cbn [fst snd host screen].
  destruct (host asked) as [t tr] eqn:Hhost. cbn [self trace] in *. subst tr.
  assert (Hcases :
    (isinstance e KeyboardInterrupt = true ->
     run_handlers py_sqrt e (mk_machine t [])
     = (inr tt, mk_machine t [EvPrint Interrupted])) /\
    (isinstance e KeyboardInterrupt = false -> isinstance e Exception = true ->
     run_handlers py_sqrt e (mk_machine t [])
     = (inl (mk_exception [SystemExit; BaseException] "1"),
        mk_machine t [EvPrint (UnexpectedErrorLine (exc_str e))])) /\
    self (run_handlers py_sqrt e (mk_machine t [])).2 = t).
  { unfold run_handlers. destruct (isinstance e KeyboardInterrupt).
    - erewrite bind_runs by apply runs_print.
      erewrite bind_runs by apply runs_attr. rewrite Hrs. cbn.
      split; [done|]. split; done.
    - destruct (isinstance e Exception).
      + erewrite bind_runs by apply runs_print. cbn. split; [done|]. split; done.
      + cbn. split; [done|]. split; done. }
  destruct Hcases as (Hki & Hex & Hself).
  split; [done|]. split; [done|]. split; [by rewrite Hself|].
  split; [|split].
  - intros H. by rewrite (Hki H).
  - intros H1 H2. by rewrite (Hex H1 H2).
  - intros ->. by rewrite (Hex eq_refl eq_refl).
Qed.

Lemma main_after_a_failed_dialogue_witness :
  (get_user_input demo_library interrupted_keys power_on).1 = inl keyboard_interrupt /\
  let out := main demo_library demo_world demo_sqrt interrupted_keys in
  dialogue_failure demo_library interrupted_keys keyboard_interrupt /\
  results (self (host out.2)) = [] /\
  out.1 = inr tt /\ trace (host out.2) = [EvPrint Interrupted].
Proof.
  refine ((fun H : (get_user_input demo_library interrupted_keys power_on).1
                   = inl keyboard_interrupt =>
             let T := main_after_a_failed_dialogue demo_library demo_world demo_sqrt
                        interrupted_keys keyboard_interrupt H in
             conj H (conj (proj1 T)
               (conj (proj1 (proj2 (proj2 (proj2 T))))
                     (proj1 (proj2 (proj2 (proj2 (proj2 T)))) eq_refl)))) _).
  vm_compute. reflexivity.
Defined.

(** *** The order of the questions *)








